(** * opengcs: device registries, mount primitive, overlay composer and the
      shutdown handlers, embedded in Rocq.

    The Go packages [storage], [scsi], [pmem], [overlay], [bridge] and [gcs]
    are translated function by function.  Go pointers to registry entries are
    locations of an explicit heap, package level [sync.Map]s are finite maps
    from keys to locations, and the function valued test seams of each package
    ([syscallMount], [ioutilReadDir], [osOpenFile], ...) are oracles that see the
    whole history of calls made so far.  Every call through a seam is appended
    to a trace, so that "was called", "was called once" and "was not called
    again" are statements about that trace.

    Next to these, the stateless lookups of scsi.go ([scsi_go]), the response
    writer of a bridge request ([bridge_response]), the handlers that answer
    with the plain envelope ([gcs_requests]) and [SignalProcess] of package
    [runtimev2] are translated in modules of their own.

    Logging ([logrus]) has no effect on any value the program computes and is
    left out.  Mutexes are left out too: the embedding is sequential, each
    function runs to completion before the next one starts. *)

From stdpp Require Import gmap strings list pretty.
From Stdlib Require Import ZArith Lia.

Open Scope Z_scope.

(** ** Go values shared by all packages *)

(** Go's [error] values.  A nil [error] is [None : option error].
    [errors.New] and [fmt.Errorf] build [errorString]; [errors.Wrap] and
    [errors.Wrapf] build [withMessage] around a non-nil cause;
    [os.ErrNotExist] and [*os.PathError] are what the file system returns. *)
Inductive error : Type :=
| errorString (msg : string)
| ErrNotExist
| PathError (op path : string) (err : error)
| withMessage (cause : error) (msg : string).

#[global] Instance error_eq_dec : EqDecision error.
Proof. solve_decision. Defined.

Definition errors_New (msg : string) : error := errorString msg.
Definition fmt_Errorf (msg : string) : error := errorString msg.
Definition errors_Wrap (err : error) (msg : string) : error := withMessage err msg.

(** [os.IsNotExist]: unwraps a [*os.PathError] and compares with
    [os.ErrNotExist].  It does not look through [errors.Wrap]. *)
Definition os_IsNotExist (err : error) : bool :=
  match err with
  | ErrNotExist => true
  | PathError _ _ ErrNotExist => true
  | _ => false
  end.

(** [errors.Cause]: the innermost cause of a chain of wrappers. *)
Fixpoint errors_Cause (err : error) : error :=
  match err with
  | withMessage cause _ => errors_Cause cause
  | _ => err
  end.

(** Constants of Go's [syscall] and [os] packages on linux. *)
Definition MS_RDONLY : Z := 1.
Definition O_RDONLY : Z := 0.
Definition O_WRONLY : Z := 1.

(** [filepath.Join] on path elements that are already clean (non-empty, no
    separator at either end, no dot components): the elements joined by a
    slash. *)
Definition filepath_Join (elems : list string) : string :=
  String.concat "/" elems.

(** [strings.Join]. *)
Definition strings_Join (elems : list string) (sep : string) : string :=
  String.concat sep elems.

(** ** The world outside the process *)

(** One record per call through a test seam, with its arguments and what the
    seam answered. *)
Inductive Event : Type :=
| EvMount (source target fstype : string) (flags : Z) (data : string)
          (res : option error)
| EvUnmount (target : string) (flags : Z) (res : option error)
| EvReadDir (dirname : string) (res : list string + error)
| EvSleep (d : Z)
| EvOpenFile (path : string) (flag perm : Z) (res : option error)
| EvWrite (path : string) (data : string) (res : option error)
| EvClose (path : string)
| EvMkdirAll (path : string) (perm : Z) (res : option error)
| EvRemoveAll (path : string) (res : option error).

#[global] Instance Event_eq_dec : EqDecision Event.
Proof. solve_decision. Defined.

(** The trace is chronological; [clock] is the monotonic clock in
    nanoseconds. *)
Record World : Type := mkWorld {
  trace : list Event;
  clock : Z
}.

Definition log (ev : Event) (w : World) : World :=
  {| trace := trace w ++ [ev]; clock := clock w |}.

Definition advance (d : Z) (w : World) : World :=
  {| trace := trace w; clock := clock w + d |}.

(** ** Outcomes of a Go call *)

(** A call returns, panics, or (in the embedding only) exhausts the fuel of a
    loop.  [resolve_returns] below shows that the third case never arises. *)
Inductive Res (S A : Type) : Type :=
| Ok (a : A) (s : S)
| Panic (msg : string) (s : S)
| OutOfFuel.

Arguments Ok {S A} a s.
Arguments Panic {S A} msg s.
Arguments OutOfFuel {S A}.

Definition M (S A : Type) : Type := S -> Res S A.

Definition ret {S A} (a : A) : M S A := fun s => Ok a s.

Definition bind {S A B} (m : M S A) (k : A -> M S B) : M S B :=
  fun s =>
    match m s with
    | Ok a s' => k a s'
    | Panic msg s' => Panic msg s'
    | OutOfFuel => OutOfFuel
    end.

Definition get {S} : M S S := fun s => Ok s s.
Definition modify {S} (f : S -> S) : M S unit := fun s => Ok tt (f s).
Definition panic {S A} (msg : string) : M S A := fun s => Panic msg s.

Notation "x <- m ;; k" := (bind m (fun x => k))
  (at level 100, m at next level, right associativity).
Notation "m ;;; k" := (bind m (fun _ => k))
  (at level 100, right associativity).

(** ** package storage: the mount primitive *)

Module storage.

(** Testing dependencies of the package. *)
Record Deps : Type := {
  syscallMount : list Event -> string -> string -> string -> Z -> string -> option error;
  syscallUnmount : list Event -> string -> Z -> option error
}.

Definition ErrPathNotMounted : error := errors_New "path not mounted".

Record Mount : Type := mkMount {
  target : string;
  mounted : bool;
  refCount : Z
}.

Definition call_syscallMount (D : Deps) (source tgt fstype : string)
    (flags : Z) (data : string) : M World (option error) :=
  fun w =>
    let r := syscallMount D (trace w) source tgt fstype flags data in
    Ok r (log (EvMount source tgt fstype flags data r) w).

Definition call_syscallUnmount (D : Deps) (tgt : string) (flags : Z)
    : M World (option error) :=
  fun w =>
    let r := syscallUnmount D (trace w) tgt flags in
    Ok r (log (EvUnmount tgt flags r) w).

Definition mount_error (err : error) (source tgt : string) : error :=
  errors_Wrap err
    ("failed to mount source: '" +:+ source +:+ "' to target: '" +:+ tgt +:+ "'").

(** [cleanup] is the closure the device entry hands over.  The body never
    mentions it. *)
Definition GetOrCreateMount {S} (D : Deps) (source tgt fstype : string)
    (flags : Z) (data : string) (cleanup : M S unit)
    : M World (option Mount * option error) :=
  err <- call_syscallMount D source tgt fstype flags data ;;
  match err with
  | Some e => ret (None, Some (mount_error e source tgt))
  | None => ret (Some {| target := tgt; mounted := true; refCount := 0 |}, None)
  end.

Definition NewMount (D : Deps) (source tgt fstype : string)
    (flags : Z) (data : string) : M World (option Mount * option error) :=
  err <- call_syscallMount D source tgt fstype flags data ;;
  match err with
  | Some e => ret (None, Some (mount_error e source tgt))
  | None => ret (Some {| target := tgt; mounted := true; refCount := 0 |}, None)
  end.

Definition Target (m : Mount) : string := target m.
Definition IsMounted (m : Mount) : bool := mounted m.

Definition unmount_error (err : error) (tgt : string) : error :=
  errors_Wrap err ("failed to unmount path: " +:+ tgt).

(** [Unmount] has a pointer receiver and assigns [m.mounted]; the embedding
    returns the receiver after the call next to the error. *)
Definition Unmount (D : Deps) (m : Mount) (flags : Z)
    : M World (Mount * option error) :=
  if negb (mounted m) then ret (m, Some ErrPathNotMounted)
  else
    err <- call_syscallUnmount D (target m) flags ;;
    match err with
    | Some e => ret (m, Some (unmount_error e (target m)))
    | None =>
        ret ({| target := target m; mounted := false; refCount := refCount m |}, None)
    end.

End storage.

(** ** Time *)

Definition Millisecond : Z := 1000000.
Definition Second : Z := 1000 * Millisecond.

(** [time.Sleep] returns after the given duration; every other delay is
    accounted for by the time the directory seam says its call took. *)
Definition time_Now : M World Z := fun w => Ok (clock w) w.
Definition time_Since (t : Z) : M World Z := fun w => Ok (clock w - t) w.
Definition time_Sleep (d : Z) : M World unit :=
  fun w => Ok tt (advance d (log (EvSleep d) w)).

(** Go's [int] on linux/amd64: 64 bits, two's complement. *)
Definition wrap64 (z : Z) : Z := (z + 2 ^ 63) mod 2 ^ 64 - 2 ^ 63.

Definition LF : string := String (Ascii.ascii_of_nat 10) EmptyString.
Definition DQ : string := String (Ascii.ascii_of_nat 34) EmptyString.

(** [%q] on a string without characters that need escaping. *)
Definition quoted (s : string) : string := DQ +:+ s +:+ DQ.

(** ** package scsi: the SCSI device registry *)

Module scsi.

(** Testing dependencies of the package.  [ioutilReadDir] answers with the
    names of the directory entries, or an error, and with the time the call
    took; [osOpenFile] answers nil when the file was opened and [fileWrite]
    is the [Write] method of the file it opened. *)
Record Deps : Type := {
  ioutilReadDir : list Event -> string -> (list string + error) * N;
  osOpenFile : list Event -> string -> Z -> Z -> option error;
  fileWrite : list Event -> string -> string -> option error
}.

Definition loc : Type := nat.

Record Scsi : Type := mkScsi {
  key : string;
  controller : N;
  lun : N;
  source : string;
  resolveError : option error;
  refCount : Z
}.

(** The package level variables, the objects they point to, and the world. *)
Record State : Type := mkState {
  world : World;
  scsiDevices : gmap string loc;
  heap : gmap loc Scsi;
  scsiDeviceLookupTimeout : Z
}.

Definition set_world (f : World -> World) (st : State) : State :=
  {| world := f (world st); scsiDevices := scsiDevices st;
     heap := heap st; scsiDeviceLookupTimeout := scsiDeviceLookupTimeout st |}.
Definition set_scsiDevices (f : gmap string loc -> gmap string loc) (st : State) : State :=
  {| world := world st; scsiDevices := f (scsiDevices st);
     heap := heap st; scsiDeviceLookupTimeout := scsiDeviceLookupTimeout st |}.
Definition set_heap (f : gmap loc Scsi -> gmap loc Scsi) (st : State) : State :=
  {| world := world st; scsiDevices := scsiDevices st;
     heap := f (heap st); scsiDeviceLookupTimeout := scsiDeviceLookupTimeout st |}.

(** A computation on the world, run inside the package state. *)
Definition liftW {A} (m : M World A) : M State A :=
  fun st =>
    match m (world st) with
    | Ok a w => Ok a (set_world (fun _ => w) st)
    | Panic msg w => Panic msg (set_world (fun _ => w) st)
    | OutOfFuel => OutOfFuel
    end.

(** Pointers: [new] is [&Scsi{...}], [load] reads through a pointer (a nil
    or invalid pointer panics), [store] writes through it. *)
Definition new (e : Scsi) : M State loc :=
  fun st =>
    let l := fresh (dom (heap st)) in
    Ok l (set_heap (insert l e) st).
Definition load (s : loc) : M State Scsi :=
  fun st =>
    match heap st !! s with
    | Some e => Ok e st
    | None => Panic "invalid memory address or nil pointer dereference" st
    end.
Definition store (s : loc) (e : Scsi) : M State unit :=
  modify (set_heap (insert s e)).

Definition with_source (src : string) (e : Scsi) : Scsi :=
  {| key := key e; controller := controller e; lun := lun e;
     source := src; resolveError := resolveError e; refCount := refCount e |}.
Definition with_resolveError (err : option error) (e : Scsi) : Scsi :=
  {| key := key e; controller := controller e; lun := lun e;
     source := source e; resolveError := err; refCount := refCount e |}.
Definition with_refCount (n : Z) (e : Scsi) : Scsi :=
  {| key := key e; controller := controller e; lun := lun e;
     source := source e; resolveError := resolveError e; refCount := n |}.

(** [sync.Map] methods on [scsiDevices]. *)
Definition LoadOrStore (k : string) (v : loc) : M State loc :=
  fun st =>
    match scsiDevices st !! k with
    | Some actual => Ok actual st
    | None => Ok v (set_scsiDevices (insert k v) st)
    end.
Definition Load (k : string) : M State (option loc) :=
  fun st => Ok (scsiDevices st !! k) st.
Definition Delete (k : string) : M State unit :=
  modify (set_scsiDevices (delete k)).

(** Calls through the seams. *)
Definition call_ioutilReadDir (D : Deps) (dirname : string)
    : M World (list string + error) :=
  fun w =>
    let '(r, dt) := ioutilReadDir D (trace w) dirname in
    Ok r (advance (Z.of_N dt) (log (EvReadDir dirname r) w)).
Definition call_osOpenFile (D : Deps) (path : string) (flag perm : Z)
    : M World (option error) :=
  fun w =>
    let r := osOpenFile D (trace w) path flag perm in
    Ok r (log (EvOpenFile path flag perm r) w).
Definition call_fileWrite (D : Deps) (path data : string)
    : M World (option error) :=
  fun w =>
    let r := fileWrite D (trace w) path data in
    Ok r (log (EvWrite path data r) w).
Definition call_fileClose (path : string) : M World unit :=
  fun w => Ok tt (log (EvClose path) w).

Definition scsiDevicesKey (controller lun : N) : string :=
  "0:0:" +:+ pretty controller +:+ ":" +:+ pretty lun.

(** The [for] loop of [resolve].  It returns the directory listing after
    the [break], or the error that the loop stored in [s.resolveError] and
    returned. *)
Fixpoint resolve_loop (D : Deps) (fuel : nat) (s : loc) (path : string)
    (now : Z) : M State (list string + error) :=
  match fuel with
  | O => fun _ => OutOfFuel
  | S fuel' =>
      r <- liftW (call_ioutilReadDir D path) ;;
      match r with
      | inr err =>
          if negb (os_IsNotExist err) then
            (e <- load s ;; store s (with_resolveError (Some err) e)) ;;;
            ret (inr err)
          else
            since <- liftW (time_Since now) ;;
            st <- get ;;
            if decide (since > scsiDeviceLookupTimeout st) then
              let terr :=
                errors_Wrap err ("timed out waiting for SCSI device: " +:+ path) in
              (e <- load s ;; store s (with_resolveError (Some terr) e)) ;;;
              ret (inr terr)
            else
              liftW (time_Sleep (Millisecond * 10)) ;;;
              resolve_loop D fuel' s path now
      | inl deviceNames => ret (inl deviceNames)
      end
  end.

(** Every turn of the loop that does not leave it sleeps ten milliseconds,
    so this many turns exhaust any timeout. *)
Definition resolve_fuel (timeout : Z) : nat :=
  Z.to_nat (timeout / (Millisecond * 10)) + 2.

Definition resolve (D : Deps) (s : loc) : M State (option error) :=
  e <- load s ;;
  if decide (source e <> "") then ret None
  else
    match resolveError e with
    | Some err => ret (Some err)
    | None =>
        now <- liftW time_Now ;;
        let path := filepath_Join ["/sys/bus/scsi/devices"; key e; "block"] in
        st <- get ;;
        r <- resolve_loop D (resolve_fuel (scsiDeviceLookupTimeout st)) s path now ;;
        match r with
        | inr err => ret (Some err)
        | inl [] =>
            let err := fmt_Errorf
              ("no matching device names found for SCSI device: " +:+ path) in
            (e <- load s ;; store s (with_resolveError (Some err) e)) ;;;
            ret (Some err)
        | inl [name] =>
            (e <- load s ;; store s (with_source (filepath_Join ["/dev"; name]) e)) ;;;
            ret None
        | inl _ =>
            let err := fmt_Errorf
              ("more than one block device could match SCSI device: " +:+ path) in
            (e <- load s ;; store s (with_resolveError (Some err) e)) ;;;
            ret (Some err)
        end
    end.

Definition OpenDevice (D : Deps) (controller lun : N)
    : M State (option loc * option error) :=
  let key := scsiDevicesKey controller lun in
  p <- new {| key := key; controller := controller; lun := lun;
              source := ""; resolveError := None; refCount := 0 |} ;;
  actual <- LoadOrStore key p ;;
  err <- resolve D actual ;;
  match err with
  | Some e => Delete key ;;; ret (None, Some e)
  | None => ret (Some actual, None)
  end.

(** [eject]: the deferred [f.Close()] runs when the function returns, after
    the registry has been updated. *)
Definition eject (D : Deps) (s : loc) : M State unit :=
  e <- load s ;;
  store s (with_refCount (wrap64 (refCount e - 1)) e) ;;;
  e <- load s ;;
  if decide (refCount e < 0) then panic "scsi mount refcount mismatch"
  else if decide (refCount e = 0) then
    let path := filepath_Join ["/sys/bus/scsi/devices"; key e; "delete"] in
    oerr <- liftW (call_osOpenFile D path O_WRONLY 420) ;;
    opened <-
      match oerr with
      | Some _ => ret false
      | None => liftW (call_fileWrite D path ("1" +:+ LF)) ;;; ret true
      end ;;
    Delete (source e) ;;;
    if (opened : bool) then liftW (call_fileClose path) else ret tt
  else ret tt.

Definition MountTo (D : Deps) (SD : storage.Deps) (s : loc) (target : string)
    (readonly : bool) : M State (option storage.Mount * option error) :=
  e <- load s ;;
  store s (with_refCount (wrap64 (refCount e + 1)) e) ;;;
  let flags := if readonly then Z.lor 0 MS_RDONLY else 0 in
  let data := if readonly then "noload" else "" in
  e <- load s ;;
  liftW (storage.GetOrCreateMount SD (source e) target "ext4" flags data (eject D s)).

(** A [Mount] is owned by its caller; [Unmount] run inside the package
    state. *)
Definition Unmount (SD : storage.Deps) (m : storage.Mount) (flags : Z)
    : M State (storage.Mount * option error) :=
  liftW (storage.Unmount SD m flags).

Definition init (timeout : Z) : State :=
  {| world := {| trace := []; clock := 0 |}; scsiDevices := ∅; heap := ∅;
     scsiDeviceLookupTimeout := timeout |}.

End scsi.

(** ** package pmem: the PMEM device registry *)

Module pmem.

Definition loc : Type := nat.

Record Pmem : Type := mkPmem {
  deviceNumber : N;
  refCount : Z
}.

Record State : Type := mkState {
  world : World;
  pmemDevices : gmap string loc;
  heap : gmap loc Pmem
}.

Definition set_world (f : World -> World) (st : State) : State :=
  {| world := f (world st); pmemDevices := pmemDevices st; heap := heap st |}.
Definition set_pmemDevices (f : gmap string loc -> gmap string loc) (st : State) : State :=
  {| world := world st; pmemDevices := f (pmemDevices st); heap := heap st |}.
Definition set_heap (f : gmap loc Pmem -> gmap loc Pmem) (st : State) : State :=
  {| world := world st; pmemDevices := pmemDevices st; heap := f (heap st) |}.

Definition liftW {A} (m : M World A) : M State A :=
  fun st =>
    match m (world st) with
    | Ok a w => Ok a (set_world (fun _ => w) st)
    | Panic msg w => Panic msg (set_world (fun _ => w) st)
    | OutOfFuel => OutOfFuel
    end.

Definition new (e : Pmem) : M State loc :=
  fun st =>
    let l := fresh (dom (heap st)) in
    Ok l (set_heap (insert l e) st).
Definition load (p : loc) : M State Pmem :=
  fun st =>
    match heap st !! p with
    | Some e => Ok e st
    | None => Panic "invalid memory address or nil pointer dereference" st
    end.
Definition store (p : loc) (e : Pmem) : M State unit :=
  modify (set_heap (insert p e)).

(** [sync.Map.LoadOrStore] on [pmemDevices]. *)
Definition LoadOrStore (k : string) (v : loc) : M State loc :=
  fun st =>
    match pmemDevices st !! k with
    | Some actual => Ok actual st
    | None => Ok v (set_pmemDevices (insert k v) st)
    end.

Definition pmemDeviceKey (deviceNumber : N) : string := pretty deviceNumber.

Definition OpenDevice (deviceNumber : N) : M State (option loc * option error) :=
  let key := pmemDeviceKey deviceNumber in
  p <- new {| deviceNumber := deviceNumber; refCount := 0 |} ;;
  actual <- LoadOrStore key p ;;
  ret (Some actual, None).

Definition unmount (p : loc) : M State unit :=
  e <- load p ;;
  store p {| deviceNumber := deviceNumber e; refCount := wrap64 (refCount e - 1) |} ;;;
  e <- load p ;;
  if decide (refCount e < 0) then panic "pmem mount refcount mismatch"
  else ret tt.

Definition MountTo (SD : storage.Deps) (p : loc) (target : string)
    : M State (option storage.Mount * option error) :=
  e <- load p ;;
  store p {| deviceNumber := deviceNumber e; refCount := wrap64 (refCount e + 1) |} ;;;
  let flags := MS_RDONLY in
  let data := "noload,dax" in
  e <- load p ;;
  liftW (storage.GetOrCreateMount SD ("/dev/pmem" +:+ pretty (deviceNumber e))
           target "ext4" flags data (unmount p)).

Definition Unmount (SD : storage.Deps) (m : storage.Mount) (flags : Z)
    : M State (storage.Mount * option error) :=
  liftW (storage.Unmount SD m flags).

Definition init : State :=
  {| world := {| trace := []; clock := 0 |}; pmemDevices := ∅; heap := ∅ |}.

End pmem.

(** ** package overlay: the overlay composer *)

Module overlay.

(** Test dependencies of the package. *)
Record Deps : Type := {
  osMkdirAll : list Event -> string -> Z -> option error;
  osRemoveAll : list Event -> string -> option error;
  syscallMount : list Event -> string -> string -> string -> Z -> string -> option error
}.

Definition call_osMkdirAll (D : Deps) (path : string) (perm : Z)
    : M World (option error) :=
  fun w =>
    let r := osMkdirAll D (trace w) path perm in
    Ok r (log (EvMkdirAll path perm r) w).
Definition call_osRemoveAll (D : Deps) (path : string) : M World (option error) :=
  fun w =>
    let r := osRemoveAll D (trace w) path in
    Ok r (log (EvRemoveAll path r) w).
Definition call_syscallMount (D : Deps) (source tgt fstype : string)
    (flags : Z) (data : string) : M World (option error) :=
  fun w =>
    let r := syscallMount D (trace w) source tgt fstype flags data in
    Ok r (log (EvMount source tgt fstype flags data r) w).

(** A deferred closure reads the named result [err] when the function
    returns.  The stack holds the most recently deferred closure first. *)
Definition Deferred : Type := option error -> M World unit.

Fixpoint run_deferred (err : option error) (stack : list Deferred) : M World unit :=
  match stack with
  | [] => ret tt
  | d :: stack' => d err ;;; run_deferred err stack'
  end.

(** [defer func() { if err != nil { osRemoveAll(path) } }()] *)
Definition remove_on_error (D : Deps) (path : string) : Deferred :=
  fun err =>
    match err with
    | Some _ => call_osRemoveAll D path ;;; ret tt
    | None => ret tt
    end.

(** The body of [Mount] from the creation of [rootfsPath] on.  Each part
    returns the value of the [return] statement it reached and the stack of
    closures deferred up to there. *)
Definition Mount_rootfs (D : Deps) (rootfsPath : string) (readonly : bool)
    (options : list string) (deferred : list Deferred)
    : M World (option error * list Deferred) :=
  merr <- call_osMkdirAll D rootfsPath 493 ;;
  match merr with
  | Some e =>
      ret (Some (errors_Wrap e
             ("failed to create directory for container root filesystem " +:+ rootfsPath)),
           deferred)
  | None =>
      let deferred := remove_on_error D rootfsPath :: deferred in
      let flags := if readonly then Z.lor 0 O_RDONLY else 0 in
      serr <- call_syscallMount D "overlay" rootfsPath "overlay" flags
                (strings_Join options ",") ;;
      match serr with
      | Some e =>
          ret (Some (errors_Wrap e
                 ("failed to mount container root filesystem using overlayfs "
                    +:+ rootfsPath)),
               deferred)
      | None => ret (None, deferred)
      end
  end.

(** The body from the [workdirPath] test on. *)
Definition Mount_workdir (D : Deps) (workdirPath rootfsPath : string)
    (readonly : bool) (options : list string) (deferred : list Deferred)
    : M World (option error * list Deferred) :=
  if decide (workdirPath <> "") then
    merr <- call_osMkdirAll D workdirPath 493 ;;
    match merr with
    | Some e =>
        ret (Some (errors_Wrap e "failed to create workdir in scratch space"), deferred)
    | None =>
        Mount_rootfs D rootfsPath readonly
          (options ++ ["workdir=" +:+ workdirPath])
          (remove_on_error D workdirPath :: deferred)
    end
  else Mount_rootfs D rootfsPath readonly options deferred.

Definition Mount_body (D : Deps) (layerPaths : list string)
    (upperdirPath workdirPath rootfsPath : string) (readonly : bool)
    : M World (option error * list Deferred) :=
  let lowerdir := strings_Join layerPaths ":" in
  if readonly && (bool_decide (upperdirPath <> "") || bool_decide (workdirPath <> "")) then
    ret (Some (fmt_Errorf
                 ("upperdirPath: " +:+ quoted upperdirPath +:+ ", and workdirPath: "
                    +:+ quoted workdirPath +:+ " must be emty when readonly==true")),
         [])
  else
    let options := ["lowerdir=" +:+ lowerdir] in
    if decide (upperdirPath <> "") then
      merr <- call_osMkdirAll D upperdirPath 493 ;;
      match merr with
      | Some e =>
          ret (Some (errors_Wrap e "failed to create upper directory in scratch space"),
               [])
      | None =>
          Mount_workdir D workdirPath rootfsPath readonly
            (options ++ ["upperdir=" +:+ upperdirPath])
            [remove_on_error D upperdirPath]
      end
    else Mount_workdir D workdirPath rootfsPath readonly options [].

Definition Mount (D : Deps) (layerPaths : list string)
    (upperdirPath workdirPath rootfsPath : string) (readonly : bool)
    : M World (option error) :=
  r <- Mount_body D layerPaths upperdirPath workdirPath rootfsPath readonly ;;
  run_deferred r.1 r.2 ;;;
  ret r.1.

End overlay.

(** ** package prot: wire types *)

Module prot.

(** Modelled from the spec: the declarations of package [prot] are not part
    of the sources at hand.  A message header is [{type: u32, size: u32,
    id: u64}]; a request of the shutdown kind carries a container id and an
    activity id; the response envelope carries a result (zero on success),
    the activity id and the error records. *)
Definition MessageIdentifier : Type := N.

Record MessageHeader : Type := mkMessageHeader {
  Type_ : MessageIdentifier;
  Size : N;
  ID : N
}.

Record MessageBase : Type := mkMessageBase {
  ContainerID : string;
  ActivityID : string
}.

Record ErrorRecord : Type := mkErrorRecord {
  er_Result : Z;
  er_Message : string;
  er_StackTrace : string;
  er_ModuleName : string;
  er_FileName : string;
  er_Line : N;
  er_FunctionName : string
}.

Record MessageResponseBase : Type := mkMessageResponseBase {
  Result : Z;
  rb_ActivityID : string;
  ErrorRecords : list ErrorRecord
}.

(** The values of the message identifiers and of the not-implemented
    HRESULT, and the JSON decoder of a [MessageBase], are taken as
    parameters. *)
Record Params : Type := {
  ComputeSystemCreateV1 : MessageIdentifier;
  ComputeSystemExecuteProcessV1 : MessageIdentifier;
  ComputeSystemShutdownForcedV1 : MessageIdentifier;
  ComputeSystemShutdownGracefulV1 : MessageIdentifier;
  ComputeSystemSignalProcessV1 : MessageIdentifier;
  ComputeSystemGetPropertiesV1 : MessageIdentifier;
  ComputeSystemWaitForProcessV1 : MessageIdentifier;
  ComputeSystemResizeConsoleV1 : MessageIdentifier;
  ComputeSystemModifySettingsV1 : MessageIdentifier;
  HrNotImpl : Z;
  UnmarshalMessageBase : string -> MessageBase + error
}.

(** The identifiers in the order in which [NewGcsHandler] registers them. *)
Definition identifiers (P : Params) : list MessageIdentifier :=
  [ ComputeSystemCreateV1 P; ComputeSystemExecuteProcessV1 P;
    ComputeSystemShutdownForcedV1 P; ComputeSystemShutdownGracefulV1 P;
    ComputeSystemSignalProcessV1 P; ComputeSystemGetPropertiesV1 P;
    ComputeSystemWaitForProcessV1 P; ComputeSystemResizeConsoleV1 P;
    ComputeSystemModifySettingsV1 P ].

End prot.

Module oslayer.

(** Modelled from the spec: package [oslayer] is not part of the sources at
    hand; the handlers use its two signals. *)
Inductive Signal : Type := SIGKILL | SIGTERM.

#[global] Instance Signal_eq_dec : EqDecision Signal.
Proof. solve_decision. Defined.

End oslayer.

(** [%x] of an unsigned number. *)
Definition hex_digit (d : N) : string :=
  String (Ascii.ascii_of_N (if (d <? 10)%N then 48 + d else 87 + d)) EmptyString.

Fixpoint hex_go (fuel : nat) (n : N) (acc : string) : string :=
  match fuel with
  | O => acc
  | S fuel' =>
      let acc' := hex_digit (n mod 16)%N +:+ acc in
      if (n <? 16)%N then acc' else hex_go fuel' (n / 16)%N acc'
  end.

Definition fmt_hex (n : N) : string := hex_go (S (N.to_nat (N.log2 n))) n "".

(** ** package bridge: the message multiplexer *)

Module bridge.

Import prot.

Record Request : Type := mkRequest {
  Header : MessageHeader;
  Message : string
}.

(** What a handler hands to [ResponseWriter.Write]. *)
Inductive Response : Type :=
| ResponseBase (r : MessageResponseBase)
| ResponseOther (payload : string).

(** [gcserr.WrapHresult] is not part of the sources at hand; it attaches an
    HRESULT to an error.  The pair is kept in the message of a wrapper. *)
Definition WrapHresult (err : error) (hresult : Z) : error :=
  withMessage err ("HRESULT: " +:+ pretty hresult).

Section Mux.

(** The state the handlers run in. *)
Context {S : Type}.

(** The [ResponseWriter] interface. *)
Record ResponseWriter : Type := {
  rw_Header : MessageHeader;
  rw_Write : Response -> M S unit;
  rw_Error : error -> M S unit
}.

(** [HandlerFunc]; its [ServeMsg] calls the function, and it is the one
    implementation of the [Handler] interface. *)
Definition HandlerFunc : Type := ResponseWriter -> Request -> M S unit.
Definition Handler : Type := HandlerFunc.

Definition NotSupported (P : Params) : HandlerFunc :=
  fun w r =>
    rw_Error w
      (WrapHresult
         (fmt_Errorf ("bridge: function not supported, header type: 0x"
                        +:+ fmt_hex (Type_ (Header r))))
         (HrNotImpl P)).

Definition NotSupportedHandler (P : Params) : Handler := NotSupported P.

Record Mux : Type := mkMux {
  m : gmap MessageIdentifier Handler
}.

Definition NewBridgeMux : Mux := {| m := ∅ |}.

(** A nil handler is [None]. *)
Definition Handle (id : MessageIdentifier) (handler : option Handler)
    : M Mux unit :=
  match handler with
  | None => panic "bridge: nil handler"
  | Some h => modify (fun mux => {| m := <[id := h]> (m mux) |})
  end.

Definition HandleFunc (id : MessageIdentifier) (handler : option HandlerFunc)
    : M Mux unit :=
  match handler with
  | None => panic "bridge: nil handler func"
  | Some f => Handle id (Some f)
  end.

(** [Mux.Handler]; a nil request is [None]. *)
Definition Mux_Handler (P : Params) (mux : Mux) (r : option Request)
    : M S Handler :=
  match r with
  | None => panic "bridge: nil request to handler"
  | Some req =>
      match m mux !! Type_ (Header req) with
      | Some h => ret h
      | None => ret (NotSupportedHandler P)
      end
  end.

Definition ServeMsg (P : Params) (mux : Mux) (w : ResponseWriter)
    (r : option Request) : M S unit :=
  h <- Mux_Handler P mux r ;;
  match r with
  | Some req => h w req
  | None => panic "invalid memory address or nil pointer dereference"
  end.

End Mux.

Arguments ResponseWriter S : clear implicits.
Arguments HandlerFunc S : clear implicits.
Arguments Handler S : clear implicits.
Arguments Mux S : clear implicits.

End bridge.

(** ** package gcs: the bridge handlers *)

Module gcs.

Import prot.

Section Handlers.

Context {S : Type}.

(** The part of the [core.Core] interface the shutdown handlers use. *)
Record Core : Type := {
  SignalContainer : string -> oslayer.Signal -> M S (option error)
}.

(** The handlers that are registered next to the two shutdown handlers;
    they are not looked into. *)
Record Others : Type := {
  createContainer : bridge.HandlerFunc S;
  execProcess : bridge.HandlerFunc S;
  signalProcess : bridge.HandlerFunc S;
  listProcesses : bridge.HandlerFunc S;
  waitOnProcess : bridge.HandlerFunc S;
  resizeConsole : bridge.HandlerFunc S;
  modifySettings : bridge.HandlerFunc S
}.

Record Handler : Type := mkHandler {
  core : Core;
  mux : bridge.Mux S
}.

Definition signalContainer (P : Params) (c : Core) (w : bridge.ResponseWriter S)
    (r : bridge.Request) (signal : oslayer.Signal) : M S unit :=
  match UnmarshalMessageBase P (bridge.Message r) with
  | inr err =>
      bridge.rw_Error w
        (errors_Wrap err
           ("failed to unmarshal JSON for message " +:+ quoted (bridge.Message r)))
  | inl request =>
      serr <- SignalContainer c (ContainerID request) signal ;;
      match serr with
      | Some e => bridge.rw_Error w e
      | None =>
          bridge.rw_Write w
            (bridge.ResponseBase
               {| Result := 0; rb_ActivityID := ActivityID request;
                  ErrorRecords := [] |})
      end
  end.

Definition killContainer (P : Params) (c : Core) : bridge.HandlerFunc S :=
  fun w r => signalContainer P c w r oslayer.SIGKILL.

Definition shutdownContainer (P : Params) (c : Core) : bridge.HandlerFunc S :=
  fun w r => signalContainer P c w r oslayer.SIGTERM.

(** [NewGcsHandler]: the registrations in source order, on a fresh
    multiplexer. *)
Definition register_all (P : Params) (c : Core) (o : Others)
    : M (bridge.Mux S) unit :=
  bridge.HandleFunc (ComputeSystemCreateV1 P) (Some (createContainer o)) ;;;
  bridge.HandleFunc (ComputeSystemExecuteProcessV1 P) (Some (execProcess o)) ;;;
  bridge.HandleFunc (ComputeSystemShutdownForcedV1 P) (Some (killContainer P c)) ;;;
  bridge.HandleFunc (ComputeSystemShutdownGracefulV1 P) (Some (shutdownContainer P c)) ;;;
  bridge.HandleFunc (ComputeSystemSignalProcessV1 P) (Some (signalProcess o)) ;;;
  bridge.HandleFunc (ComputeSystemGetPropertiesV1 P) (Some (listProcesses o)) ;;;
  bridge.HandleFunc (ComputeSystemWaitForProcessV1 P) (Some (waitOnProcess o)) ;;;
  bridge.HandleFunc (ComputeSystemResizeConsoleV1 P) (Some (resizeConsole o)) ;;;
  bridge.HandleFunc (ComputeSystemModifySettingsV1 P) (Some (modifySettings o)).

Definition NewGcsHandler (P : Params) (c : Core) (o : Others) : M unit Handler :=
  fun u =>
    match register_all P c o bridge.NewBridgeMux with
    | Ok _ mux => Ok {| core := c; mux := mux |} u
    | Panic msg _ => Panic msg u
    | OutOfFuel => OutOfFuel
    end.

Definition ServeMsg (P : Params) (h : Handler) (w : bridge.ResponseWriter S)
    (r : option bridge.Request) : M S unit :=
  bridge.ServeMsg P (mux h) w r.

End Handlers.

Arguments Core S : clear implicits.
Arguments Others S : clear implicits.
Arguments Handler S : clear implicits.

(** *** Recording doubles, after the repository's handler tests *)

Inductive Call : Type :=
| CallSignalContainer (id : string) (signal : oslayer.Signal) (res : option error)
| CallWrite (header : MessageHeader) (r : bridge.Response)
| CallError (header : MessageHeader) (err : error)
| CallOther (name : string).

(** [testResponseWriter]: each [Write] and each [Error] is one more
    response written. *)
Definition testResponseWriter (header : MessageHeader)
    : bridge.ResponseWriter (list Call) :=
  {| bridge.rw_Header := header;
     bridge.rw_Write := fun r => modify (fun calls => calls ++ [CallWrite header r]);
     bridge.rw_Error := fun err => modify (fun calls => calls ++ [CallError header err]) |}.

(** A supervisor that records the signal it is asked to deliver and answers
    as [behavior] says. *)
Definition mockCore (behavior : list Call -> string -> oslayer.Signal -> option error)
    : Core (list Call) :=
  {| SignalContainer := fun id signal calls =>
       let r := behavior calls id signal in
       Ok r (calls ++ [CallSignalContainer id signal r]) |}.

Definition is_response (c : Call) : bool :=
  match c with
  | CallWrite _ _ | CallError _ _ => true
  | _ => false
  end.

(** [respWriteCount] of the test writer. *)
Definition respWriteCount (calls : list Call) : nat :=
  length (List.filter is_response calls).

End gcs.

(** ** package bridge: the response writer of a request *)

(** [strconv.Atoi]: an optional sign, then decimal digits only, and a value
    that fits Go's [int]. *)
Definition digit_of (c : Ascii.ascii) : option Z :=
  let n := Z.of_N (Ascii.N_of_ascii c) in
  if (48 <=? n) && (n <=? 57) then Some (n - 48) else None.

Fixpoint digits_value (s : string) (acc : Z) : option Z :=
  match s with
  | EmptyString => Some acc
  | String c s' =>
      match digit_of c with
      | Some d => digits_value s' (acc * 10 + d)
      | None => None
      end
  end.

Definition strconv_Atoi (s : string) : option Z :=
  let '(neg, body) :=
    match s with
    | String c s' =>
        if Ascii.eqb c (Ascii.ascii_of_nat 43) then (false, s')
        else if Ascii.eqb c (Ascii.ascii_of_nat 45) then (true, s')
        else (false, s)
    | EmptyString => (false, s)
    end in
  match body with
  | EmptyString => None
  | _ =>
      match digits_value body 0 with
      | Some n =>
          let v := if (neg : bool) then - n else n in
          if decide (- 2 ^ 63 <= v < 2 ^ 63) then Some v else None
      | None => None
      end
  end.

Module bridge_response.

Import prot.

Section Writer.

(** Package [gcserr] and the stack frames of [pkg/errors] are not part of
    the sources at hand.  [Error_] is the [Error] method of an error value,
    [BaseStackTrace] answers nil ([None]) or a stack, [GetHresult] answers an
    HRESULT or fails ([None]); [fmt_s], [fmt_d], [fmt_n] and [fmt_plus_v] are
    what the verbs [%s], [%d], [%n] and [%+v] print. *)
Context {Frame : Type}.

Record Gcserr : Type := {
  Error_ : error -> string;
  BaseStackTrace : error -> option (list Frame);
  GetHresult : error -> option Z;
  HrFail : Z;
  fmt_s : Frame -> string;
  fmt_d : Frame -> string;
  fmt_n : Frame -> string;
  fmt_plus_v : list Frame -> string
}.

(** [uint32(lineNumber)]. *)
Definition uint32 (z : Z) : N := Z.to_N (z mod 2 ^ 32).

(** [setErrorForResponseBase] assigns through its pointer argument; the
    embedding returns the response after the call.  [stack[0]] on a stack
    that is not nil but empty panics. *)
Definition setErrorForResponseBase {S} (G : Gcserr) (response : MessageResponseBase)
    (errForResponse : error) : M S MessageResponseBase :=
  let errorMessage := Error_ G errForResponse in
  located <-
    match BaseStackTrace G errForResponse with
    | Some stack =>
        match stack with
        | [] => panic "index out of range"
        | bottomFrame :: _ =>
            let stackString := fmt_plus_v G stack in
            let fileName := fmt_s G bottomFrame in
            let lineNumberStr := fmt_d G bottomFrame in
            let lineNumber :=
              match strconv_Atoi lineNumberStr with
              | Some n => n
              | None => -1
              end in
            let functionName := fmt_n G bottomFrame in
            ret (stackString, fileName, lineNumber, functionName)
        end
    | None => ret ("", "", -1, "")
    end ;;
  let '(stackString, fileName, lineNumber, functionName) := located in
  let hresult :=
    match GetHresult G errForResponse with
    | Some h => h
    | None => HrFail G
    end in
  let newRecord :=
    {| er_Result := hresult;
       er_Message := errorMessage;
       er_StackTrace := stackString;
       er_ModuleName := "gcs";
       er_FileName := fileName;
       er_Line := uint32 lineNumber;
       er_FunctionName := functionName |} in
  ret {| Result := hresult;
         rb_ActivityID := rb_ActivityID response;
         ErrorRecords := ErrorRecords response ++ [newRecord] |}.

(** The writer of one request: what it sent on the response channel, oldest
    first, and whether it has written. *)
Record bridgeResponse : Type := mkBridgeResponse {
  header : MessageHeader;
  response : bridge.Response
}.

Record WriterState : Type := mkWriterState {
  respChan : list bridgeResponse;
  respWritten : bool
}.

Definition Write (h : MessageHeader) (r : bridge.Response) : M WriterState unit :=
  modify (fun st =>
            {| respChan := respChan st ++ [{| header := h; response := r |}];
               respWritten := true |}).

Definition Error (G : Gcserr) (h : MessageHeader) (err : error) : M WriterState unit :=
  resp <- setErrorForResponseBase G
            {| Result := 0; rb_ActivityID := ""; ErrorRecords := [] |} err ;;
  Write h (bridge.ResponseBase resp).

Definition requestResponseWriter (G : Gcserr) (h : MessageHeader)
    : bridge.ResponseWriter WriterState :=
  {| bridge.rw_Header := h;
     bridge.rw_Write := Write h;
     bridge.rw_Error := Error G h |}.

End Writer.

Arguments Gcserr Frame : clear implicits.

End bridge_response.

(** ** package gcs: the handlers that answer with the plain envelope *)

Module gcs_requests.

Import prot.

Section Handlers.

(** [Options] is [prot.SignalProcessOptions] and [Settings] the type of the
    [Request] field of [prot.ContainerModifySettings]; the handlers pass both
    on as they are. *)
Context {S Options Settings : Type}.

(** Modelled from the handlers: the request types of package [prot] are not
    part of the sources at hand; these are the fields the handlers read.
    [ProcessID] is a [uint32], [Height] and [Width] are [uint16]. *)
Record ContainerSignalProcess : Type := {
  sp_ActivityID : string;
  sp_ProcessID : N;
  sp_Options : Options
}.

Record ContainerResizeConsole : Type := {
  rc_ActivityID : string;
  rc_ProcessID : N;
  rc_Height : N;
  rc_Width : N
}.

Record ContainerModifySettings : Type := {
  ms_ContainerID : string;
  ms_ActivityID : string;
  ms_Request : Settings
}.

(** The JSON decoders are taken as parameters. *)
Record Decoders : Type := {
  UnmarshalContainerSignalProcess : string -> ContainerSignalProcess + error;
  UnmarshalContainerResizeConsole : string -> ContainerResizeConsole + error;
  UnmarshalContainerModifySettings : string -> ContainerModifySettings + error
}.

(** The part of the [core.Core] interface these handlers use. *)
Record Core : Type := {
  SignalProcess : Z -> Options -> M S (option error);
  ResizeConsole : Z -> N -> N -> M S (option error);
  ModifySettings : string -> Settings -> M S (option error)
}.

Definition unmarshal_error (err : error) (r : bridge.Request) : error :=
  errors_Wrap err ("failed to unmarshal JSON for message " +:+ quoted (bridge.Message r)).

Definition signalProcess (J : Decoders) (c : Core) : bridge.HandlerFunc S :=
  fun w r =>
    match UnmarshalContainerSignalProcess J (bridge.Message r) with
    | inr err => bridge.rw_Error w (unmarshal_error err r)
    | inl request =>
        err <- SignalProcess c (Z.of_N (sp_ProcessID request)) (sp_Options request) ;;
        match err with
        | Some e => bridge.rw_Error w e
        | None =>
            bridge.rw_Write w
              (bridge.ResponseBase
                 {| Result := 0; rb_ActivityID := sp_ActivityID request;
                    ErrorRecords := [] |})
        end
    end.

Definition resizeConsole (J : Decoders) (c : Core) : bridge.HandlerFunc S :=
  fun w r =>
    match UnmarshalContainerResizeConsole J (bridge.Message r) with
    | inr err => bridge.rw_Error w (unmarshal_error err r)
    | inl request =>
        err <- ResizeConsole c (Z.of_N (rc_ProcessID request))
                 (rc_Height request) (rc_Width request) ;;
        match err with
        | Some e => bridge.rw_Error w e
        | None =>
            bridge.rw_Write w
              (bridge.ResponseBase
                 {| Result := 0; rb_ActivityID := rc_ActivityID request;
                    ErrorRecords := [] |})
        end
    end.

Definition modifySettings (J : Decoders) (c : Core) : bridge.HandlerFunc S :=
  fun w r =>
    match UnmarshalContainerModifySettings J (bridge.Message r) with
    | inr err => bridge.rw_Error w (unmarshal_error err r)
    | inl request =>
        err <- ModifySettings c (ms_ContainerID request) (ms_Request request) ;;
        match err with
        | Some e => bridge.rw_Error w e
        | None =>
            bridge.rw_Write w
              (bridge.ResponseBase
                 {| Result := 0; rb_ActivityID := ms_ActivityID request;
                    ErrorRecords := [] |})
        end
    end.

End Handlers.

Arguments ContainerSignalProcess Options : clear implicits.
Arguments ContainerModifySettings Settings : clear implicits.
Arguments Decoders Options Settings : clear implicits.
Arguments Core S Options Settings : clear implicits.

(** *** Recording doubles *)

Section Doubles.

Context {Options Settings : Type}.

Inductive Call : Type :=
| CallSignalProcess (pid : Z) (options : Options) (res : option error)
| CallResizeConsole (pid : Z) (height width : N) (res : option error)
| CallModifySettings (id : string) (request : Settings) (res : option error)
| CallWrite (header : MessageHeader) (r : bridge.Response)
| CallError (header : MessageHeader) (err : error).

Definition testResponseWriter (header : MessageHeader)
    : bridge.ResponseWriter (list Call) :=
  {| bridge.rw_Header := header;
     bridge.rw_Write := fun r => modify (fun calls => calls ++ [CallWrite header r]);
     bridge.rw_Error := fun err => modify (fun calls => calls ++ [CallError header err]) |}.

(** A supervisor that records what it is asked and answers as the oracle
    says, given everything recorded so far. *)
Definition mockCore (answer : list Call -> option error) : Core (list Call) Options Settings :=
  {| SignalProcess := fun pid options calls =>
       Ok (answer calls) (calls ++ [CallSignalProcess pid options (answer calls)]);
     ResizeConsole := fun pid height width calls =>
       Ok (answer calls) (calls ++ [CallResizeConsole pid height width (answer calls)]);
     ModifySettings := fun id request calls =>
       Ok (answer calls) (calls ++ [CallModifySettings id request (answer calls)]) |}.

Definition is_response (c : Call) : bool :=
  match c with
  | CallWrite _ _ | CallError _ _ => true
  | _ => false
  end.

Definition respWriteCount (calls : list Call) : nat :=
  length (List.filter is_response calls).

Definition coreCallCount (calls : list Call) : nat :=
  length (List.filter (fun c => negb (is_response c)) calls).

(** What a handler may append to the record of calls: one error response
    and nothing else, or one call of the supervisor followed by one response,
    an error exactly when the supervisor answered one, and then that error. *)
Definition answers_once (header : MessageHeader) (news : list Call) : Prop :=
  match news with
  | [CallError h _] => h = header
  | [c; CallError h e] =>
      h = header /\ is_response c = false
      /\ match c with
         | CallSignalProcess _ _ res | CallResizeConsole _ _ _ res
         | CallModifySettings _ _ res => res = Some e
         | _ => False
         end
  | [c; CallWrite h (bridge.ResponseBase resp)] =>
      h = header /\ is_response c = false
      /\ Result resp = 0 /\ ErrorRecords resp = []
      /\ match c with
         | CallSignalProcess _ _ res | CallResizeConsole _ _ _ res
         | CallModifySettings _ _ res => res = None
         | _ => False
         end
  | _ => False
  end.

End Doubles.

Arguments Call Options Settings : clear implicits.

End gcs_requests.

(** ** package runtimev2: signals to the processes of a container *)

Module runtimev2.

Record Process : Type := { pid : Z }.

(** A container and its init process live and die together; [init] is never
    nil.  [processes] holds the exec processes by pid. *)
Record Container : Type := {
  id : string;
  init : Process;
  processes : gmap Z Process
}.

(** What was asked of runc and of the kernel, with their answers. *)
Inductive KillEvent : Type :=
| EvRuncKill (id : string) (sig : Z) (all : bool) (res : option error)
| EvSyscallKill (pid sig : Z) (res : option error).

(** [c.r.Kill] and [syscall.Kill], as oracles over what happened so far. *)
Record Deps : Type := {
  runcKill : list KillEvent -> string -> Z -> bool -> option error;
  syscallKill : list KillEvent -> Z -> Z -> option error
}.

Definition call_runcKill (D : Deps) (id : string) (sig : Z) (all : bool)
    : M (list KillEvent) (option error) :=
  fun tr =>
    let r := runcKill D tr id sig all in
    Ok r (tr ++ [EvRuncKill id sig all r]).

Definition call_syscallKill (D : Deps) (pid sig : Z)
    : M (list KillEvent) (option error) :=
  fun tr =>
    let r := syscallKill D tr pid sig in
    Ok r (tr ++ [EvSyscallKill pid sig r]).

Definition all_needs_init : error :=
  errors_New "cannot use 'all' when 'pid' is not the init pid".

(** [HrInvalidArg] is a constant of package [gcserr], taken as a parameter. *)
Definition SignalProcess (D : Deps) (HrInvalidArg : Z) (c : Container)
    (pid sig : Z) (all : bool) : M (list KillEvent) (option error) :=
  if all && negb (bool_decide (pid = runtimev2.pid (init c))) then
    ret (Some (bridge.WrapHresult all_needs_init HrInvalidArg))
  else if bool_decide (pid = runtimev2.pid (init c)) then
    call_runcKill D (id c) sig all
  else
    call_syscallKill D pid sig.

End runtimev2.

(** ** package scsi, file scsi.go: lookups without a registry *)

Module scsi_go.

(** The two functions call [ioutil.ReadDir] and [os.OpenFile] themselves;
    the file system answers through the same oracles as in the registry. *)
Definition DeviceLookupTimeout : Z := 2 * Second.

(** [fmt.Sprintf("0:0:%d:%d", controller, lun)]. *)
Definition scsiID (controller lun : N) : string :=
  "0:0:" +:+ pretty controller +:+ ":" +:+ pretty lun.

(** The [for] loop of [ControllerLunToName]: it breaks with the listing, or
    returns the wrapped error of the last scan. *)
Fixpoint lookup_loop (D : scsi.Deps) (fuel : nat) (path : string) (startTime : Z)
    : M World (list string + error) :=
  match fuel with
  | O => fun _ => OutOfFuel
  | S fuel' =>
      r <- scsi.call_ioutilReadDir D path ;;
      match r with
      | inr err =>
          since <- time_Since startTime ;;
          if decide (since > DeviceLookupTimeout) then
            ret (inr (errors_Wrap err
                        "failed to retrieve SCSI device names from filesystem"))
          else
            time_Sleep (Millisecond * 10) ;;;
            lookup_loop D fuel' path startTime
      | inl deviceNames => ret (inl deviceNames)
      end
  end.

Definition ControllerLunToName (D : scsi.Deps) (controller lun : N)
    : M World (string * option error) :=
  let scsiID := scsiID controller lun in
  startTime <- time_Now ;;
  r <- lookup_loop D (scsi.resolve_fuel DeviceLookupTimeout)
         (filepath_Join ["/sys/bus/scsi/devices"; scsiID; "block"]) startTime ;;
  match r with
  | inr err => ret ("", Some err)
  | inl [] =>
      ret ("", Some (fmt_Errorf
                       ("no matching device names found for SCSI ID " +:+ quoted scsiID)))
  | inl [name] => ret (filepath_Join ["/dev"; name], None)
  | inl _ =>
      ret ("", Some (fmt_Errorf
                       ("more than one block device could match SCSI ID "
                          +:+ quoted scsiID)))
  end.

(** [UnplugDevice]: the deferred [f.Close()] runs when the function returns. *)
Definition UnplugDevice (D : scsi.Deps) (controller lun : N) : M World (option error) :=
  let scsiID := scsiID controller lun in
  let path := filepath_Join ["/sys/bus/scsi/devices"; scsiID; "delete"] in
  oerr <- scsi.call_osOpenFile D path O_WRONLY 420 ;;
  match oerr with
  | Some err => if os_IsNotExist err then ret None else ret (Some err)
  | None =>
      werr <- scsi.call_fileWrite D path ("1" +:+ LF) ;;
      scsi.call_fileClose path ;;;
      match werr with
      | Some err => ret (Some err)
      | None => ret None
      end
  end.

End scsi_go.

(** ** Sequences of calls *)

(** [n] calls of [resolve] on the same entry, one after the other; the
    outcomes in call order. *)
Fixpoint resolve_times (D : scsi.Deps) (s : scsi.loc) (n : nat)
    : M scsi.State (list (option error)) :=
  match n with
  | O => ret []
  | S n' =>
      r <- scsi.resolve D s ;;
      rs <- resolve_times D s n' ;;
      ret (r :: rs)
  end.

(** An entry whose resolution has been decided. *)
Definition settled (e : scsi.Scsi) : Prop :=
  scsi.source e <> "" \/ scsi.resolveError e <> None.

(** What [resolve] answers from the cached fields alone. *)
Definition cached_outcome (e : scsi.Scsi) : option error :=
  if decide (scsi.source e <> "") then None else scsi.resolveError e.

(** Number of directory scans in a trace. *)
Definition scans (tr : list Event) : nat :=
  length (List.filter (fun ev => match ev with EvReadDir _ _ => true | _ => false end) tr).

Arguments scans : simpl never.

(** Every pointer kept in the registry points to an entry; Go's memory
    safety gives this for free. *)
Definition registry_valid (st : scsi.State) : Prop :=
  forall k a, scsi.scsiDevices st !! k = Some a -> is_Some (scsi.heap st !! a).

(** ** Reading a trace *)

(** Directories that [osMkdirAll] created, in the order of creation, and
    directories handed to [osRemoveAll], in the order of removal. *)
Fixpoint created (evs : list Event) : list string :=
  match evs with
  | [] => []
  | EvMkdirAll path _ None :: evs' => path :: created evs'
  | _ :: evs' => created evs'
  end.

Fixpoint removed (evs : list Event) : list string :=
  match evs with
  | [] => []
  | EvRemoveAll path _ :: evs' => path :: removed evs'
  | _ :: evs' => removed evs'
  end.

Definition is_removal (ev : Event) : bool :=
  match ev with
  | EvRemoveAll _ _ => true
  | _ => false
  end.

(** Kernel mount calls in a trace: source, target, file system type, flags
    and data of each. *)
Fixpoint kernel_mounts (evs : list Event) : list (string * string * string * Z * string) :=
  match evs with
  | [] => []
  | EvMount source tgt fstype flags data _ :: evs' =>
      (source, tgt, fstype, flags, data) :: kernel_mounts evs'
  | _ :: evs' => kernel_mounts evs'
  end.

(** The paths among [upperdirPath], [workdirPath] that are given. *)
Definition given (paths : list string) : list string :=
  List.filter (fun p => bool_decide (p <> "")) paths.

(** The kernel mount call of an overlay with the given options, flags
    zero. *)
Definition overlay_call (rootfsPath : string) (options : list string)
    : string * string * string * Z * string :=
  ("overlay", rootfsPath, "overlay", 0, strings_Join options ",").

Definition workdir_options (workdirPath : string) : list string :=
  if decide (workdirPath <> "") then ["workdir=" +:+ workdirPath] else [].
Definition upperdir_options (upperdirPath : string) : list string :=
  if decide (upperdirPath <> "") then ["upperdir=" +:+ upperdirPath] else [].

(** ** Sequences of calls into package pmem *)

(** The calls a client can make, and [unmount], which only a release hook
    could make. *)
Inductive pmem_call : Type :=
| PmemOpenDevice (deviceNumber : N)
| PmemMountTo (p : pmem.loc) (target : string)
| PmemUnmountHook (p : pmem.loc)
| PmemUnmount (m : storage.Mount) (flags : Z).

(** The state a call leaves behind, whether it returned or panicked. *)
Definition state_after {S A} (r : Res S A) (before : S) : S :=
  match r with
  | Ok _ s => s
  | Panic _ s => s
  | OutOfFuel => before
  end.

Definition pmem_step (SD : storage.Deps) (st : pmem.State) (c : pmem_call) : pmem.State :=
  match c with
  | PmemOpenDevice n => state_after (pmem.OpenDevice n st) st
  | PmemMountTo p target => state_after (pmem.MountTo SD p target st) st
  | PmemUnmountHook p => state_after (pmem.unmount p st) st
  | PmemUnmount m flags => state_after (pmem.Unmount SD m flags st) st
  end.

Definition pmem_run (SD : storage.Deps) (calls : list pmem_call) (st : pmem.State)
    : pmem.State :=
  fold_left (pmem_step SD) calls st.

(** ** Sequences of calls into package scsi *)

(** The calls a client can make, and [resolve] and [eject], which the package
    makes itself. *)
Inductive scsi_call : Type :=
| ScsiOpenDevice (controller lun : N)
| ScsiResolve (s : scsi.loc)
| ScsiMountTo (s : scsi.loc) (target : string) (readonly : bool)
| ScsiUnmount (m : storage.Mount) (flags : Z)
| ScsiEject (s : scsi.loc).

Definition scsi_step (D : scsi.Deps) (SD : storage.Deps) (st : scsi.State)
    (c : scsi_call) : scsi.State :=
  match c with
  | ScsiOpenDevice controller lun => state_after (scsi.OpenDevice D controller lun st) st
  | ScsiResolve s => state_after (scsi.resolve D s st) st
  | ScsiMountTo s target readonly => state_after (scsi.MountTo D SD s target readonly st) st
  | ScsiUnmount m flags => state_after (scsi.Unmount SD m flags st) st
  | ScsiEject s => state_after (scsi.eject D s st) st
  end.

Definition scsi_run (D : scsi.Deps) (SD : storage.Deps) (calls : list scsi_call)
    (st : scsi.State) : scsi.State :=
  fold_left (scsi_step D SD) calls st.

(** By how much a call changes the reference count of the entry at [s]. *)
Definition refCount_delta (s : scsi.loc) (c : scsi_call) : Z :=
  match c with
  | ScsiMountTo s' _ _ => if decide (s' = s) then 1 else 0
  | ScsiEject s' => if decide (s' = s) then -1 else 0
  | _ => 0
  end.

(** Calls of the client: everything but a direct [eject]. *)
Definition client_call (c : scsi_call) : bool :=
  match c with
  | ScsiEject _ => false
  | _ => true
  end.

(** Calls of [MountTo] on the entry at [s]. *)
Definition mounts_of (s : scsi.loc) (calls : list scsi_call) : Z :=
  Z.of_nat (length (List.filter
    (fun c => match c with
              | ScsiMountTo s' _ _ => bool_decide (s' = s)
              | _ => false
              end) calls)).

(** ** Sequences of [Unmount] calls on one mount *)

(** [m.Unmount(f)] for each [f] of the list in turn; the receiver after the
    last call and the errors in call order. *)
Fixpoint Unmount_all (D : storage.Deps) (m : storage.Mount) (flagss : list Z)
    : M World (storage.Mount * list (option error)) :=
  match flagss with
  | [] => ret (m, [])
  | flags :: flagss' =>
      r <- storage.Unmount D m flags ;;
      rs <- Unmount_all D r.1 flagss' ;;
      ret (rs.1, r.2 :: rs.2)
  end.

(** Kernel unmount calls in a trace: target and answer of each. *)
Fixpoint kernel_unmounts (evs : list Event) : list (string * option error) :=
  match evs with
  | [] => []
  | EvUnmount tgt _ res :: evs' => (tgt, res) :: kernel_unmounts evs'
  | _ :: evs' => kernel_unmounts evs'
  end.

Definition is_unmount (ev : Event) : bool :=
  match ev with
  | EvUnmount _ _ _ => true
  | _ => false
  end.

(** Calls that returned [ErrPathNotMounted]. *)
Definition not_mounted_errors (errs : list (option error)) : nat :=
  length (List.filter (fun e => bool_decide (e = Some storage.ErrPathNotMounted)) errs).

(** A seam under which the device never shows up: every listing fails with a
    not-exist error. *)
Definition never_appears (D : scsi.Deps) : Prop :=
  forall tr path, exists err dt,
    scsi.ioutilReadDir D tr path = (inr err, dt) /\ os_IsNotExist err = true.

(** Whether a string holds a colon. *)
Fixpoint has_colon (s : string) : bool :=
  match s with
  | EmptyString => false
  | String c s' => if Ascii.eqb c (Ascii.ascii_of_nat 58) then true else has_colon s'
  end.

(** The PMEM registry is in order when every pointer it keeps points to an
    entry and no entry is registered under two keys. *)
Definition pmem_registry_ok (st : pmem.State) : Prop :=
  (forall k p, pmem.pmemDevices st !! k = Some p -> is_Some (pmem.heap st !! p))
  /\ (forall k1 k2 p,
        pmem.pmemDevices st !! k1 = Some p -> pmem.pmemDevices st !! k2 = Some p ->
        k1 = k2).

(** Every pointer the PMEM registry keeps points to an entry, and that entry
    is the one made for the key: the key is the decimal numeral of the entry's
    device number.  Go's memory safety gives the first; the second holds
    because only [OpenDevice] stores into the registry and nothing assigns
    [deviceNumber]. *)
Definition pmem_registry_valid (st : pmem.State) : Prop :=
  forall k p,
    pmem.pmemDevices st !! k = Some p ->
    exists e, pmem.heap st !! p = Some e /\ pmem.pmemDeviceKey (pmem.deviceNumber e) = k.

(** Kernel mount calls in a trace without their flags: source, target, file
    system type, data and the kernel's answer. *)
Fixpoint kernel_mount_answers (evs : list Event)
    : list (string * string * string * string * option error) :=
  match evs with
  | [] => []
  | EvMount source tgt fstype _ data res :: evs' =>
      (source, tgt, fstype, data, res) :: kernel_mount_answers evs'
  | _ :: evs' => kernel_mount_answers evs'
  end.

(** The options string of an overlay: the lower layers joined by colons, then
    the upper and work directories that are given, all joined by commas. *)
Definition overlay_options (layerPaths : list string) (upperdirPath workdirPath : string)
    : string :=
  strings_Join
    (["lowerdir=" +:+ strings_Join layerPaths ":"]
       ++ upperdir_options upperdirPath ++ workdir_options workdirPath) ",".

(** ** Concrete seams and values used by the examples *)

(** Seams for the examples: a kernel that accepts everything, one whose mount
    fails and one whose unmount fails. *)
Definition kernel_ok : storage.Deps :=
  {| storage.syscallMount := fun _ _ _ _ _ _ => None;
     storage.syscallUnmount := fun _ _ _ => None |}.
Definition kernel_mount_fails : storage.Deps :=
  {| storage.syscallMount := fun _ _ _ _ _ _ => Some (errorString "invalid argument");
     storage.syscallUnmount := fun _ _ _ => None |}.
Definition kernel_unmount_fails : storage.Deps :=
  {| storage.syscallMount := fun _ _ _ _ _ _ => None;
     storage.syscallUnmount := fun _ _ _ => Some (errorString "device or resource busy") |}.

Definition world0 : World := {| trace := []; clock := 0 |}.
Definition mount_t : storage.Mount :=
  {| storage.target := "/t"; storage.mounted := true; storage.refCount := 0 |}.
Definition mount_t_unmounted : storage.Mount :=
  {| storage.target := "/t"; storage.mounted := false; storage.refCount := 0 |}.

(** A sysfs that shows one disk, one whose listing fails with an unrelated
    error, and one where the device never shows up. *)
Definition sysfs_one_disk : scsi.Deps :=
  {| scsi.ioutilReadDir := fun _ _ => (inl ["sda"], 0%N);
     scsi.osOpenFile := fun _ _ _ _ => None;
     scsi.fileWrite := fun _ _ _ => None |}.
Definition sysfs_fails : scsi.Deps :=
  {| scsi.ioutilReadDir := fun _ _ => (inr (errorString "intentional failure"), 0%N);
     scsi.osOpenFile := fun _ _ _ _ => None;
     scsi.fileWrite := fun _ _ _ => None |}.
Definition sysfs_absent : scsi.Deps :=
  {| scsi.ioutilReadDir := fun _ _ => (inr ErrNotExist, 0%N);
     scsi.osOpenFile := fun _ _ _ _ => None;
     scsi.fileWrite := fun _ _ _ => None |}.

(** The entry that [OpenDevice(1, 1)] creates, and a state whose registry
    holds it. *)
Definition entry11 : scsi.Scsi :=
  {| scsi.key := "0:0:1:1"; scsi.controller := 1; scsi.lun := 1;
     scsi.source := ""; scsi.resolveError := None; scsi.refCount := 0 |}.
Definition state11 : scsi.State :=
  {| scsi.world := world0;
     scsi.scsiDevices := {[ "0:0:1:1" := 0%nat ]};
     scsi.heap := {[ 0%nat := entry11 ]};
     scsi.scsiDeviceLookupTimeout := 2 * Second |}.

(** Scenarios on a fresh registry.  The SCSI ones start with
    [OpenDevice(1, 1)] on a sysfs that shows the disk [sda]. *)
Definition with_device11 {A} (k : scsi.loc -> M scsi.State A) (default : A)
    : M scsi.State A :=
  r <- scsi.OpenDevice sysfs_one_disk 1 1 ;;
  match r.1 with
  | Some s => k s
  | None => ret default
  end.

(** [s.MountTo("/t", false)] with a kernel whose mount fails. *)
Definition scsi_mount_fails : M scsi.State (option storage.Mount * option error) :=
  with_device11
    (fun s => scsi.MountTo sysfs_one_disk kernel_mount_fails s "/t" false)
    (None, None).

(** [p.MountTo("/t")] on PMEM device 0 with a kernel whose mount fails. *)
Definition pmem_mount_fails : M pmem.State (option storage.Mount * option error) :=
  r <- pmem.OpenDevice 0 ;;
  match r.1 with
  | Some p => pmem.MountTo kernel_mount_fails p "/t"
  | None => ret (None, None)
  end.

(** [m, _ := s.MountTo("/t", false); m.Unmount(0)], everything succeeds. *)
Definition scsi_mount_unmount : M scsi.State (option storage.Mount * option error) :=
  with_device11
    (fun s =>
       r <- scsi.MountTo sysfs_one_disk kernel_ok s "/t" false ;;
       match r.1 with
       | Some m =>
           u <- scsi.Unmount kernel_ok m 0 ;;
           ret (Some u.1, u.2)
       | None => ret r
       end)
    (None, None).

(** A successful [MountTo], then [eject] called on the entry as a release hook
    would call it, then [OpenDevice(1, 1)] again. *)
Definition scsi_mount_eject_reopen : M scsi.State (option scsi.loc * option error) :=
  with_device11
    (fun s =>
       scsi.MountTo sysfs_one_disk kernel_ok s "/t" false ;;;
       scsi.eject sysfs_one_disk s ;;;
       scsi.OpenDevice sysfs_one_disk 1 1)
    (None, None).

Definition refCount_at (st : scsi.State) (s : scsi.loc) : option Z :=
  scsi.refCount <$> scsi.heap st !! s.

Definition sysfs11 (leaf : string) : string :=
  "/sys/bus/scsi/devices/0:0:1:1/" +:+ leaf.

(** A file system and kernel that accept everything, and a kernel whose
    overlay mount fails. *)
Definition overlay_ok : overlay.Deps :=
  {| overlay.osMkdirAll := fun _ _ _ => None;
     overlay.osRemoveAll := fun _ _ => None;
     overlay.syscallMount := fun _ _ _ _ _ _ => None |}.
Definition overlay_mount_fails : overlay.Deps :=
  {| overlay.osMkdirAll := fun _ _ _ => None;
     overlay.osRemoveAll := fun _ _ => None;
     overlay.syscallMount := fun _ _ _ _ _ _ => Some (errorString "invalid argument") |}.

(** Sample wire parameters: nine different identifiers and a decoder that
    accepts one message. *)
Definition sample_params : prot.Params :=
  {| prot.ComputeSystemCreateV1 := 1%N;
     prot.ComputeSystemExecuteProcessV1 := 2%N;
     prot.ComputeSystemShutdownForcedV1 := 3%N;
     prot.ComputeSystemShutdownGracefulV1 := 4%N;
     prot.ComputeSystemSignalProcessV1 := 5%N;
     prot.ComputeSystemGetPropertiesV1 := 6%N;
     prot.ComputeSystemWaitForProcessV1 := 7%N;
     prot.ComputeSystemResizeConsoleV1 := 8%N;
     prot.ComputeSystemModifySettingsV1 := 9%N;
     prot.HrNotImpl := -2147467263;
     prot.UnmarshalMessageBase := fun msg =>
       if decide (msg = "{test,act}")
       then inl {| prot.ContainerID := "test"; prot.ActivityID := "act" |}
       else inr (errorString "unexpected end of JSON input") |}.

Definition sample_others : gcs.Others (list gcs.Call) :=
  let other name : bridge.HandlerFunc (list gcs.Call) :=
    fun _ _ => modify (fun calls => calls ++ [gcs.CallOther name]) in
  {| gcs.createContainer := other "createContainer";
     gcs.execProcess := other "execProcess";
     gcs.signalProcess := other "signalProcess";
     gcs.listProcesses := other "listProcesses";
     gcs.waitOnProcess := other "waitOnProcess";
     gcs.resizeConsole := other "resizeConsole";
     gcs.modifySettings := other "modifySettings" |}.

Definition sample_request (id : prot.MessageIdentifier) : bridge.Request :=
  {| bridge.Header := {| prot.Type_ := id; prot.Size := 26%N; prot.ID := 66%N |};
     bridge.Message := "{test,act}" |}.

Definition sample_header : prot.MessageHeader :=
  {| prot.Type_ := 0%N; prot.Size := 0%N; prot.ID := 66%N |}.

(** The empty success envelope for an activity id. *)
Definition success_envelope (activity : string) : bridge.Response :=
  bridge.ResponseBase
    {| prot.Result := 0; prot.rb_ActivityID := activity; prot.ErrorRecords := [] |}.

(** What the recording doubles hold after a shutdown handler has run on a
    request that decodes to [request], when the supervisor answers [res]. *)
Definition signalled (header : prot.MessageHeader) (request : prot.MessageBase)
    (signal : oslayer.Signal) (res : option error) : list gcs.Call :=
  gcs.CallSignalContainer (prot.ContainerID request) signal res ::
  match res with
  | None => [gcs.CallWrite header (success_envelope (prot.ActivityID request))]
  | Some e => [gcs.CallError header e]
  end.

(** A PMEM entry for device 3 at location 5, outside any registry. *)
Definition pmem_entry5 : pmem.Pmem := {| pmem.deviceNumber := 3; pmem.refCount := 0 |}.
Definition pmem_state5 : pmem.State :=
  pmem.set_heap (insert 5%nat pmem_entry5) pmem.init.

(** An error package without stack traces or HRESULTs of its own, and a
    supervisor over the writer's state that refuses every signal. *)
Definition sample_gcserr : bridge_response.Gcserr unit :=
  {| bridge_response.Error_ := fun _ => "refused";
     bridge_response.BaseStackTrace := fun _ => None;
     bridge_response.GetHresult := fun _ => None;
     bridge_response.HrFail := -2147467259;
     bridge_response.fmt_s := fun _ => "";
     bridge_response.fmt_d := fun _ => "";
     bridge_response.fmt_n := fun _ => "";
     bridge_response.fmt_plus_v := fun _ => "" |}.

Definition refusing_core : gcs.Core bridge_response.WriterState :=
  {| gcs.SignalContainer := fun _ _ => ret (Some (errorString "refused")) |}.

Definition writer0 : bridge_response.WriterState :=
  {| bridge_response.respChan := []; bridge_response.respWritten := false |}.

(** * Properties *)

(** Unfolding of the monadic plumbing, shared by the proofs below. *)
Ltac unfold_monad :=
  unfold bind, ret, get, modify, panic in *.

Ltac unfold_storage :=
  unfold storage.Unmount, storage.GetOrCreateMount, storage.NewMount,
    storage.call_syscallMount, storage.call_syscallUnmount in *;
  unfold_monad.

Ltac unfold_scsi :=
  unfold scsi.load, scsi.store, scsi.new, scsi.LoadOrStore, scsi.Load, scsi.Delete,
    scsi.liftW, scsi.call_ioutilReadDir, scsi.call_osOpenFile, scsi.call_fileWrite,
    scsi.call_fileClose, time_Now, time_Since, time_Sleep in *;
  unfold_monad.

Ltac simpl_scsi :=
  unfold scsi.set_world, scsi.set_heap, scsi.set_scsiDevices, advance, log in *;
  cbn in *.

Ltac unfold_overlay :=
  unfold overlay.call_osMkdirAll, overlay.call_osRemoveAll, overlay.call_syscallMount,
    overlay.remove_on_error in *;
  unfold_monad.

Ltac unfold_pmem :=
  unfold pmem.load, pmem.store, pmem.new, pmem.LoadOrStore, pmem.liftW,
    pmem.set_world, pmem.set_heap, pmem.set_pmemDevices in *;
  unfold_monad.

(** ** The mount primitive *)

Section MountPrimitive.

Variable D : storage.Deps.

Lemma Unmount_not_mounted (m : storage.Mount) (flags : Z) (w : World) :
  storage.mounted m = false ->
  storage.Unmount D m flags w = Ok (m, Some storage.ErrPathNotMounted) w.
Proof. intros Hm. unfold_storage. now rewrite Hm. Qed.

Lemma Unmount_kernel_error (m : storage.Mount) (flags : Z) (w : World) (e : error) :
  storage.mounted m = true ->
  storage.syscallUnmount D (trace w) (storage.target m) flags = Some e ->
  storage.Unmount D m flags w =
    Ok (m, Some (storage.unmount_error e (storage.target m)))
       (log (EvUnmount (storage.target m) flags (Some e)) w).
Proof. intros Hm He. unfold_storage. rewrite Hm; simpl. now rewrite He. Qed.

Lemma Unmount_kernel_ok (m : storage.Mount) (flags : Z) (w : World) :
  storage.mounted m = true ->
  storage.syscallUnmount D (trace w) (storage.target m) flags = None ->
  storage.Unmount D m flags w =
    Ok ({| storage.target := storage.target m; storage.mounted := false;
           storage.refCount := storage.refCount m |}, None)
       (log (EvUnmount (storage.target m) flags None) w).
Proof. intros Hm He. unfold_storage. rewrite Hm; simpl. now rewrite He. Qed.

(** C8.  [Unmount] on a mount that is not mounted returns
    [ErrPathNotMounted] and changes neither the mount nor the world (no
    kernel call is made).  On a mounted one, when the kernel unmount fails
    with [e] the call returns [e] wrapped and the mount is still mounted;
    when the kernel unmount succeeds the call returns nil, the mount is no
    longer mounted, and every later [Unmount] on it returns
    [ErrPathNotMounted]. *)
Theorem Unmount_outcomes (m : storage.Mount) (flags : Z) (w : World) :
  (storage.mounted m = false ->
     storage.Unmount D m flags w = Ok (m, Some storage.ErrPathNotMounted) w) /\
  (storage.mounted m = true ->
   forall e, storage.syscallUnmount D (trace w) (storage.target m) flags = Some e ->
     exists m' w',
       storage.Unmount D m flags w =
         Ok (m', Some (errors_Wrap e ("failed to unmount path: " +:+ storage.target m))) w'
       /\ m' = m /\ storage.mounted m' = true) /\
  (storage.mounted m = true ->
   storage.syscallUnmount D (trace w) (storage.target m) flags = None ->
     exists m' w',
       storage.Unmount D m flags w = Ok (m', None) w'
       /\ storage.mounted m' = false
       /\ storage.target m' = storage.target m
       /\ forall flags2 w2,
            storage.Unmount D m' flags2 w2 =
              Ok (m', Some storage.ErrPathNotMounted) w2).
Proof.
  split; [apply Unmount_not_mounted|]. split.
  - intros Hm e He. eexists _, _. split; [|split].
    + rewrite (Unmount_kernel_error m flags w e Hm He). reflexivity.
    + reflexivity.
    + exact Hm.
  - intros Hm He. eexists _, _. split; [apply (Unmount_kernel_ok m flags w Hm He)|].
    split; [reflexivity|]. split; [reflexivity|].
    intros flags2 w2. now apply Unmount_not_mounted.
Qed.

End MountPrimitive.

Lemma Unmount_outcomes_witness :
  storage.Unmount kernel_ok mount_t_unmounted 0 world0 =
    Ok (mount_t_unmounted, Some storage.ErrPathNotMounted) world0
  /\ (exists m' w',
        storage.Unmount kernel_unmount_fails mount_t 0 world0 =
          Ok (m', Some (errors_Wrap (errorString "device or resource busy")
                          "failed to unmount path: /t")) w'
        /\ m' = mount_t /\ storage.mounted m' = true)
  /\ (exists m' w',
        storage.Unmount kernel_ok mount_t 0 world0 = Ok (m', None) w'
        /\ storage.mounted m' = false
        /\ storage.target m' = "/t"
        /\ forall flags2 w2,
             storage.Unmount kernel_ok m' flags2 w2 =
               Ok (m', Some storage.ErrPathNotMounted) w2).
Proof.
  split; [|split].
  - apply (proj1 (Unmount_outcomes kernel_ok mount_t_unmounted 0 world0)). reflexivity.
  - apply (proj1 (proj2 (Unmount_outcomes kernel_unmount_fails mount_t 0 world0)));
      reflexivity.
  - apply (proj2 (proj2 (Unmount_outcomes kernel_ok mount_t 0 world0))); reflexivity.
Defined.

(** ** SCSI resolution *)

Section Resolve.

Variable D : scsi.Deps.

(** A settled entry answers from its fields: the state, and with it the
    trace, is returned as it was. *)
Lemma resolve_settled (s : scsi.loc) (e : scsi.Scsi) (st : scsi.State) :
  scsi.heap st !! s = Some e ->
  settled e ->
  scsi.resolve D s st = Ok (cached_outcome e) st.
Proof.
  intros Hs Hset. unfold scsi.resolve, cached_outcome. unfold_scsi. rewrite Hs.
  destruct (decide (scsi.source e <> "")) as [Hsrc|Hsrc]; [reflexivity|].
  destruct Hset as [Hset|Hset]; [contradiction|].
  destruct (scsi.resolveError e); [reflexivity|contradiction].
Qed.

(** The loop ends within its fuel.  It leaves the registry alone, and either
    hands back a listing without touching the heap, or stores the error it
    returns in the entry. *)
Lemma resolve_loop_returns (fuel : nat) (s : scsi.loc) (path : string) (now : Z) :
  forall (st : scsi.State) (e : scsi.Scsi),
    scsi.heap st !! s = Some e ->
    (1 <= fuel)%nat ->
    scsi.scsiDeviceLookupTimeout st - (clock (scsi.world st) - now)
      < Millisecond * 10 * (Z.of_nat fuel - 1) ->
    exists r st',
      scsi.resolve_loop D fuel s path now st = Ok r st'
      /\ scsi.scsiDevices st' = scsi.scsiDevices st
      /\ scsi.scsiDeviceLookupTimeout st' = scsi.scsiDeviceLookupTimeout st
      /\ (scans (trace (scsi.world st)) < scans (trace (scsi.world st')))%nat
      /\ match r with
         | inl _ => scsi.heap st' = scsi.heap st
         | inr err =>
             scsi.heap st' = <[s := scsi.with_resolveError (Some err) e]> (scsi.heap st)
         end.
Proof.
  induction fuel as [|fuel IH]; intros st e Hs Hfuel Hrem; [lia|].
  cbn [scsi.resolve_loop]. unfold_scsi.
  destruct (scsi.ioutilReadDir D (trace (scsi.world st)) path) as [r dt] eqn:Hrd.
  assert (Hscan : forall tr ev, scans (tr ++ [EvReadDir path ev]) = S (scans tr)).
  { intros tr ev. unfold scans. rewrite List.filter_app, length_app. simpl. lia. }
  destruct r as [names|err]; cbn.
  - eexists _, _. split; [reflexivity|]. simpl_scsi.
    rewrite Hscan. repeat split; lia.
  - destruct (os_IsNotExist err) eqn:Hne; cbn.
    + match goal with |- context [decide (?a > ?b)] => destruct (decide (a > b)) as [Hgt|Hle] end.
      * cbn. rewrite Hs. cbn. eexists _, _. split; [reflexivity|]. simpl_scsi.
        rewrite Hscan. repeat split; lia.
      * cbn.
        match goal with |- context [scsi.resolve_loop D fuel s path now ?st1] =>
          destruct (IH st1 e) as (r' & st' & Hrun & Hreg & Hto & Hsc & Hheap)
        end.
        { exact Hs. }
        { simpl_scsi. unfold Millisecond in *. lia. }
        { simpl_scsi. unfold Millisecond in *. lia. }
        rewrite Hrun. eexists _, _. split; [reflexivity|].
        simpl_scsi. rewrite Hreg, Hto. repeat split.
        -- unfold scans in *. rewrite !List.filter_app, !length_app in Hsc. cbn in Hsc.
           lia.
        -- exact Hheap.
    + rewrite Hs. cbn. eexists _, _. split; [reflexivity|]. simpl_scsi.
      rewrite Hscan. repeat split; lia.
Qed.

Lemma resolve_fuel_enough (timeout : Z) :
  timeout < Millisecond * 10 * (Z.of_nat (scsi.resolve_fuel timeout) - 1).
Proof.
  unfold scsi.resolve_fuel, Millisecond.
  destruct (Z_lt_le_dec timeout 0) as [Hneg|Hpos].
  - rewrite Z2Nat.nonpos; [lia|]. apply Z.lt_le_incl, Z.div_lt_upper_bound; lia.
  - rewrite Nat2Z.inj_add, Z2Nat.id by (apply Z.div_pos; lia).
    pose proof (Z.mul_succ_div_gt timeout (1000000 * 10)). lia.
Qed.

(** The first resolution of an entry: it returns, makes at least one scan,
    leaves the registry alone and records its outcome in the entry. *)
Lemma resolve_unsettled (s : scsi.loc) (e : scsi.Scsi) (st : scsi.State) :
  scsi.heap st !! s = Some e ->
  scsi.source e = "" ->
  scsi.resolveError e = None ->
  exists r st' e',
    scsi.resolve D s st = Ok r st'
    /\ scsi.scsiDevices st' = scsi.scsiDevices st
    /\ scsi.scsiDeviceLookupTimeout st' = scsi.scsiDeviceLookupTimeout st
    /\ scsi.heap st' = <[s := e']> (scsi.heap st)
    /\ (scans (trace (scsi.world st)) < scans (trace (scsi.world st')))%nat
    /\ scsi.key e' = scsi.key e /\ scsi.refCount e' = scsi.refCount e
    /\ ((r = None /\ scsi.source e' <> "" /\ scsi.resolveError e' = None)
        \/ (exists err, r = Some err /\ scsi.source e' = ""
                        /\ scsi.resolveError e' = Some err)).
Proof.
  intros Hs Hsrc Herr. unfold scsi.resolve.
  unfold bind at 1. unfold scsi.load at 1. rewrite Hs.
  destruct (decide (scsi.source e <> "")) as [Hc|_]; [congruence|]. rewrite Herr.
  unfold bind at 1. unfold scsi.liftW at 1, time_Now. cbn.
  unfold bind at 1.
  match goal with |- context [scsi.resolve_loop D ?f s ?p ?n ?st1] =>
    destruct (resolve_loop_returns f s p n st1 e)
      as (r & st' & Hrun & Hreg & Hto & Hsc & Hheap)
  end.
  { simpl_scsi. exact Hs. }
  { unfold scsi.resolve_fuel. lia. }
  { simpl_scsi. pose proof (resolve_fuel_enough (scsi.scsiDeviceLookupTimeout st)). lia. }
  rewrite Hrun. simpl_scsi.
  destruct r as [names|err].
  - assert (Hs' : scsi.heap st' !! s = Some e) by (rewrite Hheap; exact Hs).
    destruct names as [|name [|name2 names]]; unfold_scsi; rewrite Hs'; simpl_scsi.
    + eexists _, _, _. split; [reflexivity|]. simpl_scsi. rewrite Hheap.
      repeat split; try assumption. right. eexists. repeat split; assumption.
    + eexists _, _, _. split; [reflexivity|]. simpl_scsi. rewrite Hheap.
      repeat split; try assumption. left. repeat split; [discriminate|assumption].
    + eexists _, _, _. split; [reflexivity|]. simpl_scsi. rewrite Hheap.
      repeat split; try assumption. right. eexists. repeat split; assumption.
  - unfold_monad. eexists _, _, _. split; [reflexivity|]. rewrite Hheap.
    repeat split; try assumption. right. eexists. repeat split; assumption.
Qed.

Lemma resolve_times_settled (D2 : scsi.Deps) (s : scsi.loc) (e : scsi.Scsi)
    (st : scsi.State) (n : nat) :
  scsi.heap st !! s = Some e ->
  settled e ->
  resolve_times D2 s n st = Ok (repeat (cached_outcome e) n) st.
Proof.
  intros Hs Hset. induction n as [|n IH]; [reflexivity|].
  cbn [resolve_times repeat]. unfold bind at 1.
  unfold scsi.resolve, cached_outcome in *. unfold_scsi. rewrite Hs.
  destruct (decide (scsi.source e <> "")) as [Hsrc|Hsrc].
  - now rewrite IH.
  - destruct Hset as [Hset|Hset]; [contradiction|].
    destruct (scsi.resolveError e); [now rewrite IH|contradiction].
Qed.

End Resolve.

(** Any call of [resolve] on an allocated entry returns; it touches nothing
    but that entry, and the entry then tells the outcome. *)
Lemma resolve_returns (D : scsi.Deps) (s : scsi.loc) (e : scsi.Scsi) (st : scsi.State) :
  scsi.heap st !! s = Some e ->
  exists r st' e',
    scsi.resolve D s st = Ok r st'
    /\ scsi.scsiDevices st' = scsi.scsiDevices st
    /\ scsi.scsiDeviceLookupTimeout st' = scsi.scsiDeviceLookupTimeout st
    /\ scsi.heap st' = <[s := e']> (scsi.heap st)
    /\ scsi.key e' = scsi.key e /\ scsi.refCount e' = scsi.refCount e
    /\ ((r = None /\ scsi.source e' <> "")
        \/ (exists err, r = Some err /\ scsi.source e' = ""
                        /\ scsi.resolveError e' = Some err)).
Proof.
  intros Hs.
  destruct (decide (scsi.source e <> "")) as [Hsrc|Hsrc].
  - exists None, st, e. rewrite (resolve_settled D s e st Hs) by (left; exact Hsrc).
    unfold cached_outcome. destruct (decide (scsi.source e <> "")); [|contradiction].
    rewrite insert_id by exact Hs. repeat split. left. split; [reflexivity|assumption].
  - apply dec_stable in Hsrc. destruct (scsi.resolveError e) as [err|] eqn:Herr.
    + exists (Some err), st, e.
      rewrite (resolve_settled D s e st Hs) by (right; congruence).
      unfold cached_outcome. destruct (decide (scsi.source e <> "")); [congruence|].
      rewrite insert_id by exact Hs. rewrite Herr. repeat split. right. eauto.
    + destruct (resolve_unsettled D s e st Hs Hsrc Herr)
        as (r & st' & e' & Hrun & Hreg & Hto & Hheap & _ & Hk & Hrc & Hout).
      exists r, st', e'. repeat split; try assumption.
      destruct Hout as [(-> & H & _)|(err & -> & H1 & H2)]; [left|right]; eauto.
Qed.

Lemma settled_answers (s : scsi.loc) (e1 : scsi.Scsi) (st1 : scsi.State) :
  scsi.heap st1 !! s = Some e1 ->
  settled e1 ->
  (scsi.source e1 <> "" -> cached_outcome e1 = None)
  /\ (scsi.source e1 = "" -> cached_outcome e1 = scsi.resolveError e1)
  /\ forall (D2 : scsi.Deps) (n : nat),
       resolve_times D2 s n st1 = Ok (repeat (cached_outcome e1) n) st1.
Proof.
  intros Hs Hset. split; [|split].
  - intros H. unfold cached_outcome. now destruct (decide (scsi.source e1 <> "")).
  - intros H. unfold cached_outcome. destruct (decide (scsi.source e1 <> "")); congruence.
  - intros D2 n. now apply resolve_times_settled.
Qed.

(** ** The SCSI registry *)

Lemma fresh_not_allocated (st : scsi.State) :
  scsi.heap st !! fresh (dom (scsi.heap st)) = None.
Proof. apply not_elem_of_dom, is_fresh. Qed.

(** [OpenDevice] on a valid registry: the call returns, resolves the entry
    registered under the key (a fresh one if there was none), and leaves the
    registry in step with the outcome. *)
Lemma OpenDevice_returns (D : scsi.Deps) (controller lun : N) (st : scsi.State) :
  registry_valid st ->
  exists r st' actual e,
    scsi.OpenDevice D controller lun st = Ok r st'
    /\ (scsi.scsiDevices st !! scsi.scsiDevicesKey controller lun = Some actual
        \/ (scsi.scsiDevices st !! scsi.scsiDevicesKey controller lun = None
            /\ scsi.heap st !! actual = None))
    /\ scsi.heap st' !! actual = Some e
    /\ (forall k, k <> scsi.scsiDevicesKey controller lun ->
          scsi.scsiDevices st' !! k = scsi.scsiDevices st !! k)
    /\ ((exists err,
           r = (None, Some err)
           /\ scsi.source e = "" /\ scsi.resolveError e = Some err
           /\ scsi.scsiDevices st' !! scsi.scsiDevicesKey controller lun = None)
        \/ (r = (Some actual, None)
            /\ scsi.source e <> ""
            /\ scsi.scsiDevices st' !! scsi.scsiDevicesKey controller lun = Some actual)).
Proof.
  intros Hwf. unfold scsi.OpenDevice.
  set (key := scsi.scsiDevicesKey controller lun).
  unfold bind at 1. unfold scsi.new at 1.
  set (p := fresh (dom (scsi.heap st))).
  assert (Hp : scsi.heap st !! p = None) by apply fresh_not_allocated.
  unfold bind at 1. unfold scsi.LoadOrStore at 1. simpl_scsi.
  destruct (scsi.scsiDevices st !! key) as [a|] eqn:Hreg.
  - destruct (Hwf key a Hreg) as [ea Hea].
    assert (Hne : p <> a) by congruence.
    unfold bind at 1.
    match goal with |- context [scsi.resolve D a ?st1] =>
      destruct (resolve_returns D a ea st1)
        as (r & st2 & e' & Hrun & Hreg2 & _ & Hheap & _ & _ & Hout)
    end.
    { cbn. rewrite lookup_insert_ne by exact Hne. exact Hea. }
    rewrite Hrun. cbn in Hreg2, Hheap.
    assert (Ha : scsi.heap st2 !! a = Some e') by (rewrite Hheap; apply lookup_insert_eq).
    destruct Hout as [(-> & Hsrc)|(err & -> & Hsrc & Herr)].
    + eexists _, _, a, e'. split; [reflexivity|]. split; [left; reflexivity|].
      split; [exact Ha|]. split; [intros k Hk; now rewrite Hreg2|].
      right. rewrite Hreg2. auto.
    + unfold_scsi. eexists _, _, a, e'. split; [reflexivity|]. simpl_scsi.
      split; [left; reflexivity|]. split; [exact Ha|].
      split; [intros k Hk; rewrite lookup_delete_ne by congruence; now rewrite Hreg2|].
      left. exists err. rewrite lookup_delete_eq. auto.
  - unfold bind at 1.
    match goal with |- context [scsi.resolve D p ?st1] =>
      destruct (resolve_returns D p (scsi.mkScsi key controller lun "" None 0) st1)
        as (r & st2 & e' & Hrun & Hreg2 & _ & Hheap & _ & _ & Hout)
    end.
    { cbn. apply lookup_insert_eq. }
    rewrite Hrun. cbn in Hreg2, Hheap.
    assert (Ha : scsi.heap st2 !! p = Some e') by (rewrite Hheap; apply lookup_insert_eq).
    destruct Hout as [(-> & Hsrc)|(err & -> & Hsrc & Herr)].
    + eexists _, _, p, e'. split; [reflexivity|]. split; [right; auto|].
      split; [exact Ha|].
      split; [intros k Hk; rewrite Hreg2; now rewrite lookup_insert_ne by congruence|].
      right. rewrite Hreg2, lookup_insert_eq. auto.
    + unfold_scsi. eexists _, _, p, e'. split; [reflexivity|]. simpl_scsi.
      split; [right; auto|]. split; [exact Ha|].
      split; [intros k Hk; rewrite lookup_delete_ne by congruence;
              rewrite Hreg2; now rewrite lookup_insert_ne by congruence|].
      left. exists err. rewrite lookup_delete_eq. auto.
Qed.


(** ** Reference counting through the mount primitive *)

(** [GetOrCreateMount] does the same whatever closure it is given. *)
Lemma GetOrCreateMount_ignores_cleanup {S1 S2 : Type} (SD : storage.Deps)
    (source tgt fstype : string) (flags : Z) (data : string)
    (cleanup1 : M S1 unit) (cleanup2 : M S2 unit) :
  storage.GetOrCreateMount SD source tgt fstype flags data cleanup1 =
  storage.GetOrCreateMount SD source tgt fstype flags data cleanup2.
Proof. reflexivity. Qed.

(** A failing [MountTo] on a SCSI entry: the error comes back, the trace ends
    with the failed mount call, and the count stays incremented. *)
Lemma scsi_MountTo_failure (D : scsi.Deps) (SD : storage.Deps) (s : scsi.loc)
    (e : scsi.Scsi) (st : scsi.State) (tgt : string) (readonly : bool) (err : error) :
  scsi.heap st !! s = Some e ->
  - 2 ^ 63 <= scsi.refCount e + 1 < 2 ^ 63 ->
  storage.syscallMount SD (trace (scsi.world st)) (scsi.source e) tgt "ext4"
    (if readonly then MS_RDONLY else 0) (if readonly then "noload" else "") = Some err ->
  exists st',
    scsi.MountTo D SD s tgt readonly st =
      Ok (None, Some (storage.mount_error err (scsi.source e) tgt)) st'
    /\ scsi.heap st' = <[s := scsi.with_refCount (scsi.refCount e + 1) e]> (scsi.heap st)
    /\ scsi.scsiDevices st' = scsi.scsiDevices st
    /\ trace (scsi.world st') =
         trace (scsi.world st) ++
           [EvMount (scsi.source e) tgt "ext4" (if readonly then MS_RDONLY else 0)
              (if readonly then "noload" else "") (Some err)].
Proof.
  intros Hs Hrange Herr. unfold scsi.MountTo. unfold_scsi. unfold_storage.
  rewrite Hs. simpl_scsi. rewrite lookup_insert_eq. cbn.
  assert (Hw : wrap64 (scsi.refCount e + 1) = scsi.refCount e + 1).
  { unfold wrap64. rewrite Z.mod_small; lia. }
  rewrite Hw.
  replace (if readonly then Z.lor 0 MS_RDONLY else 0)
    with (if readonly then MS_RDONLY else 0) by (now destruct readonly).
  rewrite Herr. eexists. split; [reflexivity|]. cbn. auto.
Qed.

(** C1.  On a fresh registry, [OpenDevice(1, 1)] followed by a [MountTo]
    whose kernel mount fails returns the wrapped error, and afterwards the
    entry's [refCount] is 1: the only seam calls are the directory scan and the
    failed mount, the delete node is never opened.  The same holds for PMEM
    device 0.  The increment made before the mount is not taken back. *)
Theorem MountTo_failure_keeps_refCount :
  (exists st',
     scsi_mount_fails (scsi.init (2 * Second)) =
       Ok (None, Some (withMessage (errorString "invalid argument")
                         "failed to mount source: '/dev/sda' to target: '/t'")) st'
     /\ refCount_at st' 0%nat = Some 1
     /\ trace (scsi.world st') =
          [EvReadDir (sysfs11 "block") (inl ["sda"]);
           EvMount "/dev/sda" "/t" "ext4" 0 "" (Some (errorString "invalid argument"))])
  /\ (exists st',
        pmem_mount_fails pmem.init =
          Ok (None, Some (withMessage (errorString "invalid argument")
                            "failed to mount source: '/dev/pmem0' to target: '/t'")) st'
        /\ (pmem.refCount <$> pmem.heap st' !! 0%nat) = Some 1
        /\ trace (pmem.world st') =
             [EvMount "/dev/pmem0" "/t" "ext4" 1 "noload,dax"
                (Some (errorString "invalid argument"))]).
Proof.
  split; eexists; (split; [vm_compute; reflexivity|]); split; vm_compute; reflexivity.
Qed.

(** [Unmount] reaches neither the registry nor any entry. *)
Lemma scsi_Unmount_frame (SD : storage.Deps) (m : storage.Mount) (flags : Z)
    (st : scsi.State) :
  exists r st',
    scsi.Unmount SD m flags st = Ok r st'
    /\ scsi.heap st' = scsi.heap st
    /\ scsi.scsiDevices st' = scsi.scsiDevices st.
Proof.
  unfold scsi.Unmount, scsi.liftW. unfold_storage.
  destruct (storage.mounted m); cbn;
    [destruct (storage.syscallUnmount SD _ _ _)|]; eexists _, _; repeat split.
Qed.

(** C2.  On a fresh registry, [OpenDevice(1, 1)], a successful [MountTo] and
    a successful [Unmount] of the mount it returned leave the entry with
    [refCount] 1: one successful mount minus one successful unmount is 0, but
    nothing was decremented.  The delete node was not written and the entry is
    still registered. *)
Theorem Unmount_keeps_refCount :
  exists st',
    scsi_mount_unmount (scsi.init (2 * Second)) =
      Ok (Some {| storage.target := "/t"; storage.mounted := false;
                  storage.refCount := 0 |}, None) st'
    /\ refCount_at st' 0%nat = Some 1
    /\ scsi.scsiDevices st' !! "0:0:1:1" = Some 0%nat
    /\ trace (scsi.world st') =
         [EvReadDir (sysfs11 "block") (inl ["sda"]);
          EvMount "/dev/sda" "/t" "ext4" 0 "" None;
          EvUnmount "/t" 0 None].
Proof.
  eexists. split; [vm_compute; reflexivity|]. repeat split; vm_compute; reflexivity.
Qed.

(** [eject] that brings the count to zero deletes the registry key equal to
    the entry's [source]. *)
Lemma eject_deletes_by_source (D : scsi.Deps) (s : scsi.loc) (e : scsi.Scsi)
    (st : scsi.State) :
  scsi.heap st !! s = Some e ->
  scsi.refCount e = 1 ->
  exists st',
    scsi.eject D s st = Ok tt st'
    /\ scsi.scsiDevices st' = delete (scsi.source e) (scsi.scsiDevices st)
    /\ scsi.heap st' = <[s := scsi.with_refCount 0 e]> (scsi.heap st).
Proof.
  intros Hs Hrc. unfold scsi.eject. unfold_scsi. rewrite Hs. simpl_scsi.
  rewrite lookup_insert_eq. cbn. rewrite Hrc.
  change (wrap64 (1 - 1)) with 0.
  destruct (decide (0 < 0)) as [Hlt|_]; [lia|].
  destruct (decide (0 = 0)) as [_|Hne]; [|congruence].
  match goal with |- context [scsi.osOpenFile D ?tr ?p ?f ?m] =>
    destruct (scsi.osOpenFile D tr p f m)
  end; cbn; eexists; (split; [reflexivity|]); cbn; auto.
Qed.

(** The same for PMEM: after a failing [MountTo] the count stays
    incremented. *)
Lemma pmem_MountTo_failure (SD : storage.Deps) (p : pmem.loc) (e : pmem.Pmem)
    (st : pmem.State) (tgt : string) (err : error) :
  pmem.heap st !! p = Some e ->
  - 2 ^ 63 <= pmem.refCount e + 1 < 2 ^ 63 ->
  storage.syscallMount SD (trace (pmem.world st))
    ("/dev/pmem" +:+ pretty (pmem.deviceNumber e)) tgt "ext4" MS_RDONLY "noload,dax"
    = Some err ->
  exists st',
    pmem.MountTo SD p tgt st =
      Ok (None, Some (storage.mount_error err
                        ("/dev/pmem" +:+ pretty (pmem.deviceNumber e)) tgt)) st'
    /\ pmem.heap st' =
         <[p := {| pmem.deviceNumber := pmem.deviceNumber e;
                   pmem.refCount := pmem.refCount e + 1 |}]> (pmem.heap st)
    /\ pmem.pmemDevices st' = pmem.pmemDevices st.
Proof.
  intros Hp Hrange Herr. unfold pmem.MountTo. unfold_pmem. unfold_storage.
  rewrite Hp. cbn. rewrite lookup_insert_eq. cbn.
  assert (Hw : wrap64 (pmem.refCount e + 1) = pmem.refCount e + 1).
  { unfold wrap64. rewrite Z.mod_small; lia. }
  rewrite Hw, Herr. eexists. split; [reflexivity|]. cbn. auto.
Qed.

(** An entry made by [OpenDevice] has a key that starts with ["0:0:"] and a
    [source] that is empty or starts with ["/dev/"]; for such an entry [eject]
    never removes the registration under the entry's own key. *)
Lemma eject_keeps_own_key (D : scsi.Deps) (s : scsi.loc) (e : scsi.Scsi)
    (st : scsi.State) (controller lun : N) :
  scsi.heap st !! s = Some e ->
  scsi.key e = scsi.scsiDevicesKey controller lun ->
  (scsi.source e = "" \/ exists name, scsi.source e = filepath_Join ["/dev"; name]) ->
  scsi.scsiDevices (state_after (scsi.eject D s st) st) !! scsi.key e
    = scsi.scsiDevices st !! scsi.key e.
Proof.
  intros Hs Hkey Hsrc.
  assert (Hne : scsi.source e <> scsi.key e).
  { rewrite Hkey. destruct Hsrc as [->|[name ->]]; discriminate. }
  unfold scsi.eject. unfold_scsi. rewrite Hs. simpl_scsi.
  rewrite lookup_insert_eq. cbn.
  destruct (decide (wrap64 (scsi.refCount e - 1) < 0)); cbn; [reflexivity|].
  destruct (decide (wrap64 (scsi.refCount e - 1) = 0)); cbn; [|reflexivity].
  match goal with |- context [scsi.osOpenFile D ?x1 ?x2 ?x3 ?x4] =>
    destruct (scsi.osOpenFile D x1 x2 x3 x4)
  end; cbn; now rewrite lookup_delete_ne by exact Hne.
Qed.

(** C3.  On a fresh registry, after [OpenDevice(1, 1)] and a successful
    [MountTo], [eject] brings [refCount] to 0 and writes to the delete node,
    but the registry still holds the entry under ["0:0:1:1"]: the next
    [OpenDevice(1, 1)] returns that cached entry and scans nothing. *)
Theorem eject_keeps_registry_key :
  exists st',
    scsi_mount_eject_reopen (scsi.init (2 * Second)) = Ok (Some 0%nat, None) st'
    /\ refCount_at st' 0%nat = Some 0
    /\ scsi.scsiDevices st' !! scsi.scsiDevicesKey 1 1 = Some 0%nat
    /\ trace (scsi.world st') =
         [EvReadDir (sysfs11 "block") (inl ["sda"]);
          EvMount "/dev/sda" "/t" "ext4" 0 "" None;
          EvOpenFile (sysfs11 "delete") O_WRONLY 420 None;
          EvWrite (sysfs11 "delete") ("1" +:+ LF) None;
          EvClose (sysfs11 "delete")].
Proof.
  eexists. split; [vm_compute; reflexivity|]. repeat split; vm_compute; reflexivity.
Qed.

(** ** What a call can do to an entry *)

Section EntryFrame.

Variable D : scsi.Deps.
Variable SD : storage.Deps.

(** [resolve], whether it returns or panics, leaves the registry alone, and
    changes of an allocated entry neither the key nor the reference count,
    and nothing at all once the entry is settled. *)
Lemma resolve_entry (a s : scsi.loc) (e : scsi.Scsi) (st : scsi.State) :
  scsi.heap st !! s = Some e ->
  exists e',
    scsi.heap (state_after (scsi.resolve D a st) st) !! s = Some e'
    /\ scsi.scsiDevices (state_after (scsi.resolve D a st) st) = scsi.scsiDevices st
    /\ scsi.key e' = scsi.key e
    /\ scsi.refCount e' = scsi.refCount e
    /\ (settled e -> e' = e).
Proof.
  intros Hs.
  destruct (scsi.heap st !! a) as [ea|] eqn:Ha.
  - destruct (decide (settled ea)) as [Hset|Hnot].
    + rewrite (resolve_settled D a ea st Ha Hset). cbn. exists e. auto.
    + destruct (resolve_returns D a ea st Ha)
        as (r & st' & ea' & Hrun & Hreg & _ & Hheap & Hk & Hrc & _).
      rewrite Hrun. cbn. rewrite Hheap.
      destruct (decide (a = s)) as [->|Hne].
      * rewrite lookup_insert_eq. assert (ea = e) by congruence. subst ea.
        exists ea'. repeat split; try assumption. intros Hset. contradiction.
      * rewrite lookup_insert_ne by exact Hne. exists e. auto.
  - unfold scsi.resolve. unfold_scsi. rewrite Ha. cbn. exists e. auto.
Qed.

Lemma OpenDevice_entry (controller lun : N) (s : scsi.loc) (e : scsi.Scsi)
    (st : scsi.State) :
  scsi.heap st !! s = Some e ->
  exists e',
    scsi.heap (state_after (scsi.OpenDevice D controller lun st) st) !! s = Some e'
    /\ scsi.key e' = scsi.key e
    /\ scsi.refCount e' = scsi.refCount e
    /\ (settled e -> e' = e).
Proof.
  intros Hs. unfold scsi.OpenDevice.
  set (key := scsi.scsiDevicesKey controller lun).
  unfold bind at 1. unfold scsi.new at 1.
  set (p := fresh (dom (scsi.heap st))).
  assert (Hp : scsi.heap st !! p = None) by apply fresh_not_allocated.
  assert (Hps : p <> s) by congruence.
  unfold bind at 1.
  set (st0 := scsi.set_heap _ st).
  assert (Hs0 : scsi.heap st0 !! s = Some e).
  { subst st0. simpl_scsi. now rewrite lookup_insert_ne by exact Hps. }
  clearbody st0.
  assert (Hstep : forall (actual : scsi.loc) (st1 : scsi.State),
    scsi.heap st1 !! s = Some e ->
    exists e',
      scsi.heap
        (state_after
           (match scsi.resolve D actual st1 with
            | Ok b s' =>
                match b with
                | Some err => scsi.Delete key;;; ret (None, Some err)
                | None => ret (Some actual, None)
                end s'
            | Panic msg s' => Panic msg s'
            | OutOfFuel => OutOfFuel
            end) st) !! s = Some e'
      /\ scsi.key e' = scsi.key e
      /\ scsi.refCount e' = scsi.refCount e
      /\ (settled e -> e' = e)).
  { intros actual st1 Hs1.
    destruct (resolve_entry actual s e st1 Hs1) as (e' & Hh & _ & Hk & Hrc & Hsame).
    destruct (scsi.heap st1 !! actual) as [ea|] eqn:Ha.
    - destruct (resolve_returns D actual ea st1 Ha) as (r & st2 & ea' & Hrun & _).
      rewrite Hrun in *. cbn in Hh.
      destruct r; unfold_scsi; simpl_scsi; exists e'; auto.
    - unfold scsi.resolve in *. unfold_scsi. rewrite Ha in *. cbn in *.
      exists e'. auto. }
  unfold scsi.LoadOrStore.
  destruct (scsi.scsiDevices st0 !! key) as [a|]; apply Hstep; simpl_scsi; exact Hs0.
Qed.

Lemma MountTo_entry (a : scsi.loc) (tgt : string) (readonly : bool) (s : scsi.loc)
    (e : scsi.Scsi) (st : scsi.State) :
  scsi.heap st !! s = Some e ->
  exists e',
    scsi.heap (state_after (scsi.MountTo D SD a tgt readonly st) st) !! s = Some e'
    /\ scsi.key e' = scsi.key e
    /\ scsi.refCount e' =
         (if decide (a = s) then wrap64 (scsi.refCount e + 1) else scsi.refCount e)
    /\ scsi.source e' = scsi.source e
    /\ scsi.resolveError e' = scsi.resolveError e.
Proof.
  intros Hs. unfold scsi.MountTo. unfold_scsi. unfold_storage.
  destruct (scsi.heap st !! a) as [ea|] eqn:Ha; cbn.
  - simpl_scsi. rewrite lookup_insert_eq. cbn.
    match goal with |- context [storage.syscallMount SD ?x1 ?x2 ?x3 ?x4 ?x5 ?x6] =>
      destruct (storage.syscallMount SD x1 x2 x3 x4 x5 x6)
    end; cbn.
    all: destruct (decide (a = s)) as [->|Hne];
      [rewrite lookup_insert_eq; assert (ea = e) by congruence; subst ea;
       eexists; split; [reflexivity|]; cbn; auto
      |rewrite lookup_insert_ne by exact Hne; exists e; auto].
  - exists e. destruct (decide (a = s)) as [->|Hne]; [congruence|auto].
Qed.

Lemma eject_entry (a : scsi.loc) (s : scsi.loc) (e : scsi.Scsi) (st : scsi.State) :
  scsi.heap st !! s = Some e ->
  exists e',
    scsi.heap (state_after (scsi.eject D a st) st) !! s = Some e'
    /\ scsi.key e' = scsi.key e
    /\ scsi.refCount e' =
         (if decide (a = s) then wrap64 (scsi.refCount e - 1) else scsi.refCount e)
    /\ scsi.source e' = scsi.source e
    /\ scsi.resolveError e' = scsi.resolveError e.
Proof.
  intros Hs. unfold scsi.eject. unfold_scsi.
  destruct (scsi.heap st !! a) as [ea|] eqn:Ha; cbn.
  - simpl_scsi. rewrite lookup_insert_eq. cbn.
    assert (Hgoal : exists e',
      <[a := scsi.with_refCount (wrap64 (scsi.refCount ea - 1)) ea]> (scsi.heap st) !! s
        = Some e'
      /\ scsi.key e' = scsi.key e
      /\ scsi.refCount e' =
           (if decide (a = s) then wrap64 (scsi.refCount e - 1) else scsi.refCount e)
      /\ scsi.source e' = scsi.source e
      /\ scsi.resolveError e' = scsi.resolveError e).
    { destruct (decide (a = s)) as [->|Hne].
      - rewrite lookup_insert_eq. assert (ea = e) by congruence. subst ea.
        eexists. split; [reflexivity|]. cbn. auto.
      - rewrite lookup_insert_ne by exact Hne. exists e. auto. }
    destruct (decide (wrap64 (scsi.refCount ea - 1) < 0)); cbn; [exact Hgoal|].
    destruct (decide (wrap64 (scsi.refCount ea - 1) = 0)); cbn; [|exact Hgoal].
    match goal with |- context [scsi.osOpenFile D ?x1 ?x2 ?x3 ?x4] =>
      destruct (scsi.osOpenFile D x1 x2 x3 x4)
    end; cbn; exact Hgoal.
  - exists e. destruct (decide (a = s)) as [->|Hne]; [congruence|auto].
Qed.

(** One call, seen from an allocated entry. *)
Lemma scsi_step_entry (c : scsi_call) (s : scsi.loc) (e : scsi.Scsi) (st : scsi.State) :
  scsi.heap st !! s = Some e ->
  exists e',
    scsi.heap (scsi_step D SD st c) !! s = Some e'
    /\ scsi.key e' = scsi.key e
    /\ scsi.refCount e' =
         (if decide (refCount_delta s c = 0) then scsi.refCount e
          else wrap64 (scsi.refCount e + refCount_delta s c))
    /\ (settled e ->
          scsi.source e' = scsi.source e /\ scsi.resolveError e' = scsi.resolveError e).
Proof.
  intros Hs. destruct c as [controller lun|a|a tgt readonly|m flags|a]; cbn.
  - destruct (OpenDevice_entry controller lun s e st Hs) as (e' & Hh & Hk & Hrc & Hsame).
    exists e'. split; [exact Hh|]. split; [exact Hk|]. split; [exact Hrc|].
    intros Hset. now rewrite (Hsame Hset).
  - destruct (resolve_entry a s e st Hs) as (e' & Hh & _ & Hk & Hrc & Hsame).
    exists e'. split; [exact Hh|]. split; [exact Hk|]. split; [exact Hrc|].
    intros Hset. now rewrite (Hsame Hset).
  - destruct (MountTo_entry a tgt readonly s e st Hs) as (e' & Hh & Hk & Hrc & Hsrc & Herr).
    exists e'. split; [exact Hh|]. split; [exact Hk|]. split; [|auto].
    rewrite Hrc. destruct (decide (a = s)); cbn; reflexivity.
  - destruct (scsi_Unmount_frame SD m flags st) as (r & st' & Hrun & Hheap & _).
    rewrite Hrun. cbn. rewrite Hheap. exists e. auto.
  - destruct (eject_entry a s e st Hs) as (e' & Hh & Hk & Hrc & Hsrc & Herr).
    exists e'. split; [exact Hh|]. split; [exact Hk|]. split; [|auto].
    rewrite Hrc. destruct (decide (a = s)); cbn; reflexivity.
Qed.

(** Once an entry is settled, no sequence of calls changes its [source] or
    its [resolveError]. *)
Lemma settled_fields_are_kept (calls : list scsi_call) :
  forall (st : scsi.State) (s : scsi.loc) (e : scsi.Scsi),
    scsi.heap st !! s = Some e ->
    settled e ->
    exists e',
      scsi.heap (scsi_run D SD calls st) !! s = Some e'
      /\ scsi.source e' = scsi.source e
      /\ scsi.resolveError e' = scsi.resolveError e.
Proof.
  induction calls as [|c calls IH]; intros st s e Hs Hset.
  - exists e. auto.
  - cbn. destruct (scsi_step_entry c s e st Hs) as (e1 & Hh & _ & _ & Hsame).
    destruct (Hsame Hset) as [Hsrc Herr].
    destruct (IH _ s e1 Hh) as (e' & Hh' & Hsrc' & Herr').
    { unfold settled in *. rewrite Hsrc, Herr. exact Hset. }
    exists e'. split; [exact Hh'|]. split; congruence.
Qed.

(** X7.  Over any sequence of [OpenDevice], [resolve], [MountTo] and
    [Unmount] calls, whatever they return, the reference count of an entry
    grows by the number of [MountTo] calls made on it and by nothing else: no
    [Unmount] takes anything off. *)
Lemma refCount_counts_mounts (calls : list scsi_call) :
  forall (st : scsi.State) (s : scsi.loc) (e : scsi.Scsi),
    scsi.heap st !! s = Some e ->
    forallb client_call calls = true ->
    0 <= scsi.refCount e ->
    scsi.refCount e + mounts_of s calls < 2 ^ 63 ->
    exists e',
      scsi.heap (scsi_run D SD calls st) !! s = Some e'
      /\ scsi.refCount e' = scsi.refCount e + mounts_of s calls.
Proof.
  induction calls as [|c calls IH]; intros st s e Hs Hclient Hpos Hbound.
  - exists e. unfold mounts_of. cbn. split; [exact Hs|lia].
  - cbn in Hclient. apply andb_true_iff in Hclient as [Hc Hclient].
    cbn [scsi_run fold_left].
    destruct (scsi_step_entry c s e st Hs) as (e1 & Hh & _ & Hrc & _).
    assert (Hm : mounts_of s (c :: calls) = refCount_delta s c + mounts_of s calls
                 /\ 0 <= refCount_delta s c <= 1 /\ 0 <= mounts_of s calls).
    { unfold mounts_of. cbn [List.filter].
      destruct c as [? ?|?|a ? ?|? ?|?]; cbn; try discriminate; try lia.
      destruct (decide (a = s)) as [->|Hne].
      - rewrite bool_decide_true by reflexivity. cbn [length]. lia.
      - rewrite bool_decide_false by exact Hne. lia. }
    destruct Hm as (Hm & Hd & Hm0).
    assert (Hrc1 : scsi.refCount e1 = scsi.refCount e + refCount_delta s c).
    { rewrite Hrc. destruct (decide (refCount_delta s c = 0)) as [H0|H0]; [lia|].
      unfold wrap64. rewrite Z.mod_small; lia. }
    destruct (IH _ s e1 Hh Hclient) as (e' & Hh' & Hrc'); [lia|lia|].
    exists e'. split; [exact Hh'|]. lia.
Qed.

End EntryFrame.

(** ** The registry stays valid *)

Section RegistryValid.

Variable D : scsi.Deps.
Variable SD : storage.Deps.

Lemma resolve_keeps_registry (a : scsi.loc) (st : scsi.State) :
  scsi.scsiDevices (state_after (scsi.resolve D a st) st) = scsi.scsiDevices st.
Proof.
  destruct (scsi.heap st !! a) as [ea|] eqn:Ha.
  - destruct (resolve_returns D a ea st Ha) as (r & st' & ea' & Hrun & Hreg & _).
    now rewrite Hrun.
  - unfold scsi.resolve. unfold_scsi. now rewrite Ha.
Qed.

Lemma MountTo_keeps_registry (a : scsi.loc) (tgt : string) (readonly : bool)
    (st : scsi.State) :
  scsi.scsiDevices (state_after (scsi.MountTo D SD a tgt readonly st) st)
    = scsi.scsiDevices st.
Proof.
  unfold scsi.MountTo. unfold_scsi. unfold_storage.
  destruct (scsi.heap st !! a) as [ea|]; cbn; [|reflexivity].
  simpl_scsi. rewrite lookup_insert_eq. cbn.
  match goal with |- context [storage.syscallMount SD ?x1 ?x2 ?x3 ?x4 ?x5 ?x6] =>
    destruct (storage.syscallMount SD x1 x2 x3 x4 x5 x6)
  end; reflexivity.
Qed.

(** [eject] can only take registrations away. *)
Lemma eject_shrinks_registry (a : scsi.loc) (st : scsi.State) (k : string)
    (b : scsi.loc) :
  scsi.scsiDevices (state_after (scsi.eject D a st) st) !! k = Some b ->
  scsi.scsiDevices st !! k = Some b.
Proof.
  unfold scsi.eject. unfold_scsi.
  destruct (scsi.heap st !! a) as [ea|]; cbn; [|tauto].
  simpl_scsi. rewrite lookup_insert_eq. cbn.
  destruct (decide (wrap64 (scsi.refCount ea - 1) < 0)); cbn; [tauto|].
  destruct (decide (wrap64 (scsi.refCount ea - 1) = 0)); cbn; [|tauto].
  match goal with |- context [scsi.osOpenFile D ?x1 ?x2 ?x3 ?x4] =>
    destruct (scsi.osOpenFile D x1 x2 x3 x4)
  end; cbn; intros H; apply lookup_delete_Some in H; tauto.
Qed.

Lemma OpenDevice_keeps_valid (controller lun : N) (st : scsi.State) :
  registry_valid st ->
  registry_valid (state_after (scsi.OpenDevice D controller lun st) st).
Proof.
  intros Hwf k b Hreg.
  assert (Hkeep : forall a, is_Some (scsi.heap st !! a) ->
            is_Some (scsi.heap (state_after (scsi.OpenDevice D controller lun st) st) !! a)).
  { intros a [e He].
    destruct (OpenDevice_entry D controller lun a e st He) as (e' & Hh & _). eauto. }
  destruct (OpenDevice_returns D controller lun st Hwf)
    as (r & st' & actual & e & Hrun & _ & Hact & Hother & Hcase).
  rewrite Hrun in *. cbn in *.
  destruct (decide (k = scsi.scsiDevicesKey controller lun)) as [->|Hk].
  - destruct Hcase as [(err & _ & _ & _ & Hnone)|(_ & _ & Hsome)]; [congruence|].
    assert (b = actual) by congruence. subst b. eauto.
  - rewrite (Hother k Hk) in Hreg. apply Hkeep. now apply (Hwf k).
Qed.

Lemma registry_valid_step (c : scsi_call) (st : scsi.State) :
  registry_valid st -> registry_valid (scsi_step D SD st c).
Proof.
  intros Hwf k b Hreg.
  assert (Hkeep : forall a, is_Some (scsi.heap st !! a) ->
                    is_Some (scsi.heap (scsi_step D SD st c) !! a)).
  { intros a [e He]. destruct (scsi_step_entry D SD c a e st He) as (e' & Hh & _).
    eauto. }
  destruct c as [controller lun|a|a tgt readonly|m flags|a]; unfold scsi_step in *.
  - now apply (OpenDevice_keeps_valid controller lun st Hwf k b).
  - rewrite resolve_keeps_registry in Hreg. apply Hkeep. now apply (Hwf k).
  - rewrite MountTo_keeps_registry in Hreg. apply Hkeep. now apply (Hwf k).
  - destruct (scsi_Unmount_frame SD m flags st) as (r & st' & Hrun & _ & Hsame).
    rewrite Hrun in Hreg. cbn in Hreg. rewrite Hsame in Hreg.
    apply Hkeep. now apply (Hwf k).
  - apply eject_shrinks_registry in Hreg. apply Hkeep. now apply (Hwf k).
Qed.

(** Every state that calls into the package can reach from a fresh registry
    is valid. *)
Lemma registry_valid_run (calls : list scsi_call) :
  forall st : scsi.State, registry_valid st -> registry_valid (scsi_run D SD calls st).
Proof.
  induction calls as [|c calls IH]; intros st Hwf; [exact Hwf|].
  cbn. apply IH. now apply registry_valid_step.
Qed.

End RegistryValid.

(** C6.  [OpenDevice(controller, lun)] returns.  The entry it resolves is the
    one registered under the key, or a fresh one if there was none.  If the
    resolution fails, the call returns a nil entry with the error that the
    entry now caches, and the registry has no entry under the key; if it
    succeeds, the call returns the entry and the registry holds that same entry
    under the key.  Other keys are not affected, and the registry is valid
    again afterwards. *)
Theorem OpenDevice_registry (D : scsi.Deps) (controller lun : N) (st : scsi.State) :
  registry_valid st ->
  exists r st' actual e,
    scsi.OpenDevice D controller lun st = Ok r st'
    /\ (scsi.scsiDevices st !! scsi.scsiDevicesKey controller lun = Some actual
        \/ (scsi.scsiDevices st !! scsi.scsiDevicesKey controller lun = None
            /\ scsi.heap st !! actual = None))
    /\ scsi.heap st' !! actual = Some e
    /\ (forall k, k <> scsi.scsiDevicesKey controller lun ->
          scsi.scsiDevices st' !! k = scsi.scsiDevices st !! k)
    /\ ((exists err,
           r = (None, Some err)
           /\ scsi.source e = "" /\ scsi.resolveError e = Some err
           /\ scsi.scsiDevices st' !! scsi.scsiDevicesKey controller lun = None)
        \/ (r = (Some actual, None)
            /\ scsi.source e <> ""
            /\ scsi.scsiDevices st' !! scsi.scsiDevicesKey controller lun = Some actual))
    /\ registry_valid st'.
Proof.
  intros Hwf.
  destruct (OpenDevice_returns D controller lun st Hwf)
    as (r & st' & actual & e & Hrun & Hfrom & Hact & Hother & Hcase).
  exists r, st', actual, e.
  split; [exact Hrun|]. split; [exact Hfrom|]. split; [exact Hact|].
  split; [exact Hother|]. split; [exact Hcase|].
  pose proof (OpenDevice_keeps_valid D controller lun st Hwf) as Hwf'.
  rewrite Hrun in Hwf'. exact Hwf'.
Qed.

(** C5.  A call of [resolve] on an entry returns and leaves the entry
    settled: [source] is set exactly when the call succeeded, and otherwise
    [resolveError] holds the error it returned.  If the entry was settled
    before the call, the call changed nothing at all.  From then on, after any
    sequence of calls into the package and whatever the seams answer, the
    entry still has the same [source] and [resolveError], and any number of
    further [resolve] calls on it return that same outcome and hand back the
    very same state, so the trace gains no directory scan. *)
Theorem resolve_outcome_is_final (D : scsi.Deps) (s : scsi.loc) (e : scsi.Scsi)
    (st : scsi.State) :
  scsi.heap st !! s = Some e ->
  exists r st1 e1,
    scsi.resolve D s st = Ok r st1
    /\ scsi.heap st1 !! s = Some e1
    /\ (scsi.source e1 <> "" \/ scsi.resolveError e1 <> None)
    /\ (scsi.source e <> "" \/ scsi.resolveError e <> None -> st1 = st /\ e1 = e)
    /\ (scsi.source e1 <> "" -> r = None)
    /\ (scsi.source e1 = "" -> r = scsi.resolveError e1)
    /\ forall (D2 : scsi.Deps) (SD : storage.Deps) (calls : list scsi_call),
         exists e2,
           scsi.heap (scsi_run D2 SD calls st1) !! s = Some e2
           /\ scsi.source e2 = scsi.source e1
           /\ scsi.resolveError e2 = scsi.resolveError e1
           /\ forall n : nat,
                resolve_times D2 s n (scsi_run D2 SD calls st1)
                  = Ok (repeat r n) (scsi_run D2 SD calls st1).
Proof.
  intros Hs.
  assert (Hlater : forall r st1 e1,
    scsi.heap st1 !! s = Some e1 -> settled e1 -> r = cached_outcome e1 ->
    forall (D2 : scsi.Deps) (SD : storage.Deps) (calls : list scsi_call),
      exists e2,
        scsi.heap (scsi_run D2 SD calls st1) !! s = Some e2
        /\ scsi.source e2 = scsi.source e1
        /\ scsi.resolveError e2 = scsi.resolveError e1
        /\ forall n : nat,
             resolve_times D2 s n (scsi_run D2 SD calls st1)
               = Ok (repeat r n) (scsi_run D2 SD calls st1)).
  { intros r st1 e1 Hs1 Hset1 -> D2 SD calls.
    destruct (settled_fields_are_kept D2 SD calls st1 s e1 Hs1 Hset1)
      as (e2 & Hs2 & Hsrc & Herr).
    exists e2. split; [exact Hs2|]. split; [exact Hsrc|]. split; [exact Herr|].
    intros n.
    assert (Hset2 : settled e2) by (unfold settled in *; now rewrite Hsrc, Herr).
    replace (cached_outcome e1) with (cached_outcome e2)
      by (unfold cached_outcome; now rewrite Hsrc, Herr).
    now apply resolve_times_settled. }
  destruct (decide (settled e)) as [Hset|Hnot].
  - exists (cached_outcome e), st, e.
    split; [now apply resolve_settled|]. split; [exact Hs|]. split; [exact Hset|].
    split; [tauto|].
    destruct (settled_answers s e st Hs Hset) as (H1 & H2 & _).
    split; [exact H1|]. split; [exact H2|]. now apply Hlater.
  - assert (Hsrc : scsi.source e = "").
    { destruct (decide (scsi.source e = "")) as [H|H]; [exact H|].
      exfalso. apply Hnot. left. exact H. }
    assert (Herr : scsi.resolveError e = None).
    { destruct (scsi.resolveError e) eqn:H; [|reflexivity].
      exfalso. apply Hnot. right. congruence. }
    destruct (resolve_unsettled D s e st Hs Hsrc Herr)
      as (r & st' & e' & Hrun & _ & _ & Hheap & _ & _ & _ & Hout).
    assert (Hs' : scsi.heap st' !! s = Some e')
      by (rewrite Hheap; apply lookup_insert_eq).
    assert (Hset' : settled e').
    { destruct Hout as [(_ & H & _)|(err & _ & _ & H)]; [left; exact H|right; congruence]. }
    assert (Hr : r = cached_outcome e').
    { unfold cached_outcome.
      destruct Hout as [(-> & H & _)|(err & -> & H1 & H2)].
      - now destruct (decide (scsi.source e' <> "")).
      - destruct (decide (scsi.source e' <> "")); congruence. }
    exists r, st', e'. split; [exact Hrun|]. split; [exact Hs'|]. split; [exact Hset'|].
    split; [intros H; exfalso; apply Hnot; exact H|].
    destruct (settled_answers s e' st' Hs' Hset') as (H1 & H2 & _).
    rewrite Hr. split; [exact H1|]. split; [exact H2|]. now apply Hlater.
Qed.

Lemma resolve_outcome_is_final_witness :
  exists r st1 e1,
    scsi.resolve sysfs_fails 0%nat state11 = Ok r st1
    /\ scsi.heap st1 !! 0%nat = Some e1
    /\ (scsi.source e1 <> "" \/ scsi.resolveError e1 <> None)
    /\ (scsi.source entry11 <> "" \/ scsi.resolveError entry11 <> None ->
        st1 = state11 /\ e1 = entry11)
    /\ (scsi.source e1 <> "" -> r = None)
    /\ (scsi.source e1 = "" -> r = scsi.resolveError e1)
    /\ forall (D2 : scsi.Deps) (SD : storage.Deps) (calls : list scsi_call),
         exists e2,
           scsi.heap (scsi_run D2 SD calls st1) !! 0%nat = Some e2
           /\ scsi.source e2 = scsi.source e1
           /\ scsi.resolveError e2 = scsi.resolveError e1
           /\ forall n : nat,
                resolve_times D2 0%nat n (scsi_run D2 SD calls st1)
                  = Ok (repeat r n) (scsi_run D2 SD calls st1).
Proof.
  apply (resolve_outcome_is_final sysfs_fails 0%nat entry11 state11).
  reflexivity.
Defined.

(** ** The overlay composer *)

(** The flags that [Mount] computes are zero for both values of [readonly]. *)
Lemma overlay_flags_zero (readonly : bool) :
  (if readonly then Z.lor 0 O_RDONLY else 0) = 0.
Proof. now destruct readonly. Qed.

(** C4.  A read-only overlay mount of two layers reaches the kernel with file
    system type ["overlay"] and the options ["lowerdir=/l1:/l2"], but with
    flags 0, which is not [MS_RDONLY]; a writable one with upper and work
    directories reaches it with flags 0 and the three options joined by
    commas. *)
Theorem overlay_readonly_mount_flags :
  (exists w',
     overlay.Mount overlay_ok ["/l1"; "/l2"] "" "" "/rootfs" true world0 = Ok None w'
     /\ kernel_mounts (trace w') = [("overlay", "/rootfs", "overlay", 0, "lowerdir=/l1:/l2")]
     /\ 0 <> MS_RDONLY)
  /\ (exists w',
        overlay.Mount overlay_ok ["/l1"; "/l2"] "/u" "/w" "/rootfs" false world0 = Ok None w'
        /\ kernel_mounts (trace w') =
             [("overlay", "/rootfs", "overlay", 0,
               "lowerdir=/l1:/l2,upperdir=/u,workdir=/w")]).
Proof.
  split; eexists; (split; [vm_compute; reflexivity|]); repeat split; vm_compute; congruence.
Qed.

Section OverlayCleanup.

Variable D : overlay.Deps.

Lemma run_deferred_nil_error (paths : list string) (w : World) :
  overlay.run_deferred None (map (overlay.remove_on_error D) paths) w = Ok tt w.
Proof.
  induction paths as [|p paths IH]; [reflexivity|].
  cbn. unfold_overlay. exact IH.
Qed.

Lemma run_deferred_error (e : error) (paths : list string) :
  forall w : World,
    exists cleanup w',
      overlay.run_deferred (Some e) (map (overlay.remove_on_error D) paths) w = Ok tt w'
      /\ trace w' = trace w ++ cleanup
      /\ clock w' = clock w
      /\ removed cleanup = paths
      /\ forallb is_removal cleanup = true.
Proof.
  induction paths as [|p paths IH]; intros w.
  - exists [], w. cbn. rewrite app_nil_r. auto.
  - cbn. unfold_overlay.
    match goal with |- context [overlay.run_deferred _ _ ?w1] =>
      destruct (IH w1) as (cleanup & w' & Hrun & Htr & Hck & Hrem & Hall)
    end.
    exists (EvRemoveAll p (overlay.osRemoveAll D (trace w) p) :: cleanup), w'.
    split; [exact Hrun|]. cbn in *. rewrite Htr, <- app_assoc, Hrem, Hall. auto.
Qed.

(** The part of [Mount] from the creation of [rootfsPath] on, started with a
    stack of removals for [paths]. *)
Lemma Mount_rootfs_shape (rootfsPath : string) (readonly : bool)
    (options : list string) (paths : list string) (w : World) :
  exists r body w',
    overlay.Mount_rootfs D rootfsPath readonly options
      (map (overlay.remove_on_error D) paths) w
    = Ok (r, map (overlay.remove_on_error D) (rev (created body) ++ paths)) w'
    /\ trace w' = trace w ++ body
    /\ clock w' = clock w
    /\ removed body = []
    /\ (r = None -> created body = [rootfsPath]
                    /\ kernel_mounts body = [overlay_call rootfsPath options])
    /\ (kernel_mounts body = []
        \/ kernel_mounts body = [overlay_call rootfsPath options]).
Proof.
  unfold overlay.Mount_rootfs. unfold_overlay. rewrite overlay_flags_zero.
  destruct (overlay.osMkdirAll D (trace w) rootfsPath 493) as [e|] eqn:Hmk.
  - eexists _, [EvMkdirAll rootfsPath 493 (Some e)], _.
    split; [reflexivity|]. cbn. repeat split; try discriminate. now left.
  - match goal with |- context [overlay.syscallMount D ?tr ?a ?b ?c ?f ?d] =>
      destruct (overlay.syscallMount D tr a b c f d) as [e|] eqn:Hsys
    end.
    + eexists _, [EvMkdirAll rootfsPath 493 None; EvMount _ _ _ _ _ (Some e)], _.
      split; [reflexivity|]. cbn. rewrite <- app_assoc.
      repeat split; try discriminate. now right.
    + eexists _, [EvMkdirAll rootfsPath 493 None; EvMount _ _ _ _ _ None], _.
      split; [reflexivity|]. cbn. rewrite <- app_assoc.
      repeat split. now right.
Qed.

Lemma Mount_workdir_shape (workdirPath rootfsPath : string) (readonly : bool)
    (options : list string) (paths : list string) (w : World) :
  exists r body w',
    overlay.Mount_workdir D workdirPath rootfsPath readonly options
      (map (overlay.remove_on_error D) paths) w
    = Ok (r, map (overlay.remove_on_error D) (rev (created body) ++ paths)) w'
    /\ trace w' = trace w ++ body
    /\ clock w' = clock w
    /\ removed body = []
    /\ (r = None ->
          created body = given [workdirPath] ++ [rootfsPath]
          /\ kernel_mounts body =
               [overlay_call rootfsPath (options ++ workdir_options workdirPath)])
    /\ (kernel_mounts body = []
        \/ kernel_mounts body =
             [overlay_call rootfsPath (options ++ workdir_options workdirPath)]).
Proof.
  unfold overlay.Mount_workdir, workdir_options, given. cbn [List.filter].
  destruct (decide (workdirPath <> "")) as [Hw|Hw].
  - rewrite bool_decide_true by exact Hw. unfold overlay.call_osMkdirAll. unfold_monad.
    destruct (overlay.osMkdirAll D (trace w) workdirPath 493) as [e|] eqn:Hmk.
    + eexists _, [EvMkdirAll workdirPath 493 (Some e)], _.
      split; [reflexivity|]. cbn. repeat split; try discriminate. now left.
    + match goal with |- context [overlay.Mount_rootfs D _ _ ?o _ ?w1] =>
        destruct (Mount_rootfs_shape rootfsPath readonly o (workdirPath :: paths) w1)
          as (r & body & w' & Hrun & Htr & Hck & Hrem & Hok & Hk)
      end.
      cbn [map] in Hrun. rewrite Hrun.
      exists r, (EvMkdirAll workdirPath 493 None :: body), w'.
      cbn in *. rewrite <- !app_assoc in *. cbn.
      split; [reflexivity|]. split; [exact Htr|].
      split; [exact Hck|]. split; [exact Hrem|]. split; [|exact Hk].
      intros Hr. destruct (Hok Hr) as [Hc Hm]. now rewrite Hc.
  - rewrite bool_decide_false by exact Hw. rewrite app_nil_r.
    apply Mount_rootfs_shape.
Qed.

Lemma Mount_body_shape (layerPaths : list string)
    (upperdirPath workdirPath rootfsPath : string) (readonly : bool) (w : World) :
  exists r body w',
    overlay.Mount_body D layerPaths upperdirPath workdirPath rootfsPath readonly w
    = Ok (r, map (overlay.remove_on_error D) (rev (created body))) w'
    /\ trace w' = trace w ++ body
    /\ clock w' = clock w
    /\ removed body = []
    /\ (r = None ->
          created body = given [upperdirPath; workdirPath] ++ [rootfsPath]
          /\ kernel_mounts body =
               [overlay_call rootfsPath
                  (["lowerdir=" +:+ strings_Join layerPaths ":"]
                     ++ upperdir_options upperdirPath ++ workdir_options workdirPath)])
    /\ (kernel_mounts body = []
        \/ kernel_mounts body =
             [overlay_call rootfsPath
                (["lowerdir=" +:+ strings_Join layerPaths ":"]
                   ++ upperdir_options upperdirPath ++ workdir_options workdirPath)]).
Proof.
  unfold overlay.Mount_body.
  destruct (readonly && (bool_decide (upperdirPath <> "") || bool_decide (workdirPath <> ""))).
  - eexists _, [], w. unfold_monad. cbn. rewrite app_nil_r.
    repeat split; try discriminate. now left.
  - unfold upperdir_options.
    destruct (decide (upperdirPath <> "")) as [Hu|Hu].
    + unfold overlay.call_osMkdirAll. unfold_monad.
      destruct (overlay.osMkdirAll D (trace w) upperdirPath 493) as [e|] eqn:Hmk.
      * eexists _, [EvMkdirAll upperdirPath 493 (Some e)], _.
        split; [reflexivity|]. cbn. repeat split; try discriminate. now left.
      * match goal with |- context [overlay.Mount_workdir D _ _ _ ?o _ ?w1] =>
          destruct (Mount_workdir_shape workdirPath rootfsPath readonly o
                      [upperdirPath] w1)
            as (r & body & w' & Hrun & Htr & Hck & Hrem & Hok & Hk)
        end.
        cbn [map] in Hrun. rewrite Hrun.
        exists r, (EvMkdirAll upperdirPath 493 None :: body), w'.
        cbn [created removed kernel_mounts rev]. cbn in Htr, Hck.
        rewrite <- !app_assoc in *. cbn [app] in *.
        split; [reflexivity|]. split; [exact Htr|].
        split; [exact Hck|]. split; [exact Hrem|]. split; [|exact Hk].
        intros Hr. destruct (Hok Hr) as [Hc Hm]. rewrite Hc. split; [|exact Hm].
        unfold given. cbn [List.filter].
        now rewrite (bool_decide_true (upperdirPath <> "")) by exact Hu.
    + destruct (Mount_workdir_shape workdirPath rootfsPath readonly
                  ["lowerdir=" +:+ strings_Join layerPaths ":"] [] w)
        as (r & body & w' & Hrun & Htr & Hck & Hrem & Hok & Hk).
      cbn [map] in Hrun. rewrite app_nil_r in Hrun. rewrite Hrun.
      exists r, body, w'. split; [reflexivity|]. split; [exact Htr|].
      split; [exact Hck|]. split; [exact Hrem|]. split; [|exact Hk].
      intros Hr. destruct (Hok Hr) as [Hc Hm]. rewrite Hc. split; [|exact Hm].
      unfold given. cbn [List.filter].
      now rewrite (bool_decide_false (upperdirPath <> "")) by exact Hu.
Qed.

End OverlayCleanup.

(** C7.  Every call of the overlay composer's [Mount] returns, and its seam
    calls fall into a body that removes nothing, followed by a cleanup made of
    [osRemoveAll] calls only.  When the call returns an error, the cleanup
    removes exactly the directories that the body created, the latest first.
    When it returns nil, there is no cleanup, and the body created the given
    ones among [upperdirPath] and [workdirPath], and [rootfsPath]. *)
Theorem overlay_Mount_cleanup (D : overlay.Deps) (layerPaths : list string)
    (upperdirPath workdirPath rootfsPath : string) (readonly : bool) (w : World) :
  exists r body cleanup w',
    overlay.Mount D layerPaths upperdirPath workdirPath rootfsPath readonly w = Ok r w'
    /\ trace w' = trace w ++ body ++ cleanup
    /\ removed body = []
    /\ forallb is_removal cleanup = true
    /\ (r <> None -> removed cleanup = rev (created body))
    /\ (r = None ->
          cleanup = []
          /\ created body = given [upperdirPath; workdirPath] ++ [rootfsPath]).
Proof.
  unfold overlay.Mount.
  destruct (Mount_body_shape D layerPaths upperdirPath workdirPath rootfsPath readonly w)
    as (r & body & w1 & Hrun & Htr & Hck & Hrem & Hok & _).
  unfold bind at 1. rewrite Hrun. cbn [fst snd].
  destruct r as [e|].
  - destruct (run_deferred_error D e (rev (created body)) w1)
      as (cleanup & w' & Hdef & Htr' & _ & Hremoved & Hall).
    unfold bind at 1. rewrite Hdef. unfold ret.
    exists (Some e), body, cleanup, w'. split; [reflexivity|].
    rewrite Htr', Htr, <- app_assoc.
    split; [reflexivity|]. split; [exact Hrem|]. split; [exact Hall|].
    split; [intros _; exact Hremoved|discriminate].
  - unfold bind at 1. rewrite run_deferred_nil_error. unfold ret.
    exists None, body, [], w1. split; [reflexivity|].
    rewrite app_nil_r.
    split; [exact Htr|]. split; [exact Hrem|]. split; [reflexivity|].
    split; [congruence|]. intros _. split; [reflexivity|]. now apply Hok.
Qed.

Lemma kernel_mounts_app_removals (body cleanup : list Event) :
  forallb is_removal cleanup = true ->
  kernel_mounts (body ++ cleanup) = kernel_mounts body.
Proof.
  intros Hall. induction body as [|ev body IH]; cbn.
  - induction cleanup as [|c cleanup IHc]; [reflexivity|].
    cbn in Hall. apply andb_true_iff in Hall as [Hc Hall].
    destruct c; try discriminate. cbn. now apply IHc.
  - destruct ev; cbn; try apply IH. now rewrite IH.
Qed.

(** Whenever [Mount] reaches the kernel, it does so once, with file system
    type ["overlay"], flags zero and the options joined by commas; a call that
    returns nil has reached it. *)
Lemma overlay_Mount_kernel_call (D : overlay.Deps) (layerPaths : list string)
    (upperdirPath workdirPath rootfsPath : string) (readonly : bool) (w : World) :
  exists r evs w',
    overlay.Mount D layerPaths upperdirPath workdirPath rootfsPath readonly w = Ok r w'
    /\ trace w' = trace w ++ evs
    /\ (kernel_mounts evs = [] \/
        kernel_mounts evs =
          [overlay_call rootfsPath
             (["lowerdir=" +:+ strings_Join layerPaths ":"]
                ++ upperdir_options upperdirPath ++ workdir_options workdirPath)])
    /\ (r = None -> kernel_mounts evs <> []).
Proof.
  unfold overlay.Mount.
  destruct (Mount_body_shape D layerPaths upperdirPath workdirPath rootfsPath readonly w)
    as (r & body & w1 & Hrun & Htr & Hck & Hrem & Hok & Hk).
  unfold bind at 1. rewrite Hrun. cbn [fst snd].
  pose proof (kernel_mounts_app_removals body) as Hno.
  destruct r as [e|].
  - destruct (run_deferred_error D e (rev (created body)) w1)
      as (cleanup & w' & Hdef & Htr' & _ & _ & Hall).
    unfold bind at 1. rewrite Hdef. unfold ret.
    exists (Some e), (body ++ cleanup), w'. split; [reflexivity|].
    rewrite Htr', Htr, <- app_assoc, (Hno cleanup Hall).
    repeat split; try assumption. discriminate.
  - unfold bind at 1. rewrite run_deferred_nil_error. unfold ret.
    exists None, body, w1. split; [reflexivity|]. repeat split; try assumption.
    intros _. destruct (Hok eq_refl) as [_ Hm]. rewrite Hm. discriminate.
Qed.

(** ** The PMEM registry *)

(** The registry key is the decimal numeral of the device number, so
    different numbers have different keys. *)
Lemma pmemDeviceKey_inj (n1 n2 : N) :
  pmem.pmemDeviceKey n1 = pmem.pmemDeviceKey n2 -> n1 = n2.
Proof. unfold pmem.pmemDeviceKey. apply pretty_N_inj. Qed.

Lemma pmem_OpenDevice_returns (n : N) (st : pmem.State) :
  exists p st',
    pmem.OpenDevice n st = Ok (Some p, None) st'
    /\ pmem.pmemDevices st' !! pmem.pmemDeviceKey n = Some p
    /\ (forall q, pmem.pmemDevices st !! pmem.pmemDeviceKey n = Some q -> p = q).
Proof.
  unfold pmem.OpenDevice. unfold_pmem. cbn.
  destruct (pmem.pmemDevices st !! pmem.pmemDeviceKey n) as [a|] eqn:Hreg.
  - exists a. eexists. split; [reflexivity|]. cbn. split; [exact Hreg|]. congruence.
  - eexists _, _. split; [reflexivity|]. cbn. rewrite lookup_insert_eq.
    split; [reflexivity|]. congruence.
Qed.

(** No call removes or replaces a registered entry. *)
Lemma pmem_step_keeps_registered (SD : storage.Deps) (c : pmem_call) (st : pmem.State)
    (k : string) (p : pmem.loc) :
  pmem.pmemDevices st !! k = Some p ->
  pmem.pmemDevices (pmem_step SD st c) !! k = Some p.
Proof.
  intros Hreg. destruct c as [n|q target|q|m flags]; cbn.
  - unfold pmem.OpenDevice. unfold_pmem. cbn.
    destruct (pmem.pmemDevices st !! pmem.pmemDeviceKey n) eqn:Hn; cbn; [exact Hreg|].
    rewrite lookup_insert_ne; [exact Hreg|congruence].
  - unfold pmem.MountTo. unfold_pmem. unfold_storage.
    destruct (pmem.heap st !! q); cbn; [|exact Hreg].
    rewrite lookup_insert_eq. cbn.
    match goal with |- context [storage.syscallMount SD ?a ?b ?c ?d ?e ?f] =>
      destruct (storage.syscallMount SD a b c d e f)
    end; cbn; exact Hreg.
  - unfold pmem.unmount. unfold_pmem.
    destruct (pmem.heap st !! q); cbn; [|exact Hreg].
    rewrite lookup_insert_eq. cbn.
    match goal with |- context [decide ?P] => destruct (decide P) end; cbn; exact Hreg.
  - unfold pmem.Unmount. unfold_pmem. unfold_storage.
    destruct (storage.mounted m); cbn; [|exact Hreg].
    match goal with |- context [storage.syscallUnmount SD ?a ?b ?c] =>
      destruct (storage.syscallUnmount SD a b c)
    end; cbn; exact Hreg.
Qed.

Lemma pmem_run_keeps_registered (SD : storage.Deps) (calls : list pmem_call) :
  forall (st : pmem.State) (k : string) (p : pmem.loc),
    pmem.pmemDevices st !! k = Some p ->
    pmem.pmemDevices (pmem_run SD calls st) !! k = Some p.
Proof.
  induction calls as [|c calls IH]; intros st k p Hreg; [exact Hreg|].
  cbn. apply IH. now apply pmem_step_keeps_registered.
Qed.

(** The registry is valid to begin with, and every call into the package
    keeps it valid. *)
Lemma pmem_registry_valid_init : pmem_registry_valid pmem.init.
Proof. intros k p H. cbn in H. rewrite lookup_empty in H. discriminate. Defined.

Lemma pmem_store_keeps_valid (st : pmem.State) (q : pmem.loc) (e e' : pmem.Pmem) :
  pmem.heap st !! q = Some e ->
  pmem.deviceNumber e' = pmem.deviceNumber e ->
  pmem_registry_valid st ->
  forall k p,
    pmem.pmemDevices st !! k = Some p ->
    exists e0, <[q := e']> (pmem.heap st) !! p = Some e0
               /\ pmem.pmemDeviceKey (pmem.deviceNumber e0) = k.
Proof.
  intros Hq Hnum Hvalid k p Hk. destruct (Hvalid k p Hk) as (e0 & He0 & Hkey).
  destruct (decide (q = p)) as [->|Hne].
  - rewrite lookup_insert_eq. exists e'. split; [reflexivity|].
    rewrite Hnum. congruence.
  - rewrite lookup_insert_ne by exact Hne. eauto.
Qed.

Lemma pmem_OpenDevice_keeps_valid (n : N) (st : pmem.State) :
  pmem_registry_valid st ->
  pmem_registry_valid (state_after (pmem.OpenDevice n st) st).
Proof.
  intros Hvalid. unfold pmem.OpenDevice. unfold_pmem. cbn.
  assert (Hfresh : pmem.heap st !! fresh (dom (pmem.heap st)) = None)
    by apply not_elem_of_dom, is_fresh.
  set (p0 := fresh (dom (pmem.heap st))) in *.
  assert (Hkeep : forall k p, pmem.pmemDevices st !! k = Some p ->
            exists e, <[p0 := pmem.mkPmem n 0]> (pmem.heap st) !! p = Some e
                      /\ pmem.pmemDeviceKey (pmem.deviceNumber e) = k).
  { intros k p Hk. destruct (Hvalid k p Hk) as (e & He & Hkey).
    exists e. split; [|exact Hkey].
    rewrite lookup_insert_ne; [exact He|]. intros ->. congruence. }
  destruct (pmem.pmemDevices st !! pmem.pmemDeviceKey n) as [a|] eqn:Hreg; cbn.
  - intros k p Hk. cbn in Hk |- *. now apply Hkeep.
  - intros k p Hk. cbn in Hk |- *.
    destruct (decide (pmem.pmemDeviceKey n = k)) as [<-|Hne].
    + rewrite lookup_insert_eq in Hk. injection Hk as <-.
      rewrite lookup_insert_eq. eexists. split; reflexivity.
    + rewrite lookup_insert_ne in Hk by exact Hne. now apply Hkeep.
Qed.

Lemma pmem_step_keeps_valid (SD : storage.Deps) (c : pmem_call) (st : pmem.State) :
  pmem_registry_valid st -> pmem_registry_valid (pmem_step SD st c).
Proof.
  intros Hvalid. destruct c as [n|q target|q|m flags]; cbn [pmem_step].
  - now apply pmem_OpenDevice_keeps_valid.
  - unfold pmem.MountTo. unfold_pmem. unfold_storage.
    destruct (pmem.heap st !! q) as [eq|] eqn:Hq; cbn; [|exact Hvalid].
    rewrite lookup_insert_eq. cbn.
    match goal with |- context [storage.syscallMount SD ?x1 ?x2 ?x3 ?x4 ?x5 ?x6] =>
      destruct (storage.syscallMount SD x1 x2 x3 x4 x5 x6)
    end; cbn; intros k p Hk; cbn in Hk |- *;
      now apply (pmem_store_keeps_valid st q eq).
  - unfold pmem.unmount. unfold_pmem.
    destruct (pmem.heap st !! q) as [eq|] eqn:Hq; cbn; [|exact Hvalid].
    rewrite lookup_insert_eq. cbn.
    match goal with |- context [decide ?P] => destruct (decide P) end; cbn;
      intros k p Hk; cbn in Hk |- *; now apply (pmem_store_keeps_valid st q eq).
  - unfold pmem.Unmount. unfold_pmem. unfold_storage.
    destruct (storage.mounted m); cbn; [|exact Hvalid].
    match goal with |- context [storage.syscallUnmount SD ?a ?b ?c] =>
      destruct (storage.syscallUnmount SD a b c)
    end; cbn; exact Hvalid.
Qed.

Lemma pmem_run_keeps_valid (SD : storage.Deps) (calls : list pmem_call) :
  forall st : pmem.State,
    pmem_registry_valid st -> pmem_registry_valid (pmem_run SD calls st).
Proof.
  induction calls as [|c calls IH]; intros st Hvalid; [exact Hvalid|].
  cbn. apply IH. now apply pmem_step_keeps_valid.
Qed.

(** What [OpenDevice] does to the state: it allocates one new entry for the
    device number, with count zero, at a location that was free, and
    registers it unless the key was taken, in which case it answers the
    registered pointer. *)
Lemma pmem_OpenDevice_effect (n : N) (st : pmem.State) :
  exists p st' l,
    pmem.OpenDevice n st = Ok (Some p, None) st'
    /\ pmem.heap st !! l = None
    /\ pmem.heap st'
       = <[l := {| pmem.deviceNumber := n; pmem.refCount := 0 |}]> (pmem.heap st)
    /\ pmem.world st' = pmem.world st
    /\ match pmem.pmemDevices st !! pmem.pmemDeviceKey n with
       | Some q => p = q /\ pmem.pmemDevices st' = pmem.pmemDevices st
       | None =>
           p = l
           /\ pmem.pmemDevices st' = <[pmem.pmemDeviceKey n := l]> (pmem.pmemDevices st)
       end.
Proof.
  unfold pmem.OpenDevice. unfold_pmem. cbn.
  assert (Hfresh : pmem.heap st !! fresh (dom (pmem.heap st)) = None)
    by apply not_elem_of_dom, is_fresh.
  destruct (pmem.pmemDevices st !! pmem.pmemDeviceKey n) as [a|] eqn:Hreg.
  - eexists _, _, _. split; [reflexivity|]. cbn.
    split; [exact Hfresh|]. repeat split; reflexivity.
  - eexists _, _, _. split; [reflexivity|]. cbn.
    split; [exact Hfresh|]. repeat split; reflexivity.
Qed.

(** C10.  [OpenDevice(deviceNumber)] of package pmem returns a non-nil entry
    and a nil error in every state.  The call allocates one new entry for the
    device number, with count zero, at a location that was free, and changes
    nothing else in the heap or in the world; when the key, the decimal
    numeral of the device number, was not registered, that new entry is
    registered and returned, and otherwise the registered pointer is returned
    and the registry stays as it was.  The returned pointer is then registered
    under the key, and after any sequence of calls into the package,
    [OpenDevice] with the same device number returns that same pointer again,
    still with a nil error.  In a valid registry, as a fresh one is and as
    every call keeps it, the returned pointer points to an entry of that
    device number, right after the call and after any sequence of calls. *)
Theorem pmem_OpenDevice_never_fails (deviceNumber : N) (st : pmem.State) :
  exists p st1,
    pmem.OpenDevice deviceNumber st = Ok (Some p, None) st1
    /\ pmem.pmemDevices st1 !! pretty deviceNumber = Some p
    /\ (forall (SD : storage.Deps) (calls : list pmem_call),
          exists st2,
            pmem.OpenDevice deviceNumber (pmem_run SD calls st1) = Ok (Some p, None) st2)
    /\ (exists l,
          pmem.heap st !! l = None
          /\ pmem.heap st1
             = <[l := {| pmem.deviceNumber := deviceNumber; pmem.refCount := 0 |}]>
                 (pmem.heap st)
          /\ pmem.world st1 = pmem.world st
          /\ match pmem.pmemDevices st !! pretty deviceNumber with
             | Some q => p = q /\ pmem.pmemDevices st1 = pmem.pmemDevices st
             | None =>
                 p = l
                 /\ pmem.pmemDevices st1
                    = <[pretty deviceNumber := l]> (pmem.pmemDevices st)
             end)
    /\ (pmem_registry_valid st ->
        (exists e,
           pmem.heap st1 !! p = Some e /\ pmem.deviceNumber e = deviceNumber)
        /\ forall (SD : storage.Deps) (calls : list pmem_call),
             pmem_registry_valid (pmem_run SD calls st1)
             /\ exists e st2,
                  pmem.OpenDevice deviceNumber (pmem_run SD calls st1)
                  = Ok (Some p, None) st2
                  /\ pmem.heap (pmem_run SD calls st1) !! p = Some e
                  /\ pmem.heap st2 !! p = Some e
                  /\ pmem.deviceNumber e = deviceNumber).
Proof.
  destruct (pmem_OpenDevice_effect deviceNumber st)
    as (p & st1 & l & Hrun & Hfree & Hheap & Hworld & Hregistry).
  destruct (pmem_OpenDevice_returns deviceNumber st) as (p' & st1' & Hrun' & Hreg & _).
  rewrite Hrun in Hrun'. injection Hrun' as <- <-.
  assert (Hagain : forall (SD : storage.Deps) (calls : list pmem_call),
            exists st2 l2,
              pmem.OpenDevice deviceNumber (pmem_run SD calls st1) = Ok (Some p, None) st2
              /\ pmem.heap (pmem_run SD calls st1) !! l2 = None
              /\ pmem.heap st2
                 = <[l2 := {| pmem.deviceNumber := deviceNumber; pmem.refCount := 0 |}]>
                     (pmem.heap (pmem_run SD calls st1))).
  { intros SD calls.
    destruct (pmem_OpenDevice_effect deviceNumber (pmem_run SD calls st1))
      as (q & st2 & l2 & Hrun2 & Hfree2 & Hheap2 & _ & Hregistry2).
    pose proof (pmem_run_keeps_registered SD calls st1 _ p Hreg) as Hkept.
    rewrite Hkept in Hregistry2. destruct Hregistry2 as [-> _].
    exists st2, l2. split; [exact Hrun2|]. split; assumption. }
  exists p, st1. split; [exact Hrun|]. split; [exact Hreg|].
  split; [intros SD calls; destruct (Hagain SD calls) as (st2 & _ & H2 & _); eauto|].
  split; [exists l; split; [exact Hfree|]; split; [exact Hheap|];
          split; [exact Hworld|exact Hregistry]|].
  intros Hvalid.
  assert (Hvalid1 : pmem_registry_valid st1).
  { pose proof (pmem_OpenDevice_keeps_valid deviceNumber st Hvalid) as H1.
    rewrite Hrun in H1. exact H1. }
  assert (Hentry : forall st', pmem_registry_valid st' ->
            pmem.pmemDevices st' !! pmem.pmemDeviceKey deviceNumber = Some p ->
            exists e, pmem.heap st' !! p = Some e /\ pmem.deviceNumber e = deviceNumber).
  { intros st' Hv Hk. destruct (Hv _ p Hk) as (e & He & Hkey).
    exists e. split; [exact He|]. now apply pmemDeviceKey_inj. }
  split; [now apply Hentry|].
  intros SD calls.
  pose proof (pmem_run_keeps_valid SD calls st1 Hvalid1) as Hvalid2.
  split; [exact Hvalid2|].
  destruct (Hentry (pmem_run SD calls st1) Hvalid2) as (e & He & Hnum).
  { now apply pmem_run_keeps_registered. }
  destruct (Hagain SD calls) as (st2 & l2 & Hrun2 & Hfree2 & Hheap2).
  exists e, st2. split; [exact Hrun2|]. split; [exact He|]. split; [|exact Hnum].
  rewrite Hheap2, lookup_insert_ne; [exact He|]. intros ->. congruence.
Qed.

(** ** The shutdown handlers *)

Section Dispatch.

(** Any state, supervisor and response writer. *)
Context {S : Type}.
Variable P : prot.Params.
Variable c : gcs.Core S.
Variable others : gcs.Others S.

Hypothesis identifiers_differ : NoDup (prot.identifiers P).

(** The nine registrations succeed, and the later ones do not displace the
    two shutdown handlers. *)
Lemma registrations :
  exists mux,
    gcs.register_all P c others bridge.NewBridgeMux = Ok tt mux
    /\ bridge.m mux !! prot.ComputeSystemShutdownForcedV1 P
         = Some (gcs.killContainer P c : bridge.Handler S)
    /\ bridge.m mux !! prot.ComputeSystemShutdownGracefulV1 P
         = Some (gcs.shutdownContainer P c : bridge.Handler S).
Proof.
  eexists. split; [reflexivity|].
  unfold prot.identifiers in identifiers_differ.
  repeat match goal with
         | H : NoDup (_ :: _) |- _ => apply NoDup_cons in H as [? H]
         end.
  repeat match goal with
         | H : _ ∉ _ :: _ |- _ => apply not_elem_of_cons in H as [? H]
         end.
  cbn. split.
  - rewrite !lookup_insert_ne by congruence. apply lookup_insert_eq.
  - rewrite !lookup_insert_ne by congruence. apply lookup_insert_eq.
Qed.

(** Serving a request of one of the two shutdown types is running
    [signalContainer] with the signal that the type implies. *)
Lemma ServeMsg_shutdown (w : bridge.ResponseWriter S) (r : bridge.Request)
    (signal : oslayer.Signal) :
  (prot.Type_ (bridge.Header r) = prot.ComputeSystemShutdownForcedV1 P
     /\ signal = oslayer.SIGKILL)
  \/ (prot.Type_ (bridge.Header r) = prot.ComputeSystemShutdownGracefulV1 P
        /\ signal = oslayer.SIGTERM) ->
  exists h,
    gcs.NewGcsHandler P c others tt = Ok h tt
    /\ forall st, gcs.ServeMsg P h w (Some r) st = gcs.signalContainer P c w r signal st.
Proof.
  intros Hkind.
  destruct registrations as (mux & Hreg & Hforced & Hgraceful).
  unfold gcs.NewGcsHandler. rewrite Hreg.
  eexists. split; [reflexivity|]. intros st.
  unfold gcs.ServeMsg, bridge.ServeMsg, bridge.Mux_Handler. cbn [gcs.mux].
  destruct Hkind as [[Hty ->]|[Hty ->]]; rewrite Hty.
  - rewrite Hforced. reflexivity.
  - rewrite Hgraceful. reflexivity.
Qed.

End Dispatch.

Section Shutdown.

Variable P : prot.Params.
Variable behavior : list gcs.Call -> string -> oslayer.Signal -> option error.
Variable others : gcs.Others (list gcs.Call).

Hypothesis identifiers_differ : NoDup (prot.identifiers P).

Lemma signalContainer_calls (header : prot.MessageHeader) (r : bridge.Request)
    (request : prot.MessageBase) (signal : oslayer.Signal) (calls : list gcs.Call) :
  prot.UnmarshalMessageBase P (bridge.Message r) = inl request ->
  gcs.signalContainer P (gcs.mockCore behavior) (gcs.testResponseWriter header) r signal
    calls
  = Ok tt (calls ++ signalled header request signal
                      (behavior calls (prot.ContainerID request) signal)).
Proof.
  intros Hdec. unfold gcs.signalContainer, signalled. rewrite Hdec.
  unfold_monad. cbn.
  destruct (behavior calls (prot.ContainerID request) signal);
    unfold modify; cbn; now rewrite <- app_assoc.
Qed.

(** C9.  With the handlers registered by [NewGcsHandler], a request whose
    type is [ShutdownForced] and whose message decodes makes one call of the
    supervisor's [SignalContainer], with the request's container id and
    [SIGKILL]; a [ShutdownGraceful] one makes that call with [SIGTERM].  When
    the supervisor answers nil, exactly one response is written after it: a
    [Write] of the envelope with result zero, the request's activity id and
    no error record. *)
Theorem shutdown_handlers_signal (header : prot.MessageHeader) (r : bridge.Request)
    (request : prot.MessageBase) (signal : oslayer.Signal) (calls : list gcs.Call) :
  prot.UnmarshalMessageBase P (bridge.Message r) = inl request ->
  (prot.Type_ (bridge.Header r) = prot.ComputeSystemShutdownForcedV1 P
     /\ signal = oslayer.SIGKILL)
  \/ (prot.Type_ (bridge.Header r) = prot.ComputeSystemShutdownGracefulV1 P
        /\ signal = oslayer.SIGTERM) ->
  exists h calls',
    gcs.NewGcsHandler P (gcs.mockCore behavior) others tt = Ok h tt
    /\ gcs.ServeMsg P h (gcs.testResponseWriter header) (Some r) calls = Ok tt calls'
    /\ (exists res rest,
          calls' = calls ++ gcs.CallSignalContainer (prot.ContainerID request) signal res
                              :: rest
          /\ res = behavior calls (prot.ContainerID request) signal
          /\ (res = None ->
                rest = [gcs.CallWrite header
                          (bridge.ResponseBase
                             {| prot.Result := 0;
                                prot.rb_ActivityID := prot.ActivityID request;
                                prot.ErrorRecords := [] |})]
                /\ gcs.respWriteCount calls' = S (gcs.respWriteCount calls))).
Proof.
  intros Hdec Hkind.
  destruct (ServeMsg_shutdown P (gcs.mockCore behavior) others identifiers_differ
              (gcs.testResponseWriter header) r signal Hkind) as (h & Hnew & Hserve).
  exists h. eexists. split; [exact Hnew|]. split.
  - rewrite Hserve. apply signalContainer_calls. exact Hdec.
  - unfold signalled. eexists _, _. split; [reflexivity|]. split; [reflexivity|].
    intros Hnone. rewrite Hnone. split; [reflexivity|].
    unfold gcs.respWriteCount. rewrite List.filter_app, length_app. cbn. lia.
Qed.

End Shutdown.

(** ** The theorems at concrete inputs *)

Lemma registry_valid_init (timeout : Z) : registry_valid (scsi.init timeout).
Proof. intros k a H. cbn in H. rewrite lookup_empty in H. discriminate. Defined.

Lemma OpenDevice_registry_witness :
  (exists r st' actual e,
     scsi.OpenDevice sysfs_fails 1 1 (scsi.init (2 * Second)) = Ok r st'
     /\ (scsi.scsiDevices (scsi.init (2 * Second)) !! scsi.scsiDevicesKey 1 1 = Some actual
         \/ (scsi.scsiDevices (scsi.init (2 * Second)) !! scsi.scsiDevicesKey 1 1 = None
             /\ scsi.heap (scsi.init (2 * Second)) !! actual = None))
     /\ scsi.heap st' !! actual = Some e
     /\ (forall k, k <> scsi.scsiDevicesKey 1 1 ->
           scsi.scsiDevices st' !! k = scsi.scsiDevices (scsi.init (2 * Second)) !! k)
     /\ ((exists err,
            r = (None, Some err)
            /\ scsi.source e = "" /\ scsi.resolveError e = Some err
            /\ scsi.scsiDevices st' !! scsi.scsiDevicesKey 1 1 = None)
         \/ (r = (Some actual, None)
             /\ scsi.source e <> ""
             /\ scsi.scsiDevices st' !! scsi.scsiDevicesKey 1 1 = Some actual))
     /\ registry_valid st')
  /\ registry_valid (scsi.init (2 * Second)).
Proof.
  split.
  - apply (OpenDevice_registry sysfs_fails 1 1 (scsi.init (2 * Second))).
    apply registry_valid_init.
  - apply registry_valid_init.
Defined.

(** The two literal scenarios of the registry: a listing with one disk, and
    a listing that fails. *)
Example OpenDevice_success_scenario :
  exists st',
    scsi.OpenDevice sysfs_one_disk 1 1 (scsi.init (2 * Second)) = Ok (Some 0%nat, None) st'
    /\ scsi.scsiDevices st' !! "0:0:1:1" = Some 0%nat
    /\ (scsi.source <$> scsi.heap st' !! 0%nat) = Some "/dev/sda".
Proof.
  eexists. split; [vm_compute; reflexivity|]. split; vm_compute; reflexivity.
Qed.

Example OpenDevice_failure_scenario :
  exists st',
    scsi.OpenDevice sysfs_fails 1 1 (scsi.init (2 * Second))
      = Ok (None, Some (errorString "intentional failure")) st'
    /\ scsi.scsiDevices st' !! "0:0:1:1" = None
    /\ scans (trace (scsi.world st')) = 1%nat.
Proof.
  eexists. split; [vm_compute; reflexivity|]. split; vm_compute; reflexivity.
Qed.

(** A device that never shows up: the resolution gives up after the timeout
    with an error whose cause is the not-exist error. *)
Example resolve_timeout_scenario :
  exists err st',
    scsi.OpenDevice sysfs_absent 1 1 (scsi.init (50 * Millisecond)) = Ok (None, Some err) st'
    /\ os_IsNotExist (errors_Cause err) = true
    /\ scans (trace (scsi.world st')) = 7%nat.
Proof.
  eexists _, _. split; [vm_compute; reflexivity|]. split; vm_compute; reflexivity.
Qed.

Lemma overlay_Mount_cleanup_witness :
  exists r body cleanup w',
    overlay.Mount overlay_mount_fails ["/l1"; "/l2"] "/u" "/w" "/rootfs" false world0
      = Ok r w'
    /\ trace w' = trace world0 ++ body ++ cleanup
    /\ removed body = []
    /\ forallb is_removal cleanup = true
    /\ (r <> None -> removed cleanup = rev (created body))
    /\ (r = None ->
          cleanup = [] /\ created body = given ["/u"; "/w"] ++ ["/rootfs"]).
Proof.
  apply (overlay_Mount_cleanup overlay_mount_fails ["/l1"; "/l2"] "/u" "/w" "/rootfs"
           false world0).
Defined.

(** The failing overlay mount, step by step: three directories are created,
    the mount fails, and they are removed in reverse order. *)
Example overlay_failure_scenario :
  exists e w',
    overlay.Mount overlay_mount_fails ["/l1"; "/l2"] "/u" "/w" "/rootfs" false world0
      = Ok (Some e) w'
    /\ created (trace w') = ["/u"; "/w"; "/rootfs"]
    /\ removed (trace w') = ["/rootfs"; "/w"; "/u"].
Proof.
  eexists _, _. split; [vm_compute; reflexivity|]. split; vm_compute; reflexivity.
Qed.

Lemma sample_identifiers_differ : NoDup (prot.identifiers sample_params).
Proof. compute_done. Defined.

Lemma shutdown_handlers_signal_witness :
  (exists h calls',
     gcs.NewGcsHandler sample_params (gcs.mockCore (fun _ _ _ => None)) sample_others tt
       = Ok h tt
     /\ gcs.ServeMsg sample_params h (gcs.testResponseWriter sample_header)
          (Some (sample_request 3%N)) [] = Ok tt calls'
     /\ (exists res rest,
           calls' = [] ++ gcs.CallSignalContainer "test" oslayer.SIGKILL res :: rest
           /\ res = None
           /\ (res = None ->
                 rest = [gcs.CallWrite sample_header
                           (bridge.ResponseBase
                              {| prot.Result := 0; prot.rb_ActivityID := "act";
                                 prot.ErrorRecords := [] |})]
                 /\ gcs.respWriteCount calls' = S (gcs.respWriteCount []))))
  /\ (exists h calls',
        gcs.NewGcsHandler sample_params (gcs.mockCore (fun _ _ _ => None)) sample_others tt
          = Ok h tt
        /\ gcs.ServeMsg sample_params h (gcs.testResponseWriter sample_header)
             (Some (sample_request 4%N)) [] = Ok tt calls'
        /\ (exists res rest,
              calls' = [] ++ gcs.CallSignalContainer "test" oslayer.SIGTERM res :: rest
              /\ res = None
              /\ (res = None ->
                    rest = [gcs.CallWrite sample_header
                              (bridge.ResponseBase
                                 {| prot.Result := 0; prot.rb_ActivityID := "act";
                                    prot.ErrorRecords := [] |})]
                    /\ gcs.respWriteCount calls' = S (gcs.respWriteCount [])))).
Proof.
  split.
  - apply (shutdown_handlers_signal sample_params (fun _ _ _ => None) sample_others
             sample_identifiers_differ sample_header (sample_request 3%N)
             {| prot.ContainerID := "test"; prot.ActivityID := "act" |}
             oslayer.SIGKILL []).
    + reflexivity.
    + left. split; reflexivity.
  - apply (shutdown_handlers_signal sample_params (fun _ _ _ => None) sample_others
             sample_identifiers_differ sample_header (sample_request 4%N)
             {| prot.ContainerID := "test"; prot.ActivityID := "act" |}
             oslayer.SIGTERM []).
    + reflexivity.
    + right. split; reflexivity.
Defined.

Lemma pmem_OpenDevice_never_fails_witness :
  exists p e st1 st2,
    pmem.OpenDevice 7 pmem.init = Ok (Some p, None) st1
    /\ pmem.pmemDevices st1 !! pretty 7%N = Some p
    /\ pmem.heap st1 !! p = Some e
    /\ pmem.deviceNumber e = 7%N
    /\ pmem.OpenDevice 7 (pmem_run kernel_ok [PmemOpenDevice 8; PmemMountTo p "/t"] st1)
       = Ok (Some p, None) st2
    /\ (pmem.deviceNumber <$> pmem.heap st2 !! p) = Some 7%N.
Proof.
  destruct (pmem_OpenDevice_never_fails 7 pmem.init)
    as (p & st1 & Hrun & Hreg & _ & _ & Hvalid).
  destruct (Hvalid pmem_registry_valid_init) as ((e & He & Hnum) & Hlater).
  destruct (Hlater kernel_ok [PmemOpenDevice 8; PmemMountTo p "/t"])
    as (_ & e2 & st2 & Hrun2 & _ & He2 & Hnum2).
  exists p, e, st1, st2. split; [exact Hrun|]. split; [exact Hreg|].
  split; [exact He|]. split; [exact Hnum|]. split; [exact Hrun2|].
  rewrite He2. cbn. now rewrite Hnum2.
Defined.

(** * Further properties of the code *)

(** ** The life of a mount *)

Lemma Unmount_all_not_mounted (D : storage.Deps) (flagss : list Z) :
  forall (m : storage.Mount) (w : World),
    storage.mounted m = false ->
    Unmount_all D m flagss w
      = Ok (m, repeat (Some storage.ErrPathNotMounted) (length flagss)) w.
Proof.
  induction flagss as [|flags flagss IH]; intros m w Hm; [reflexivity|].
  cbn [Unmount_all length repeat]. unfold bind at 1.
  rewrite (Unmount_not_mounted D m flags w Hm). cbn [fst snd].
  unfold bind at 1. rewrite (IH m w Hm). reflexivity.
Qed.

Lemma not_mounted_errors_repeat (n : nat) :
  not_mounted_errors (repeat (Some storage.ErrPathNotMounted) n) = n.
Proof.
  unfold not_mounted_errors. induction n as [|n IH]; [reflexivity|].
  cbn [repeat List.filter]. rewrite bool_decide_true by reflexivity. cbn. now rewrite IH.
Qed.

(** X1.  Any number of [Unmount] calls on a mounted [Mount]: each call
    answers, the only seam calls are kernel unmounts of the mount's own target,
    and they stop with the first one that succeeds.  If none succeeds, every
    call reached the kernel and the mount is still mounted.  If one succeeds,
    it is the last kernel call, the mount is no longer mounted, and every call
    after it returned [ErrPathNotMounted] without reaching the kernel. *)
Theorem Unmount_all_stops_at_success (D : storage.Deps) (flagss : list Z) :
  forall (m : storage.Mount) (w : World),
    storage.mounted m = true ->
    exists m' errs evs w',
      Unmount_all D m flagss w = Ok (m', errs) w'
      /\ trace w' = trace w ++ evs
      /\ length errs = length flagss
      /\ storage.target m' = storage.target m
      /\ forallb is_unmount evs = true
      /\ Forall (fun c => c.1 = storage.target m) (kernel_unmounts evs)
      /\ ((storage.mounted m' = true
           /\ length evs = length flagss
           /\ Forall (fun c => c.2 <> None) (kernel_unmounts evs)
           /\ not_mounted_errors errs = 0%nat)
          \/ (storage.mounted m' = false
              /\ exists before flags,
                   evs = before ++ [EvUnmount (storage.target m) flags None]
                   /\ Forall (fun c => c.2 <> None) (kernel_unmounts before)
                   /\ errs !! length before = Some None
                   /\ not_mounted_errors errs = (length flagss - length evs)%nat)).
Proof.
  induction flagss as [|flags flagss IH]; intros m w Hm.
  - exists m, [], [], w. cbn. rewrite app_nil_r.
    repeat (split; [first [reflexivity | constructor]|]).
    left. repeat split; [exact Hm|constructor].
  - cbn [Unmount_all]. unfold bind at 1.
    destruct (storage.syscallUnmount D (trace w) (storage.target m) flags) as [e|] eqn:He.
    + rewrite (Unmount_kernel_error D m flags w e Hm He). cbn [fst snd].
      destruct (IH m (log (EvUnmount (storage.target m) flags (Some e)) w) Hm)
        as (m' & errs & evs & w' & Hrun & Htr & Hlen & Htgt & Hall & Hto & Hcase).
      unfold bind at 1. rewrite Hrun. unfold ret. cbn [fst snd].
      exists m', (Some (storage.unmount_error e (storage.target m)) :: errs),
             (EvUnmount (storage.target m) flags (Some e) :: evs), w'.
      split; [reflexivity|]. cbn [log trace] in Htr. rewrite <- app_assoc in Htr.
      split; [exact Htr|]. split; [cbn; now rewrite Hlen|]. split; [exact Htgt|].
      split; [exact Hall|]. split; [constructor; [reflexivity|exact Hto]|].
      assert (Hnm : forall errs0,
                not_mounted_errors
                  (Some (storage.unmount_error e (storage.target m)) :: errs0)
                = not_mounted_errors errs0).
      { intros errs0. unfold not_mounted_errors. cbn [List.filter].
        rewrite bool_decide_false; [reflexivity|]. discriminate. }
      destruct Hcase as [(Hm' & Hn & Hfail & Hz)|(Hm' & before & f & Hevs & Hfail & Hat & Hz)].
      * left. split; [exact Hm'|]. split; [cbn; now rewrite Hn|].
        split; [constructor; [discriminate|exact Hfail]|]. now rewrite Hnm.
      * right. split; [exact Hm'|].
        exists (EvUnmount (storage.target m) flags (Some e) :: before), f.
        split; [cbn; now rewrite Hevs|].
        split; [constructor; [discriminate|exact Hfail]|].
        split; [exact Hat|]. rewrite Hnm, Hz. reflexivity.
    + rewrite (Unmount_kernel_ok D m flags w Hm He). cbn [fst snd].
      unfold bind at 1. rewrite Unmount_all_not_mounted by reflexivity.
      unfold ret. cbn [fst snd].
      eexists _, _, [EvUnmount (storage.target m) flags None], _.
      split; [reflexivity|]. split; [reflexivity|].
      split; [cbn; now rewrite repeat_length|]. split; [reflexivity|].
      split; [reflexivity|]. split; [repeat constructor|].
      right. split; [reflexivity|]. exists [], flags.
      split; [reflexivity|]. split; [constructor|]. split; [reflexivity|].
      unfold not_mounted_errors. cbn [List.filter].
      rewrite bool_decide_false by discriminate.
      fold (not_mounted_errors (repeat (Some storage.ErrPathNotMounted) (length flagss))).
      rewrite not_mounted_errors_repeat. cbn. lia.
Qed.

Lemma Unmount_all_stops_at_success_witness :
  exists m' errs evs w',
    Unmount_all kernel_ok mount_t [0; 2; 0] world0 = Ok (m', errs) w'
    /\ trace w' = trace world0 ++ evs
    /\ length errs = length [0; 2; 0]
    /\ storage.target m' = storage.target mount_t
    /\ forallb is_unmount evs = true
    /\ Forall (fun c => c.1 = storage.target mount_t) (kernel_unmounts evs)
    /\ ((storage.mounted m' = true
         /\ length evs = length [0; 2; 0]
         /\ Forall (fun c => c.2 <> None) (kernel_unmounts evs)
         /\ not_mounted_errors errs = 0%nat)
        \/ (storage.mounted m' = false
            /\ exists before flags,
                 evs = before ++ [EvUnmount (storage.target mount_t) flags None]
                 /\ Forall (fun c => c.2 <> None) (kernel_unmounts before)
                 /\ errs !! length before = Some None
                 /\ not_mounted_errors errs = (length [0; 2; 0] - length evs)%nat)).
Proof.
  apply (Unmount_all_stops_at_success kernel_ok [0; 2; 0] mount_t world0).
  reflexivity.
Defined.

(** ** How long a resolution takes *)

Lemma scans_snoc_ReadDir (tr : list Event) (path : string) (ans : list string + error) :
  scans (tr ++ [EvReadDir path ans]) = S (scans tr).
Proof. unfold scans. rewrite List.filter_app, length_app. cbn. lia. Qed.

Lemma scans_snoc_Sleep (tr : list Event) (d : Z) :
  scans (tr ++ [EvSleep d]) = scans tr.
Proof. unfold scans. rewrite List.filter_app, length_app. cbn. lia. Qed.

(** A run of the loop scans at most once per unit of fuel. *)
Lemma resolve_loop_scans_le (D : scsi.Deps) (fuel : nat) (s : scsi.loc) (path : string)
    (now : Z) :
  forall (st : scsi.State) (r : list string + error) (st' : scsi.State),
    scsi.resolve_loop D fuel s path now st = Ok r st' ->
    (scans (trace (scsi.world st')) <= scans (trace (scsi.world st)) + fuel)%nat.
Proof.
  induction fuel as [|fuel IH]; intros st r st' Hrun; [discriminate|].
  cbn [scsi.resolve_loop] in Hrun. unfold_scsi.
  destruct (scsi.ioutilReadDir D (trace (scsi.world st)) path) as [ans dt] eqn:Hrd.
  destruct ans as [names|err]; cbn in Hrun.
  - injection Hrun as _ <-. simpl_scsi. rewrite scans_snoc_ReadDir. lia.
  - destruct (os_IsNotExist err); cbn in Hrun.
    + match type of Hrun with context [decide (?a > ?b)] =>
        destruct (decide (a > b)) as [Hgt|Hle]
      end; cbn in Hrun.
      * destruct (scsi.heap st !! s); cbn in Hrun; [|discriminate].
        injection Hrun as _ <-. simpl_scsi. rewrite scans_snoc_ReadDir. lia.
      * apply IH in Hrun. simpl_scsi.
        rewrite scans_snoc_Sleep, scans_snoc_ReadDir in Hrun. lia.
    + destruct (scsi.heap st !! s); cbn in Hrun; [|discriminate].
      injection Hrun as _ <-. simpl_scsi. rewrite scans_snoc_ReadDir. lia.
Qed.

(** The first resolution of an entry: its world is the one the loop left. *)
Lemma resolve_unsettled_world (D : scsi.Deps) (s : scsi.loc) (e : scsi.Scsi)
    (st : scsi.State) :
  scsi.heap st !! s = Some e ->
  scsi.source e = "" ->
  scsi.resolveError e = None ->
  exists r0 st1 r st',
    scsi.resolve_loop D (scsi.resolve_fuel (scsi.scsiDeviceLookupTimeout st)) s
      (filepath_Join ["/sys/bus/scsi/devices"; scsi.key e; "block"])
      (clock (scsi.world st)) st = Ok r0 st1
    /\ scsi.resolve D s st = Ok r st'
    /\ scsi.world st' = scsi.world st1
    /\ scsi.heap st1 !! s <> None.
Proof.
  intros Hs Hsrc Herr.
  destruct (resolve_loop_returns D (scsi.resolve_fuel (scsi.scsiDeviceLookupTimeout st)) s
              (filepath_Join ["/sys/bus/scsi/devices"; scsi.key e; "block"])
              (clock (scsi.world st)) st e Hs)
    as (r0 & st1 & Hrun & _ & _ & _ & Hheap).
  { unfold scsi.resolve_fuel. lia. }
  { pose proof (resolve_fuel_enough (scsi.scsiDeviceLookupTimeout st)). lia. }
  assert (Hs1 : exists e1, scsi.heap st1 !! s = Some e1).
  { destruct r0; rewrite Hheap; [eauto|rewrite lookup_insert_eq; eauto]. }
  destruct Hs1 as [e1 Hs1].
  exists r0, st1.
  unfold scsi.resolve.
  unfold bind at 1. unfold scsi.load at 1. rewrite Hs.
  destruct (decide (scsi.source e <> "")) as [Hc|_]; [congruence|]. rewrite Herr.
  unfold bind at 1. unfold scsi.liftW at 1, time_Now. cbn.
  unfold bind at 1.
  replace (scsi.set_world (fun _ : World => scsi.world st) st) with st
    by (now destruct st).
  cbn in Hrun. rewrite Hrun.
  destruct r0 as [names|err].
  - destruct names as [|name [|name2 names]]; unfold_scsi; rewrite Hs1; simpl_scsi;
      eexists _, _; (split; [reflexivity|]); (split; [reflexivity|]);
      (split; [reflexivity|]); congruence.
  - unfold_monad. eexists _, _. split; [reflexivity|]. split; [reflexivity|].
    split; [reflexivity|]. congruence.
Qed.

(** X2.  A call of [resolve] never scans the directory more often than
    [timeout / 10ms + 2] times, whatever the seam answers; it scans at least
    once for an entry that is not settled and not at all for a settled one. *)
Theorem resolve_scans_bounded (D : scsi.Deps) (s : scsi.loc) (e : scsi.Scsi)
    (st : scsi.State) :
  scsi.heap st !! s = Some e ->
  exists r st',
    scsi.resolve D s st = Ok r st'
    /\ (scans (trace (scsi.world st')) - scans (trace (scsi.world st))
        <= Z.to_nat (scsi.scsiDeviceLookupTimeout st / (Millisecond * 10)) + 2)%nat
    /\ (scsi.source e <> "" \/ scsi.resolveError e <> None ->
        scans (trace (scsi.world st')) = scans (trace (scsi.world st)))
    /\ (scsi.source e = "" /\ scsi.resolveError e = None ->
        (scans (trace (scsi.world st)) < scans (trace (scsi.world st')))%nat).
Proof.
  intros Hs.
  destruct (decide (settled e)) as [Hset|Hnot].
  - exists (cached_outcome e), st. split; [now apply resolve_settled|].
    split; [lia|]. split; [reflexivity|].
    intros [Hsrc Herr]. destruct Hset; congruence.
  - assert (Hsrc : scsi.source e = "").
    { destruct (decide (scsi.source e = "")) as [H|H]; [exact H|].
      exfalso. apply Hnot. left. exact H. }
    assert (Herr : scsi.resolveError e = None).
    { destruct (scsi.resolveError e) eqn:H; [|reflexivity].
      exfalso. apply Hnot. right. congruence. }
    destruct (resolve_unsettled_world D s e st Hs Hsrc Herr)
      as (r0 & st1 & r & st' & Hloop & Hrun & Hworld & _).
    destruct (resolve_unsettled D s e st Hs Hsrc Herr)
      as (r2 & st2 & e2 & Hrun2 & _ & _ & _ & Hlt & _).
    rewrite Hrun in Hrun2. injection Hrun2 as <- <-.
    exists r, st'. split; [exact Hrun|].
    apply resolve_loop_scans_le in Hloop. rewrite Hworld.
    unfold scsi.resolve_fuel in Hloop. rewrite Hworld in Hlt.
    split; [lia|]. split; [intros H; contradiction|]. intros _. exact Hlt.
Qed.

Lemma resolve_scans_bounded_witness :
  exists r st',
    scsi.resolve sysfs_absent 0%nat state11 = Ok r st'
    /\ (scans (trace (scsi.world st')) - scans (trace (scsi.world state11))
        <= Z.to_nat (scsi.scsiDeviceLookupTimeout state11 / (Millisecond * 10)) + 2)%nat
    /\ (scsi.source entry11 <> "" \/ scsi.resolveError entry11 <> None ->
        scans (trace (scsi.world st')) = scans (trace (scsi.world state11)))
    /\ (scsi.source entry11 = "" /\ scsi.resolveError entry11 = None ->
        (scans (trace (scsi.world state11)) < scans (trace (scsi.world st')))%nat).
Proof.
  apply (resolve_scans_bounded sysfs_absent 0%nat entry11 state11). reflexivity.
Defined.

Lemma errors_Cause_not_exist (err : error) :
  os_IsNotExist err = true -> errors_Cause err = err.
Proof. destruct err; cbn; congruence. Qed.

Lemma resolve_loop_times_out (D : scsi.Deps) (fuel : nat) (s : scsi.loc) (path : string)
    (now : Z) :
  never_appears D ->
  forall (st : scsi.State) (e : scsi.Scsi),
    scsi.heap st !! s = Some e ->
    (1 <= fuel)%nat ->
    scsi.scsiDeviceLookupTimeout st - (clock (scsi.world st) - now)
      < Millisecond * 10 * (Z.of_nat fuel - 1) ->
    exists err st',
      scsi.resolve_loop D fuel s path now st
        = Ok (inr (errors_Wrap err ("timed out waiting for SCSI device: " +:+ path))) st'
      /\ os_IsNotExist err = true
      /\ clock (scsi.world st') - now > scsi.scsiDeviceLookupTimeout st.
Proof.
  intros Hnever.
  induction fuel as [|fuel IH]; intros st e Hs Hfuel Hrem; [lia|].
  cbn [scsi.resolve_loop]. unfold_scsi.
  destruct (Hnever (trace (scsi.world st)) path) as (err & dt & Hrd & Hne).
  rewrite Hrd. cbn. rewrite Hne. cbn.
  match goal with |- context [decide (?a > ?b)] => destruct (decide (a > b)) as [Hgt|Hle] end.
  - cbn. rewrite Hs. cbn. exists err. eexists. split; [reflexivity|].
    split; [exact Hne|]. simpl_scsi. lia.
  - cbn.
    match goal with |- context [scsi.resolve_loop D fuel s path now ?st1] =>
      destruct (IH st1 e) as (err' & st' & Hrun & Hne' & Hclock)
    end.
    { exact Hs. }
    { simpl_scsi. unfold Millisecond in *. lia. }
    { simpl_scsi. unfold Millisecond in *. lia. }
    rewrite Hrun. exists err', st'. split; [reflexivity|]. split; [exact Hne'|].
    simpl_scsi. exact Hclock.
Qed.

(** X3.  When the device directory never shows up, [resolve] on an entry
    that is not settled gives up only after more than the lookup timeout has
    passed on the clock.  It returns an error that says "timed out" for the
    block directory of the entry's key and whose cause is a not-exist error,
    and caches that error in the entry. *)
Theorem resolve_times_out (D : scsi.Deps) (s : scsi.loc) (e : scsi.Scsi)
    (st : scsi.State) :
  never_appears D ->
  scsi.heap st !! s = Some e ->
  scsi.source e = "" ->
  scsi.resolveError e = None ->
  exists cause st' e',
    scsi.resolve D s st
      = Ok (Some (withMessage cause
                    ("timed out waiting for SCSI device: /sys/bus/scsi/devices/"
                       +:+ scsi.key e +:+ "/block"))) st'
    /\ os_IsNotExist (errors_Cause
         (withMessage cause
            ("timed out waiting for SCSI device: /sys/bus/scsi/devices/"
               +:+ scsi.key e +:+ "/block"))) = true
    /\ clock (scsi.world st') - clock (scsi.world st) > scsi.scsiDeviceLookupTimeout st
    /\ scsi.heap st' !! s = Some e'
    /\ scsi.source e' = ""
    /\ scsi.resolveError e'
         = Some (withMessage cause
                   ("timed out waiting for SCSI device: /sys/bus/scsi/devices/"
                      +:+ scsi.key e +:+ "/block")).
Proof.
  intros Hnever Hs Hsrc Herr.
  destruct (resolve_unsettled_world D s e st Hs Hsrc Herr)
    as (r0 & st1 & r & st' & Hloop & Hrun & Hworld & _).
  destruct (resolve_loop_times_out D (scsi.resolve_fuel (scsi.scsiDeviceLookupTimeout st)) s
              (filepath_Join ["/sys/bus/scsi/devices"; scsi.key e; "block"])
              (clock (scsi.world st)) Hnever st e Hs)
    as (cause & st1' & Hloop' & Hne & Hclock).
  { unfold scsi.resolve_fuel. lia. }
  { pose proof (resolve_fuel_enough (scsi.scsiDeviceLookupTimeout st)). lia. }
  rewrite Hloop in Hloop'. injection Hloop' as -> <-.
  destruct (resolve_returns D s e st Hs)
    as (r2 & st2 & e2 & Hrun2 & _ & _ & Hheap & _ & _ & Hout).
  rewrite Hrun in Hrun2. injection Hrun2 as <- <-.
  assert (Hr : r = Some (errors_Wrap cause
                 ("timed out waiting for SCSI device: "
                    +:+ filepath_Join ["/sys/bus/scsi/devices"; scsi.key e; "block"]))).
  { revert Hrun. unfold scsi.resolve.
    unfold bind at 1. unfold scsi.load at 1. rewrite Hs.
    destruct (decide (scsi.source e <> "")) as [Hc|_]; [congruence|]. rewrite Herr.
    unfold bind at 1. unfold scsi.liftW at 1, time_Now. cbn.
    unfold bind at 1.
    replace (scsi.set_world (fun _ : World => scsi.world st) st) with st
      by (now destruct st).
    cbn in Hloop. rewrite Hloop. unfold_monad. congruence. }
  subst r.
  exists cause, st', e2.
  change (filepath_Join ["/sys/bus/scsi/devices"; scsi.key e; "block"])
    with ("/sys/bus/scsi/devices/" +:+ scsi.key e +:+ "/block") in *.
  unfold errors_Wrap in *.
  split; [exact Hrun|]. split.
  { cbn [errors_Cause]. now rewrite errors_Cause_not_exist. }
  split; [rewrite Hworld; exact Hclock|].
  split; [rewrite Hheap; apply lookup_insert_eq|].
  destruct Hout as [(Hnone & _)|(err & Hsome & Hsrc' & Herr')]; [discriminate|].
  split; [exact Hsrc'|]. rewrite Herr'. injection Hsome as <-. reflexivity.
Qed.

Lemma resolve_times_out_witness :
  never_appears sysfs_absent
  /\ exists cause st' e',
       scsi.resolve sysfs_absent 0%nat state11
         = Ok (Some (withMessage cause
                       ("timed out waiting for SCSI device: /sys/bus/scsi/devices/"
                          +:+ scsi.key entry11 +:+ "/block"))) st'
       /\ os_IsNotExist (errors_Cause
            (withMessage cause
               ("timed out waiting for SCSI device: /sys/bus/scsi/devices/"
                  +:+ scsi.key entry11 +:+ "/block"))) = true
       /\ clock (scsi.world st') - clock (scsi.world state11)
            > scsi.scsiDeviceLookupTimeout state11
       /\ scsi.heap st' !! 0%nat = Some e'
       /\ scsi.source e' = ""
       /\ scsi.resolveError e'
            = Some (withMessage cause
                      ("timed out waiting for SCSI device: /sys/bus/scsi/devices/"
                         +:+ scsi.key entry11 +:+ "/block")).
Proof.
  assert (Hnever : never_appears sysfs_absent).
  { intros tr path. exists ErrNotExist, 0%N. split; reflexivity. }
  split; [exact Hnever|].
  apply (resolve_times_out sysfs_absent 0%nat entry11 state11 Hnever); reflexivity.
Defined.

(** X4.  When the first directory listing of the resolution of an entry
    that is not settled is anything but a not-exist error, [resolve] scans
    exactly once and does not sleep.  A listing error is returned as it is and
    cached; a listing with one name sets [source] to that name under [/dev];
    an empty listing and a listing with several names each give their own
    error, cached in the entry. *)
Theorem resolve_first_answer (D : scsi.Deps) (s : scsi.loc) (e : scsi.Scsi)
    (st : scsi.State) (ans : list string + error) (dt : N) :
  scsi.heap st !! s = Some e ->
  scsi.source e = "" ->
  scsi.resolveError e = None ->
  scsi.ioutilReadDir D (trace (scsi.world st))
    ("/sys/bus/scsi/devices/" +:+ scsi.key e +:+ "/block") = (ans, dt) ->
  (forall err, ans = inr err -> os_IsNotExist err = false) ->
  exists r st' e',
    scsi.resolve D s st = Ok r st'
    /\ trace (scsi.world st')
         = trace (scsi.world st)
             ++ [EvReadDir ("/sys/bus/scsi/devices/" +:+ scsi.key e +:+ "/block") ans]
    /\ scsi.heap st' !! s = Some e'
    /\ scsi.scsiDevices st' = scsi.scsiDevices st
    /\ match ans with
       | inr err =>
           r = Some err /\ scsi.source e' = "" /\ scsi.resolveError e' = Some err
       | inl [name] =>
           r = None /\ scsi.source e' = "/dev/" +:+ name /\ scsi.resolveError e' = None
       | inl [] =>
           r = Some (errorString
                       ("no matching device names found for SCSI device: "
                          +:+ "/sys/bus/scsi/devices/" +:+ scsi.key e +:+ "/block"))
           /\ scsi.source e' = "" /\ scsi.resolveError e' = r
       | inl _ =>
           r = Some (errorString
                       ("more than one block device could match SCSI device: "
                          +:+ "/sys/bus/scsi/devices/" +:+ scsi.key e +:+ "/block"))
           /\ scsi.source e' = "" /\ scsi.resolveError e' = r
       end.
Proof.
  intros Hs Hsrc Herr Hrd Hans.
  unfold scsi.resolve.
  unfold bind at 1. unfold scsi.load at 1. rewrite Hs.
  destruct (decide (scsi.source e <> "")) as [Hc|_]; [congruence|]. rewrite Herr.
  unfold bind at 1. unfold scsi.liftW at 1, time_Now. cbn.
  unfold bind at 1.
  replace (scsi.set_world (fun _ : World => scsi.world st) st) with st
    by (now destruct st).
  unfold scsi.resolve_fuel. rewrite Nat.add_comm. cbn [Nat.add scsi.resolve_loop].
  change ("/sys/bus/scsi/devices" +:+ "/" +:+ scsi.key e +:+ "/" +:+ "block")
    with ("/sys/bus/scsi/devices/" +:+ scsi.key e +:+ "/block").
  unfold_scsi. rewrite Hrd.
  destruct ans as [names|err]; cbn.
  - destruct names as [|name [|name2 names]]; simpl_scsi; rewrite Hs; cbn;
      eexists _, _, _; (split; [reflexivity|]); cbn;
      (split; [reflexivity|]); rewrite lookup_insert_eq;
      (split; [reflexivity|]); (split; [reflexivity|]); cbn; auto.
  - rewrite (Hans err eq_refl). cbn. rewrite Hs. cbn.
    eexists _, _, _. split; [reflexivity|]. cbn. split; [reflexivity|].
    rewrite lookup_insert_eq. split; [reflexivity|]. split; [reflexivity|]. cbn. auto.
Qed.

Lemma resolve_first_answer_witness :
  exists r st' e',
    scsi.resolve sysfs_one_disk 0%nat state11 = Ok r st'
    /\ trace (scsi.world st')
         = trace (scsi.world state11)
             ++ [EvReadDir ("/sys/bus/scsi/devices/" +:+ scsi.key entry11 +:+ "/block")
                   (inl ["sda"])]
    /\ scsi.heap st' !! 0%nat = Some e'
    /\ scsi.scsiDevices st' = scsi.scsiDevices state11
    /\ (r = None /\ scsi.source e' = "/dev/" +:+ "sda" /\ scsi.resolveError e' = None).
Proof.
  apply (resolve_first_answer sysfs_one_disk 0%nat entry11 state11 (inl ["sda"]) 0%N);
    try reflexivity.
  intros err H. discriminate H.
Defined.

(** ** Registry keys and cached entries *)

Lemma pretty_N_char_no_colon (d : N) :
  Ascii.eqb (pretty_N_char d) (Ascii.ascii_of_nat 58) = false.
Proof. unfold pretty_N_char. repeat case_match; reflexivity. Qed.

Lemma pretty_N_go_no_colon (x : N) :
  forall s, has_colon s = false -> has_colon (pretty_N_go x s) = false.
Proof.
  induction (N.lt_wf_0 x) as [x _ IH]; intros s Hs.
  assert (x = 0 \/ 0 < x)%N as [->|Hpos] by lia.
  - now rewrite pretty_N_go_0.
  - rewrite pretty_N_go_step by exact Hpos. apply IH.
    + now apply N.div_lt.
    + cbn [has_colon]. now rewrite pretty_N_char_no_colon.
Qed.

Lemma pretty_N_no_colon (n : N) : has_colon (pretty n) = false.
Proof.
  unfold pretty, pretty_N. destruct (decide (n = 0%N)); [reflexivity|].
  now apply pretty_N_go_no_colon.
Qed.

Lemma append_nil_l (s : string) : "" +:+ s = s.
Proof. reflexivity. Qed.

Lemma append_cons_l (c : Ascii.ascii) (s1 s2 : string) :
  String c s1 +:+ s2 = String c (s1 +:+ s2).
Proof. reflexivity. Qed.

Lemma split_at_colon (a : string) :
  forall a' b b',
    has_colon a = false -> has_colon a' = false ->
    a +:+ ":" +:+ b = a' +:+ ":" +:+ b' -> a = a' /\ b = b'.
Proof.
  induction a as [|c a IH]; intros [|c' a'] b b' Ha Ha' Heq;
    repeat (rewrite append_nil_l in Heq || rewrite append_cons_l in Heq);
    cbn [has_colon] in Ha, Ha'.
  - injection Heq as <-. auto.
  - injection Heq as <- _. discriminate.
  - injection Heq as -> _. discriminate.
  - injection Heq as <- Heq.
    destruct (Ascii.eqb c (Ascii.ascii_of_nat 58)); [discriminate|].
    destruct (IH a' b b' Ha Ha' Heq) as [<- <-]. auto.
Qed.

(** X5.  Two different pairs of controller and lun never have the same
    registry key. *)
Theorem scsiDevicesKey_inj (controller1 lun1 controller2 lun2 : N) :
  (controller1, lun1) <> (controller2, lun2) ->
  scsi.scsiDevicesKey controller1 lun1 <> scsi.scsiDevicesKey controller2 lun2.
Proof.
  intros Hne Heq. apply Hne. unfold scsi.scsiDevicesKey in Heq.
  assert (Heq' : pretty controller1 +:+ ":" +:+ pretty lun1
                 = pretty controller2 +:+ ":" +:+ pretty lun2).
  { cbn in Heq. now injection Heq. }
  apply split_at_colon in Heq' as [Hc Hl]; try apply pretty_N_no_colon.
  apply pretty_N_inj in Hc. apply pretty_N_inj in Hl. congruence.
Qed.

Lemma scsiDevicesKey_inj_witness :
  scsi.scsiDevicesKey 1 12 <> scsi.scsiDevicesKey 11 2.
Proof. apply (scsiDevicesKey_inj 1 12 11 2). discriminate. Defined.

(** [OpenDevice] on a key whose registered entry has a [source]: the entry
    is returned; the only change is the entry object that was allocated in
    vain. *)
Lemma OpenDevice_hit (D : scsi.Deps) (controller lun : N) (st : scsi.State)
    (s : scsi.loc) (e : scsi.Scsi) :
  scsi.scsiDevices st !! scsi.scsiDevicesKey controller lun = Some s ->
  scsi.heap st !! s = Some e ->
  scsi.source e <> "" ->
  scsi.OpenDevice D controller lun st
    = Ok (Some s, None)
        (scsi.set_heap
           (insert (fresh (dom (scsi.heap st)))
              (scsi.mkScsi (scsi.scsiDevicesKey controller lun) controller lun "" None 0))
           st).
Proof.
  intros Hreg Hs Hsrc. unfold scsi.OpenDevice.
  unfold bind at 1. unfold scsi.new at 1.
  unfold bind at 1. unfold scsi.LoadOrStore at 1. simpl_scsi. rewrite Hreg.
  unfold bind at 1.
  match goal with |- context [scsi.resolve D s ?st1] =>
    rewrite (resolve_settled D s e st1)
  end.
  - unfold cached_outcome. destruct (decide (scsi.source e <> "")); [reflexivity|].
    contradiction.
  - cbn. rewrite lookup_insert_ne; [exact Hs|].
    intros Heq. pose proof (fresh_not_allocated st) as Hf. rewrite Heq in Hf. congruence.
  - left. exact Hsrc.
Qed.

(** A device that is registered with a resolved entry stays so under every
    client call. *)
Lemma client_step_keeps_cached (D : scsi.Deps) (SD : storage.Deps) (c : scsi_call)
    (st : scsi.State) (k : string) (s : scsi.loc) :
  client_call c = true ->
  registry_valid st ->
  scsi.scsiDevices st !! k = Some s ->
  (exists e, scsi.heap st !! s = Some e /\ scsi.source e <> "") ->
  scsi.scsiDevices (scsi_step D SD st c) !! k = Some s
  /\ exists e, scsi.heap (scsi_step D SD st c) !! s = Some e /\ scsi.source e <> "".
Proof.
  intros Hclient Hwf Hreg (e & Hs & Hsrc). split.
  - destruct c as [controller lun|a|a tgt readonly|m flags|a]; unfold scsi_step;
      try discriminate.
    + destruct (decide (k = scsi.scsiDevicesKey controller lun)) as [->|Hk].
      * rewrite (OpenDevice_hit D controller lun st s e Hreg Hs Hsrc). exact Hreg.
      * destruct (OpenDevice_returns D controller lun st Hwf)
          as (r & st' & actual & e' & Hrun & _ & _ & Hother & _).
        rewrite Hrun. cbn. now rewrite (Hother k Hk).
    + now rewrite resolve_keeps_registry.
    + now rewrite MountTo_keeps_registry.
    + destruct (scsi_Unmount_frame SD m flags st) as (r & st' & Hrun & _ & Hsame).
      rewrite Hrun. cbn. now rewrite Hsame.
  - destruct (scsi_step_entry D SD c s e st Hs) as (e' & Hh & _ & _ & Hkeep).
    exists e'. split; [exact Hh|]. destruct Hkeep as [Hsame _]; [left; exact Hsrc|].
    now rewrite Hsame.
Qed.

(** X6.  Once [OpenDevice(controller, lun)] has returned an entry, every
    later [OpenDevice] with the same pair returns that same entry without
    any call through a seam, whatever calls of [OpenDevice], [resolve],
    [MountTo] and [Unmount] the client makes in between and whatever the
    seams would answer. *)
Theorem OpenDevice_is_cached (D : scsi.Deps) (controller lun : N) (st st1 : scsi.State)
    (s : scsi.loc) :
  registry_valid st ->
  scsi.OpenDevice D controller lun st = Ok (Some s, None) st1 ->
  forall (D2 : scsi.Deps) (SD : storage.Deps) (calls : list scsi_call),
    forallb client_call calls = true ->
    exists st2,
      scsi.OpenDevice D2 controller lun (scsi_run D2 SD calls st1) = Ok (Some s, None) st2
      /\ scsi.world st2 = scsi.world (scsi_run D2 SD calls st1)
      /\ scsi.scsiDevices st2 = scsi.scsiDevices (scsi_run D2 SD calls st1).
Proof.
  intros Hwf Hopen D2 SD calls Hclient.
  destruct (OpenDevice_returns D controller lun st Hwf)
    as (r & st' & actual & e & Hrun & _ & Hact & _ & Hcase).
  rewrite Hopen in Hrun. injection Hrun as <- <-.
  destruct Hcase as [(err & Hr & _)|(Hr & Hsrc & Hreg)]; [discriminate|].
  injection Hr as <-.
  assert (Hwf1 : registry_valid st1).
  { pose proof (OpenDevice_keeps_valid D controller lun st Hwf) as H.
    now rewrite Hopen in H. }
  assert (Hinv : forall calls0 st0,
    forallb client_call calls0 = true ->
    registry_valid st0 ->
    scsi.scsiDevices st0 !! scsi.scsiDevicesKey controller lun = Some s ->
    (exists e0, scsi.heap st0 !! s = Some e0 /\ scsi.source e0 <> "") ->
    scsi.scsiDevices (scsi_run D2 SD calls0 st0) !! scsi.scsiDevicesKey controller lun
      = Some s
    /\ exists e0, scsi.heap (scsi_run D2 SD calls0 st0) !! s = Some e0
                  /\ scsi.source e0 <> "").
  { induction calls0 as [|c calls0 IH]; intros st0 Hcl Hv Hk He; [auto|].
    cbn in Hcl. apply andb_true_iff in Hcl as [Hc Hcl]. cbn.
    destruct (client_step_keeps_cached D2 SD c st0 _ s Hc Hv Hk He) as [Hk' He'].
    apply IH; [exact Hcl|now apply registry_valid_step|exact Hk'|exact He']. }
  destruct (Hinv calls st1 Hclient Hwf1 Hreg) as (Hk & e2 & Hs2 & Hsrc2); [eauto|].
  rewrite (OpenDevice_hit D2 controller lun _ s e2 Hk Hs2 Hsrc2).
  eexists. split; [reflexivity|]. split; reflexivity.
Qed.

Lemma OpenDevice_is_cached_witness :
  exists st1 st2,
    scsi.OpenDevice sysfs_one_disk 1 1 (scsi.init (2 * Second)) = Ok (Some 0%nat, None) st1
    /\ scsi.OpenDevice sysfs_fails 1 1
         (scsi_run sysfs_fails kernel_ok
            [ScsiMountTo 0%nat "/t" false; ScsiUnmount mount_t 0; ScsiOpenDevice 2 3] st1)
       = Ok (Some 0%nat, None) st2
    /\ scsi.world st2
       = scsi.world
           (scsi_run sysfs_fails kernel_ok
              [ScsiMountTo 0%nat "/t" false; ScsiUnmount mount_t 0; ScsiOpenDevice 2 3] st1)
    /\ scsi.scsiDevices st2
       = scsi.scsiDevices
           (scsi_run sysfs_fails kernel_ok
              [ScsiMountTo 0%nat "/t" false; ScsiUnmount mount_t 0; ScsiOpenDevice 2 3] st1).
Proof.
  eexists. 
  assert (Hopen : scsi.OpenDevice sysfs_one_disk 1 1 (scsi.init (2 * Second))
                  = Ok (Some 0%nat, None) _) by (vm_compute; reflexivity).
  destruct (OpenDevice_is_cached sysfs_one_disk 1 1 (scsi.init (2 * Second)) _ 0%nat
              (registry_valid_init (2 * Second)) Hopen sysfs_fails kernel_ok
              [ScsiMountTo 0%nat "/t" false; ScsiUnmount mount_t 0; ScsiOpenDevice 2 3]
              eq_refl) as (st2 & H2 & Hw & Hr).
  exists st2. split; [exact Hopen|]. split; [exact H2|]. split; [exact Hw|exact Hr].
Defined.

Lemma refCount_counts_mounts_witness :
  exists e',
    scsi.heap (scsi_run sysfs_one_disk kernel_ok
                 [ScsiMountTo 0%nat "/a" false; ScsiUnmount mount_t 0;
                  ScsiMountTo 0%nat "/b" true] state11) !! 0%nat = Some e'
    /\ scsi.refCount e'
       = scsi.refCount entry11
         + mounts_of 0%nat [ScsiMountTo 0%nat "/a" false; ScsiUnmount mount_t 0;
                            ScsiMountTo 0%nat "/b" true].
Proof.
  apply (refCount_counts_mounts sysfs_one_disk kernel_ok
           [ScsiMountTo 0%nat "/a" false; ScsiUnmount mount_t 0;
            ScsiMountTo 0%nat "/b" true] state11 0%nat entry11).
  - reflexivity.
  - reflexivity.
  - vm_compute. discriminate.
  - vm_compute. reflexivity.
Defined.

(** ** The release hooks *)

(** X8.  [eject] on an entry whose count is 1 returns normally whatever the
    delete node answers.  The count becomes 0, the delete node of the entry's
    key is opened write-only once; if that fails nothing is written, otherwise
    ["1\n"] is written once and the file is closed, whether or not the write
    failed.  The registry loses the key equal to the entry's [source] and no
    other. *)
Theorem eject_last_reference (D : scsi.Deps) (s : scsi.loc) (e : scsi.Scsi)
    (st : scsi.State) :
  scsi.heap st !! s = Some e ->
  scsi.refCount e = 1 ->
  exists st',
    scsi.eject D s st = Ok tt st'
    /\ scsi.heap st' = <[s := scsi.with_refCount 0 e]> (scsi.heap st)
    /\ scsi.scsiDevices st' = delete (scsi.source e) (scsi.scsiDevices st)
    /\ exists opened,
         opened = scsi.osOpenFile D (trace (scsi.world st))
                    ("/sys/bus/scsi/devices/" +:+ scsi.key e +:+ "/delete") O_WRONLY 420
         /\ trace (scsi.world st')
            = trace (scsi.world st)
                ++ EvOpenFile ("/sys/bus/scsi/devices/" +:+ scsi.key e +:+ "/delete")
                     O_WRONLY 420 opened
                :: match opened with
                   | Some _ => []
                   | None =>
                       [EvWrite ("/sys/bus/scsi/devices/" +:+ scsi.key e +:+ "/delete")
                          ("1" +:+ LF)
                          (scsi.fileWrite D
                             (trace (scsi.world st)
                                ++ [EvOpenFile
                                      ("/sys/bus/scsi/devices/" +:+ scsi.key e +:+ "/delete")
                                      O_WRONLY 420 None])
                             ("/sys/bus/scsi/devices/" +:+ scsi.key e +:+ "/delete")
                             ("1" +:+ LF));
                        EvClose ("/sys/bus/scsi/devices/" +:+ scsi.key e +:+ "/delete")]
                   end.
Proof.
  intros Hs Hrc. unfold scsi.eject. unfold_scsi. rewrite Hs. simpl_scsi.
  rewrite lookup_insert_eq. cbn. rewrite Hrc.
  change (wrap64 (1 - 1)) with 0.
  destruct (decide (0 < 0)) as [Hlt|_]; [lia|].
  destruct (decide (0 = 0)) as [_|Hne]; [|congruence].
  change ("/sys/bus/scsi/devices" +:+ "/" +:+ scsi.key e +:+ "/" +:+ "delete")
    with ("/sys/bus/scsi/devices/" +:+ scsi.key e +:+ "/delete").
  destruct (scsi.osOpenFile D (trace (scsi.world st))
              ("/sys/bus/scsi/devices/" +:+ scsi.key e +:+ "/delete") O_WRONLY 420)
    as [oerr|] eqn:Hopen; cbn; rewrite ?Hopen; cbn.
  - eexists. split; [reflexivity|]. cbn. split; [reflexivity|]. split; [reflexivity|].
    eexists. split; [reflexivity|]. reflexivity.
  - eexists. split; [reflexivity|]. cbn. split; [reflexivity|]. split; [reflexivity|].
    eexists. split; [reflexivity|]. rewrite <- !app_assoc. reflexivity.
Qed.

Lemma eject_last_reference_witness :
  exists st',
    scsi.eject sysfs_one_disk 0%nat
      (scsi.set_heap (insert 0%nat (scsi.with_refCount 1 entry11)) state11) = Ok tt st'
    /\ scsi.heap st'
       = <[0%nat := scsi.with_refCount 0 (scsi.with_refCount 1 entry11)]>
           (scsi.heap (scsi.set_heap (insert 0%nat (scsi.with_refCount 1 entry11)) state11))
    /\ scsi.scsiDevices st' = delete "" (scsi.scsiDevices state11)
    /\ exists opened,
         opened = None
         /\ trace (scsi.world st')
            = [] ++ [EvOpenFile (sysfs11 "delete") O_WRONLY 420 opened;
                     EvWrite (sysfs11 "delete") ("1" +:+ LF) None;
                     EvClose (sysfs11 "delete")].
Proof.
  destruct (eject_last_reference sysfs_one_disk 0%nat (scsi.with_refCount 1 entry11)
              (scsi.set_heap (insert 0%nat (scsi.with_refCount 1 entry11)) state11))
    as (st' & Hrun & Hheap & Hreg & opened & Hop & Htr); [reflexivity|reflexivity|].
  exists st'. split; [exact Hrun|]. split; [exact Hheap|]. split; [exact Hreg|].
  exists opened. split; [exact Hop|]. rewrite Htr, Hop. reflexivity.
Defined.

(** X9.  [eject] on an entry whose count is not 1 makes no call through a
    seam and leaves the registry alone: it only stores the count less one.  It
    returns when that is positive and panics with the refcount mismatch when
    it is negative. *)
Theorem eject_other_reference (D : scsi.Deps) (s : scsi.loc) (e : scsi.Scsi)
    (st : scsi.State) :
  scsi.heap st !! s = Some e ->
  scsi.refCount e <> 1 ->
  - 2 ^ 63 < scsi.refCount e < 2 ^ 63 ->
  let st' := scsi.set_heap (insert s (scsi.with_refCount (scsi.refCount e - 1) e)) st in
  scsi.world st' = scsi.world st
  /\ scsi.scsiDevices st' = scsi.scsiDevices st
  /\ (1 < scsi.refCount e -> scsi.eject D s st = Ok tt st')
  /\ (scsi.refCount e < 1 ->
      scsi.eject D s st = Panic "scsi mount refcount mismatch" st').
Proof.
  intros Hs Hne Hrange st'. split; [reflexivity|]. split; [reflexivity|].
  assert (Hw : wrap64 (scsi.refCount e - 1) = scsi.refCount e - 1).
  { unfold wrap64. rewrite Z.mod_small; lia. }
  subst st'. unfold scsi.eject. unfold_scsi. rewrite Hs. simpl_scsi.
  rewrite lookup_insert_eq. cbn. rewrite Hw.
  split; intros Hcmp.
  - destruct (decide (scsi.refCount e - 1 < 0)) as [Hlt|_]; [lia|].
    destruct (decide (scsi.refCount e - 1 = 0)) as [H0|_]; [lia|]. reflexivity.
  - destruct (decide (scsi.refCount e - 1 < 0)) as [_|Hge]; [reflexivity|lia].
Qed.

Lemma eject_other_reference_witness :
  scsi.eject sysfs_one_disk 0%nat state11
  = Panic "scsi mount refcount mismatch"
      (scsi.set_heap (insert 0%nat (scsi.with_refCount (0 - 1) entry11)) state11).
Proof.
  apply (eject_other_reference sysfs_one_disk 0%nat entry11 state11).
  - reflexivity.
  - discriminate.
  - vm_compute. split; reflexivity.
  - reflexivity.
Defined.

(** ** What [MountTo] asks of the kernel *)

(** X10.  [MountTo] on a SCSI entry makes exactly one call through a seam:
    a kernel mount of the entry's [source] on the target with file system
    ["ext4"], and with flags [MS_RDONLY] and data ["noload"] when read-only,
    flags 0 and no data otherwise.  When the kernel accepts, a mounted [Mount]
    for the target is returned; when it refuses, the error comes back
    wrapped.  Either way the count of the entry has grown by one and the
    registry is as before. *)
Theorem scsi_MountTo_kernel_call (D : scsi.Deps) (SD : storage.Deps) (s : scsi.loc)
    (e : scsi.Scsi) (st : scsi.State) (tgt : string) (readonly : bool) :
  scsi.heap st !! s = Some e ->
  - 2 ^ 63 <= scsi.refCount e + 1 < 2 ^ 63 ->
  exists r res st',
    scsi.MountTo D SD s tgt readonly st = Ok r st'
    /\ trace (scsi.world st')
       = trace (scsi.world st)
           ++ [EvMount (scsi.source e) tgt "ext4" (if readonly then MS_RDONLY else 0)
                 (if readonly then "noload" else "") res]
    /\ scsi.heap st' = <[s := scsi.with_refCount (scsi.refCount e + 1) e]> (scsi.heap st)
    /\ scsi.scsiDevices st' = scsi.scsiDevices st
    /\ match res with
       | None =>
           r = (Some {| storage.target := tgt; storage.mounted := true;
                        storage.refCount := 0 |}, None)
       | Some err =>
           r = (None,
                Some (withMessage err
                        ("failed to mount source: '" +:+ scsi.source e
                           +:+ "' to target: '" +:+ tgt +:+ "'")))
       end.
Proof.
  intros Hs Hrange. unfold scsi.MountTo. unfold_scsi. unfold_storage.
  rewrite Hs. simpl_scsi. rewrite lookup_insert_eq. cbn.
  assert (Hw : wrap64 (scsi.refCount e + 1) = scsi.refCount e + 1).
  { unfold wrap64. rewrite Z.mod_small; lia. }
  rewrite Hw.
  replace (if readonly then Z.lor 0 MS_RDONLY else 0)
    with (if readonly then MS_RDONLY else 0) by (now destruct readonly).
  match goal with |- context [storage.syscallMount SD ?x1 ?x2 ?x3 ?x4 ?x5 ?x6] =>
    destruct (storage.syscallMount SD x1 x2 x3 x4 x5 x6) as [err|] eqn:Hsys
  end; cbn.
  - eexists _, (Some err), _. split; [reflexivity|]. cbn. auto.
  - eexists _, None, _. split; [reflexivity|]. cbn. auto.
Qed.

Lemma scsi_MountTo_kernel_call_witness :
  exists r res st',
    scsi.MountTo sysfs_one_disk kernel_ok 0%nat "/t" true state11 = Ok r st'
    /\ trace (scsi.world st')
       = trace (scsi.world state11)
           ++ [EvMount (scsi.source entry11) "/t" "ext4" MS_RDONLY "noload" res]
    /\ scsi.heap st'
       = <[0%nat := scsi.with_refCount (scsi.refCount entry11 + 1) entry11]>
           (scsi.heap state11)
    /\ scsi.scsiDevices st' = scsi.scsiDevices state11
    /\ match res with
       | None =>
           r = (Some {| storage.target := "/t"; storage.mounted := true;
                        storage.refCount := 0 |}, None)
       | Some err =>
           r = (None,
                Some (withMessage err
                        ("failed to mount source: '" +:+ scsi.source entry11
                           +:+ "' to target: '" +:+ "/t" +:+ "'")))
       end.
Proof.
  apply (scsi_MountTo_kernel_call sysfs_one_disk kernel_ok 0%nat entry11 state11 "/t" true).
  - reflexivity.
  - vm_compute. split; [discriminate|reflexivity].
Defined.

(** X11.  [MountTo] on a PMEM entry makes exactly one call through a seam:
    a read-only kernel mount of [/dev/pmem<deviceNumber>] on the target with
    file system ["ext4"] and data ["noload,dax"].  Running the release hook
    [unmount] after it, whether the mount succeeded or not, returns normally,
    puts the entry back exactly as it was, and touches neither the registry nor
    the world. *)
Theorem pmem_MountTo_unmount_roundtrip (SD : storage.Deps) (p : pmem.loc) (e : pmem.Pmem)
    (st : pmem.State) (tgt : string) :
  pmem.heap st !! p = Some e ->
  0 <= pmem.refCount e < 2 ^ 63 - 1 ->
  exists r res st1 st2,
    pmem.MountTo SD p tgt st = Ok r st1
    /\ trace (pmem.world st1)
       = trace (pmem.world st)
           ++ [EvMount ("/dev/pmem" +:+ pretty (pmem.deviceNumber e)) tgt "ext4"
                 MS_RDONLY "noload,dax" res]
    /\ (res = None <-> r.2 = None)
    /\ (pmem.refCount <$> pmem.heap st1 !! p) = Some (pmem.refCount e + 1)
    /\ pmem.unmount p st1 = Ok tt st2
    /\ pmem.heap st2 = <[p := e]> (pmem.heap st)
    /\ pmem.pmemDevices st2 = pmem.pmemDevices st
    /\ pmem.world st2 = pmem.world st1.
Proof.
  intros Hp Hrange. unfold pmem.MountTo, pmem.unmount. unfold_pmem. unfold_storage.
  rewrite Hp. cbn. rewrite lookup_insert_eq. cbn.
  assert (Hw : wrap64 (pmem.refCount e + 1) = pmem.refCount e + 1).
  { unfold wrap64. rewrite Z.mod_small; lia. }
  assert (Hw' : wrap64 (pmem.refCount e + 1 - 1) = pmem.refCount e).
  { unfold wrap64. rewrite Z.mod_small; lia. }
  rewrite Hw.
  match goal with |- context [storage.syscallMount SD ?x1 ?x2 ?x3 ?x4 ?x5 ?x6] =>
    destruct (storage.syscallMount SD x1 x2 x3 x4 x5 x6) as [err|] eqn:Hsys
  end; cbn.
  - eexists _, (Some err), _, _. split; [reflexivity|]. cbn.
    split; [reflexivity|]. split; [split; discriminate|].
    rewrite !lookup_insert_eq. cbn. split; [reflexivity|].
    rewrite Hw'. destruct (decide (pmem.refCount e < 0)) as [Hneg|_]; [lia|].
    split; [reflexivity|]. cbn. rewrite !insert_insert_eq. destruct e; auto.
  - eexists _, None, _, _. split; [reflexivity|]. cbn.
    split; [reflexivity|]. split; [split; reflexivity|].
    rewrite !lookup_insert_eq. cbn. split; [reflexivity|].
    rewrite Hw'. destruct (decide (pmem.refCount e < 0)) as [Hneg|_]; [lia|].
    split; [reflexivity|]. cbn. rewrite !insert_insert_eq. destruct e; auto.
Qed.

Lemma pmem_MountTo_unmount_roundtrip_witness :
  exists r res st1 st2,
    pmem.MountTo kernel_mount_fails 5%nat "/t" pmem_state5 = Ok r st1
    /\ trace (pmem.world st1)
       = trace (pmem.world pmem_state5)
           ++ [EvMount ("/dev/pmem" +:+ pretty (pmem.deviceNumber pmem_entry5)) "/t" "ext4"
                 MS_RDONLY "noload,dax" res]
    /\ (res = None <-> r.2 = None)
    /\ (pmem.refCount <$> pmem.heap st1 !! 5%nat) = Some (pmem.refCount pmem_entry5 + 1)
    /\ pmem.unmount 5%nat st1 = Ok tt st2
    /\ pmem.heap st2 = <[5%nat := pmem_entry5]> (pmem.heap pmem_state5)
    /\ pmem.pmemDevices st2 = pmem.pmemDevices pmem_state5
    /\ pmem.world st2 = pmem.world st1.
Proof.
  apply (pmem_MountTo_unmount_roundtrip kernel_mount_fails 5%nat pmem_entry5
           pmem_state5 "/t").
  - reflexivity.
  - vm_compute. split; [discriminate|reflexivity].
Defined.

(** ** One PMEM entry per device number *)

Lemma pmem_fresh_not_allocated (st : pmem.State) :
  pmem.heap st !! fresh (dom (pmem.heap st)) = None.
Proof. apply not_elem_of_dom, is_fresh. Qed.

Lemma pmem_OpenDevice_keeps_ok (n : N) (st : pmem.State) :
  pmem_registry_ok st -> pmem_registry_ok (state_after (pmem.OpenDevice n st) st).
Proof.
  intros [Hvalid Hinj]. unfold pmem.OpenDevice. unfold_pmem. cbn.
  unfold pmem.pmemDeviceKey in *.
  pose proof (pmem_fresh_not_allocated st) as Hfresh.
  set (p0 := fresh (dom (pmem.heap st))) in *.
  assert (Hkeep : forall p, is_Some (pmem.heap st !! p) ->
            is_Some (<[p0 := pmem.mkPmem n 0]> (pmem.heap st) !! p)).
  { intros p [e He]. destruct (decide (p0 = p)) as [->|Hne].
    - rewrite lookup_insert_eq. eauto.
    - rewrite lookup_insert_ne by exact Hne. eauto. }
  destruct (pmem.pmemDevices st !! pretty n) as [a|] eqn:Hreg; cbn.
  - split.
    + intros k p Hk. cbn in Hk |- *. apply Hkeep. now apply (Hvalid k).
    + exact Hinj.
  - split.
    + intros k p Hk. cbn in Hk |- *. destruct (decide (pretty n = k)) as [<-|Hne].
      * rewrite lookup_insert_eq in Hk. injection Hk as <-.
        rewrite lookup_insert_eq. eauto.
      * rewrite lookup_insert_ne in Hk by exact Hne. apply Hkeep. now apply (Hvalid k).
    + intros k1 k2 p Hk1 Hk2. cbn in Hk1, Hk2.
      assert (Hold : forall k, pmem.pmemDevices st !! k = Some p0 -> False).
      { intros k Hk. destruct (Hvalid k p0 Hk) as [e He]. congruence. }
      destruct (decide (pretty n = k1)) as [<-|Hne1];
        destruct (decide (pretty n = k2)) as [<-|Hne2];
        rewrite ?lookup_insert_eq in *;
        rewrite ?lookup_insert_ne in * by assumption.
      * reflexivity.
      * injection Hk1 as <-. destruct (Hold k2 Hk2).
      * injection Hk2 as <-. destruct (Hold k1 Hk1).
      * now apply (Hinj k1 k2 p).
Qed.

Lemma pmem_step_keeps_ok (SD : storage.Deps) (c : pmem_call) (st : pmem.State) :
  pmem_registry_ok st -> pmem_registry_ok (pmem_step SD st c).
Proof.
  intros Hok. destruct c as [n|q target|q|m flags]; cbn [pmem_step].
  - now apply pmem_OpenDevice_keeps_ok.
  - destruct Hok as [Hvalid Hinj].
    assert (Hkeep : forall e' p, is_Some (pmem.heap st !! p) ->
              is_Some (<[q := e']> (pmem.heap st) !! p)).
    { intros e' p [e He]. destruct (decide (q = p)) as [->|Hne].
      - rewrite lookup_insert_eq. eauto.
      - rewrite lookup_insert_ne by exact Hne. eauto. }
    unfold pmem.MountTo. unfold_pmem. unfold_storage.
    destruct (pmem.heap st !! q) as [eq|]; cbn; [|split; assumption].
    rewrite lookup_insert_eq. cbn.
    match goal with |- context [storage.syscallMount SD ?x1 ?x2 ?x3 ?x4 ?x5 ?x6] =>
      destruct (storage.syscallMount SD x1 x2 x3 x4 x5 x6)
    end; cbn; (split; [intros k p Hk; cbn in Hk |- *; apply Hkeep; now apply (Hvalid k)|exact Hinj]).
  - destruct Hok as [Hvalid Hinj].
    assert (Hkeep : forall e' p, is_Some (pmem.heap st !! p) ->
              is_Some (<[q := e']> (pmem.heap st) !! p)).
    { intros e' p [e He]. destruct (decide (q = p)) as [->|Hne].
      - rewrite lookup_insert_eq. eauto.
      - rewrite lookup_insert_ne by exact Hne. eauto. }
    unfold pmem.unmount. unfold_pmem.
    destruct (pmem.heap st !! q) as [eq|]; cbn; [|split; assumption].
    rewrite lookup_insert_eq. cbn.
    match goal with |- context [decide ?P] => destruct (decide P) end; cbn;
      (split; [intros k p Hk; cbn in Hk |- *; apply Hkeep; now apply (Hvalid k)|exact Hinj]).
  - unfold pmem.Unmount. unfold_pmem. unfold_storage.
    destruct (storage.mounted m); cbn; [|exact Hok].
    match goal with |- context [storage.syscallUnmount SD ?a ?b ?c] =>
      destruct (storage.syscallUnmount SD a b c)
    end; cbn; exact Hok.
Qed.

Lemma pmem_run_keeps_ok (SD : storage.Deps) (calls : list pmem_call) :
  forall st : pmem.State, pmem_registry_ok st -> pmem_registry_ok (pmem_run SD calls st).
Proof.
  induction calls as [|c calls IH]; intros st Hok; [exact Hok|].
  cbn. apply IH. now apply pmem_step_keeps_ok.
Qed.

Lemma pmem_registry_ok_init : pmem_registry_ok pmem.init.
Proof.
  split.
  - intros k p H. cbn in H. rewrite lookup_empty in H. discriminate.
  - intros k1 k2 p H. cbn in H. rewrite lookup_empty in H. discriminate.
Defined.

(** X12.  In a PMEM registry that is in order, as a fresh one is, entries
    opened for two different device numbers are two different objects,
    whatever calls into the package are made between the two [OpenDevice]
    calls. *)
Theorem pmem_entries_are_distinct (SD : storage.Deps) (n1 n2 : N) (st st1 st2 : pmem.State)
    (p1 p2 : pmem.loc) (calls : list pmem_call) :
  pmem_registry_ok st ->
  n1 <> n2 ->
  pmem.OpenDevice n1 st = Ok (Some p1, None) st1 ->
  pmem.OpenDevice n2 (pmem_run SD calls st1) = Ok (Some p2, None) st2 ->
  p1 <> p2.
Proof.
  intros Hok Hne Hopen1 Hopen2 Heq. subst p2. apply Hne.
  destruct (pmem_OpenDevice_returns n1 st) as (q1 & st1' & Hrun1 & Hreg1 & _).
  rewrite Hopen1 in Hrun1. injection Hrun1 as <- <-.
  assert (Hok1 : pmem_registry_ok st1).
  { pose proof (pmem_OpenDevice_keeps_ok n1 st Hok) as H. now rewrite Hopen1 in H. }
  pose proof (pmem_run_keeps_ok SD calls st1 Hok1) as Hok'.
  pose proof (pmem_run_keeps_registered SD calls st1 _ p1 Hreg1) as Hreg1'.
  destruct (pmem_OpenDevice_returns n2 (pmem_run SD calls st1))
    as (q2 & st2' & Hrun2 & Hreg2 & _).
  rewrite Hopen2 in Hrun2. injection Hrun2 as <- <-.
  assert (Hok2 : pmem_registry_ok st2).
  { pose proof (pmem_OpenDevice_keeps_ok n2 _ Hok') as H. now rewrite Hopen2 in H. }
  assert (Hreg1'' : pmem.pmemDevices st2 !! pmem.pmemDeviceKey n1 = Some p1).
  { pose proof (pmem_step_keeps_registered SD (PmemOpenDevice n2) _ _ p1 Hreg1') as H.
    unfold pmem_step in H. now rewrite Hopen2 in H. }
  apply pmemDeviceKey_inj. destruct Hok2 as [_ Hinj].
  exact (Hinj _ _ p1 Hreg1'' Hreg2).
Qed.

Lemma pmem_entries_are_distinct_witness :
  exists st1 st2 p1 p2,
    pmem.OpenDevice 0 pmem.init = Ok (Some p1, None) st1
    /\ pmem.OpenDevice 1 (pmem_run kernel_ok [PmemMountTo 0%nat "/t"] st1)
         = Ok (Some p2, None) st2
    /\ p1 <> p2.
Proof.
  eexists _, _, _, _.
  split; [vm_compute; reflexivity|]. split; [vm_compute; reflexivity|].
  eapply (pmem_entries_are_distinct kernel_ok 0 1 pmem.init _ _ _ _
            [PmemMountTo 0%nat "/t"]).
  - exact pmem_registry_ok_init.
  - discriminate.
  - vm_compute. reflexivity.
  - vm_compute. reflexivity.
Defined.

(** ** The steps of an overlay mount *)

(** X13.  A read-only overlay mount that is given an upper or a work
    directory is refused with an error before anything is done: the world is
    returned as it was, so no directory is created and the kernel is not
    called. *)
Theorem overlay_readonly_is_guarded (D : overlay.Deps) (layerPaths : list string)
    (upperdirPath workdirPath rootfsPath : string) (w : World) :
  upperdirPath <> "" \/ workdirPath <> "" ->
  exists err,
    overlay.Mount D layerPaths upperdirPath workdirPath rootfsPath true w
      = Ok (Some err) w.
Proof.
  intros Hgiven. unfold overlay.Mount, overlay.Mount_body.
  assert (Hor : bool_decide (upperdirPath <> "") || bool_decide (workdirPath <> "") = true).
  { apply orb_true_iff. destruct Hgiven as [H|H]; [left|right]; now apply bool_decide_eq_true. }
  rewrite Hor. cbn. eexists. reflexivity.
Qed.

Lemma overlay_readonly_is_guarded_witness :
  exists err,
    overlay.Mount overlay_ok ["/l1"] "/u" "" "/rootfs" true world0 = Ok (Some err) world0.
Proof.
  apply (overlay_readonly_is_guarded overlay_ok ["/l1"] "/u" "" "/rootfs" world0).
  left. discriminate.
Defined.

Ltac overlay_step :=
  match goal with
  | |- context [overlay.osMkdirAll ?D ?tr ?path ?perm] =>
      let H := fresh "Hmk" in
      destruct (overlay.osMkdirAll D tr path perm) eqn:H; cbn
  | |- context [overlay.syscallMount ?D ?tr ?a ?b ?c ?f ?d] =>
      let H := fresh "Hsys" in
      destruct (overlay.syscallMount D tr a b c f d) eqn:H; cbn
  end.

(** X14.  Every call of the overlay composer's [Mount] reaches the kernel at
    most once.  It returns nil exactly when it reached the kernel and the
    kernel answered nil.  When it reaches the kernel, every directory that
    was given and the root file system directory had been created, in the
    order upper, work, rootfs, and the kernel is asked to mount source
    ["overlay"] of type ["overlay"] on the rootfs path with the lower layers
    joined by colons, followed by the given upper and work directories,
    joined by commas. *)
Theorem overlay_Mount_kernel_request (D : overlay.Deps) (layerPaths : list string)
    (upperdirPath workdirPath rootfsPath : string) (readonly : bool) (w : World) :
  exists r evs w',
    overlay.Mount D layerPaths upperdirPath workdirPath rootfsPath readonly w = Ok r w'
    /\ trace w' = trace w ++ evs
    /\ match kernel_mount_answers evs with
       | [] => r <> None
       | [(source, tgt, fstype, data, res)] =>
           source = "overlay" /\ tgt = rootfsPath /\ fstype = "overlay"
           /\ data = overlay_options layerPaths upperdirPath workdirPath
           /\ (r = None <-> res = None)
           /\ created evs = given [upperdirPath; workdirPath] ++ [rootfsPath]
       | _ => False
       end.
Proof.
  unfold overlay.Mount, overlay.Mount_body, overlay.Mount_workdir, overlay.Mount_rootfs,
    overlay_options, upperdir_options, workdir_options, given.
  cbn [List.filter].
  destruct (readonly && (bool_decide (upperdirPath <> "") || bool_decide (workdirPath <> "")))
    eqn:Hguard.
  { cbn. eexists _, [], _. split; [reflexivity|]. rewrite app_nil_r.
    split; [reflexivity|]. cbn. discriminate. }
  destruct (decide (upperdirPath <> "")) as [Hu|Hu];
    [rewrite (bool_decide_true _ Hu)|rewrite (bool_decide_false _ Hu)];
    (destruct (decide (workdirPath <> "")) as [Hw|Hw];
     [rewrite (bool_decide_true _ Hw)|rewrite (bool_decide_false _ Hw)]);
    unfold_overlay; cbn; repeat overlay_step;
    eexists _, _, _; (split; [reflexivity|]); cbn;
    rewrite <- ?app_assoc; (split; [reflexivity|]); cbn;
    try discriminate;
    repeat split; try reflexivity; try discriminate.
Qed.

(** ** The multiplexer *)

(** X15.  Registering a handler function for a message type on any
    multiplexer succeeds; afterwards a request of that type is served by
    running that function, also when another handler had been registered for
    the type before, and a request of any other type is served as it was
    before the registration.  Registering a nil function panics. *)
Theorem HandleFunc_then_ServeMsg {S : Type} (P : prot.Params) (mux : bridge.Mux S)
    (id : prot.MessageIdentifier) (h : bridge.HandlerFunc S)
    (w : bridge.ResponseWriter S) (r : bridge.Request) (st : S) :
  exists mux',
    bridge.HandleFunc id (Some h) mux = Ok tt mux'
    /\ (prot.Type_ (bridge.Header r) = id ->
        bridge.ServeMsg P mux' w (Some r) st = h w r st)
    /\ (prot.Type_ (bridge.Header r) <> id ->
        bridge.ServeMsg P mux' w (Some r) st = bridge.ServeMsg P mux w (Some r) st)
    /\ bridge.HandleFunc id None mux = Panic "bridge: nil handler func" mux.
Proof.
  eexists. split; [reflexivity|].
  unfold bridge.ServeMsg, bridge.Mux_Handler. cbn [bridge.m].
  split; [|split; [|reflexivity]].
  - intros ->. rewrite lookup_insert_eq. reflexivity.
  - intros Hne. rewrite lookup_insert_ne by congruence. reflexivity.
Qed.

Lemma registered_identifiers {S : Type} (P : prot.Params) (c : gcs.Core S)
    (others : gcs.Others S) (id : prot.MessageIdentifier) :
  id ∉ prot.identifiers P ->
  exists mux,
    gcs.register_all P c others bridge.NewBridgeMux = Ok tt mux
    /\ bridge.m mux !! id = None.
Proof.
  intros Hid. eexists. split; [reflexivity|].
  unfold prot.identifiers in Hid.
  repeat match goal with
         | H : _ ∉ _ :: _ |- _ => apply not_elem_of_cons in H as [? H]
         end.
  cbn. rewrite !lookup_insert_ne by congruence. apply lookup_empty.
Qed.

(** X16.  The handler built by [NewGcsHandler] answers a request whose type
    is none of the nine registered ones with exactly one response, an error:
    the not-supported error that names the type in hexadecimal, wrapped with
    the not-implemented HRESULT.  The supervisor is not called. *)
Theorem unregistered_type_is_not_supported (P : prot.Params)
    (behavior : list gcs.Call -> string -> oslayer.Signal -> option error)
    (others : gcs.Others (list gcs.Call)) (header : prot.MessageHeader)
    (r : bridge.Request) (calls : list gcs.Call) :
  prot.Type_ (bridge.Header r) ∉ prot.identifiers P ->
  exists h,
    gcs.NewGcsHandler P (gcs.mockCore behavior) others tt = Ok h tt
    /\ gcs.ServeMsg P h (gcs.testResponseWriter header) (Some r) calls
       = Ok tt
           (calls ++
            [gcs.CallError header
               (bridge.WrapHresult
                  (errorString ("bridge: function not supported, header type: 0x"
                                  +:+ fmt_hex (prot.Type_ (bridge.Header r))))
                  (prot.HrNotImpl P))]).
Proof.
  intros Hid.
  destruct (registered_identifiers P (gcs.mockCore behavior) others _ Hid)
    as (mux & Hreg & Hnone).
  unfold gcs.NewGcsHandler. rewrite Hreg. eexists. split; [reflexivity|].
  unfold gcs.ServeMsg, bridge.ServeMsg, bridge.Mux_Handler. cbn [gcs.mux].
  rewrite Hnone. reflexivity.
Qed.

Lemma unregistered_type_is_not_supported_witness :
  exists h,
    gcs.NewGcsHandler sample_params (gcs.mockCore (fun _ _ _ => None)) sample_others tt
      = Ok h tt
    /\ gcs.ServeMsg sample_params h (gcs.testResponseWriter sample_header)
         (Some (sample_request 255%N)) []
       = Ok tt
           ([] ++
            [gcs.CallError sample_header
               (bridge.WrapHresult
                  (errorString ("bridge: function not supported, header type: 0x"
                                  +:+ fmt_hex (prot.Type_ (bridge.Header (sample_request 255%N)))))
                  (prot.HrNotImpl sample_params))]).
Proof.
  apply (unregistered_type_is_not_supported sample_params (fun _ _ _ => None)
           sample_others sample_header (sample_request 255%N) []).
  compute_done.
Defined.

(** X17.  The two shutdown handlers write exactly one response for every
    request.  When the message does not decode, the response is an error that
    wraps the decoding error and quotes the message, and the supervisor is not
    called; when it decodes, the supervisor is called once, and its error, if
    any, is the response as it is. *)
Theorem signalContainer_responds_once (P : prot.Params)
    (behavior : list gcs.Call -> string -> oslayer.Signal -> option error)
    (header : prot.MessageHeader) (r : bridge.Request) (signal : oslayer.Signal)
    (calls : list gcs.Call) :
  exists calls',
    gcs.signalContainer P (gcs.mockCore behavior) (gcs.testResponseWriter header) r signal
      calls = Ok tt calls'
    /\ gcs.respWriteCount calls' = S (gcs.respWriteCount calls)
    /\ match prot.UnmarshalMessageBase P (bridge.Message r) with
       | inr derr =>
           calls' = calls ++
             [gcs.CallError header
                (withMessage derr
                   ("failed to unmarshal JSON for message " +:+ DQ
                      +:+ bridge.Message r +:+ DQ))]
       | inl request =>
           exists res,
             res = behavior calls (prot.ContainerID request) signal
             /\ calls' = calls ++
                  gcs.CallSignalContainer (prot.ContainerID request) signal res
                  :: match res with
                     | Some e => [gcs.CallError header e]
                     | None =>
                         [gcs.CallWrite header
                            (bridge.ResponseBase
                               {| prot.Result := 0;
                                  prot.rb_ActivityID := prot.ActivityID request;
                                  prot.ErrorRecords := [] |})]
                     end
       end.
Proof.
  unfold gcs.signalContainer.
  destruct (prot.UnmarshalMessageBase P (bridge.Message r)) as [request|derr].
  - unfold_monad. cbn.
    destruct (behavior calls (prot.ContainerID request) signal) eqn:Hb;
      unfold modify; cbn; eexists; (split; [reflexivity|]);
      (split; [unfold gcs.respWriteCount;
               rewrite !List.filter_app, !length_app; cbn; lia|]);
      eexists; (split; [reflexivity|]); now rewrite <- app_assoc.
  - cbn. unfold modify. eexists. split; [reflexivity|].
    split; [unfold gcs.respWriteCount; rewrite List.filter_app, length_app; cbn; lia|].
    reflexivity.
Qed.

(** ** Lookups without a registry *)

(** The lookup loop ends within its fuel.  It scans at least once and at
    most once per unit of fuel; it breaks on the first listing it gets, and
    gives up on a failed scan only after the deadline. *)
Lemma lookup_loop_returns (D : scsi.Deps) (fuel : nat) (path : string) (startTime : Z) :
  forall w : World,
    (1 <= fuel)%nat ->
    scsi_go.DeviceLookupTimeout - (clock w - startTime)
      < Millisecond * 10 * (Z.of_nat fuel - 1) ->
    exists r w' evs,
      scsi_go.lookup_loop D fuel path startTime w = Ok r w'
      /\ clock w <= clock w'
      /\ (scans (trace w) < scans (trace w') <= scans (trace w) + fuel)%nat
      /\ match r with
         | inl names => trace w' = trace w ++ evs ++ [EvReadDir path (inl names)]
         | inr err =>
             exists cause,
               err = errors_Wrap cause
                       "failed to retrieve SCSI device names from filesystem"
               /\ trace w' = trace w ++ evs ++ [EvReadDir path (inr cause)]
               /\ clock w' - startTime > scsi_go.DeviceLookupTimeout
         end.
Proof.
  induction fuel as [|fuel IH]; intros w Hfuel Hrem; [lia|].
  cbn [scsi_go.lookup_loop]. unfold_scsi.
  destruct (scsi.ioutilReadDir D (trace w) path) as [ans dt] eqn:Hrd.
  destruct ans as [names|err]; cbn.
  - exists (inl names), (advance (Z.of_N dt) (log (EvReadDir path (inl names)) w)), [].
    split; [reflexivity|]. unfold advance, log; cbn.
    rewrite scans_snoc_ReadDir. repeat split; lia.
  - match goal with |- context [decide (?a > ?b)] => destruct (decide (a > b)) as [Hgt|Hle] end.
    + eexists _, _, []. split; [reflexivity|]. unfold advance, log in *; cbn in *.
      rewrite scans_snoc_ReadDir. split; [lia|]. split; [lia|].
      exists err. split; [reflexivity|]. split; [reflexivity|]. exact Hgt.
    + cbn.
      match goal with |- context [scsi_go.lookup_loop D fuel path startTime ?w1] =>
        destruct (IH w1) as (r & w' & evs & Hrun & Hclk & Hsc & Hshape)
      end.
      { unfold advance, log in *; cbn in *. unfold Millisecond in *. lia. }
      { unfold advance, log in *; cbn in *. unfold Millisecond in *. lia. }
      rewrite Hrun.
      exists r, w', ([EvReadDir path (inr err); EvSleep (Millisecond * 10)] ++ evs).
      split; [reflexivity|].
      unfold advance, log in *; cbn in *.
      rewrite scans_snoc_Sleep, scans_snoc_ReadDir in Hsc.
      split; [unfold Millisecond in *; lia|]. split; [lia|].
      destruct r as [names|e].
      * rewrite Hshape, <- !app_assoc. reflexivity.
      * destruct Hshape as (cause & -> & Htr & Hlate). exists cause.
        split; [reflexivity|]. split; [|exact Hlate].
        rewrite Htr, <- !app_assoc. reflexivity.
Qed.

(** X18.  [ControllerLunToName] always returns, after at least one and at
    most [timeout / 10ms + 2] scans of the device's block directory.  It
    answers a path under /dev exactly when the last scan listed exactly one
    name; a scan that fails, for whatever reason, is tried again, and the
    wrapped error of a failed scan is returned only once more than the lookup
    timeout has passed. *)
Theorem ControllerLunToName_returns (D : scsi.Deps) (controller lun : N) (w : World) :
  exists name err w' evs last,
    scsi_go.ControllerLunToName D controller lun w = Ok (name, err) w'
    /\ trace w' =
         trace w ++ evs ++
           [EvReadDir
              (filepath_Join ["/sys/bus/scsi/devices"; scsi_go.scsiID controller lun; "block"])
              last]
    /\ (1 <= scans (trace w') - scans (trace w)
          <= scsi.resolve_fuel scsi_go.DeviceLookupTimeout)%nat
    /\ clock w <= clock w'
    /\ match last with
       | inl [n] => name = filepath_Join ["/dev"; n] /\ err = None
       | inl _ => name = "" /\ exists msg, err = Some (errorString msg)
       | inr cause =>
           name = ""
           /\ err = Some (errors_Wrap cause
                            "failed to retrieve SCSI device names from filesystem")
           /\ clock w' - clock w > scsi_go.DeviceLookupTimeout
       end.
Proof.
  unfold scsi_go.ControllerLunToName. unfold time_Now at 1. unfold bind at 1.
  set (path := filepath_Join ["/sys/bus/scsi/devices"; scsi_go.scsiID controller lun; "block"]).
  destruct (lookup_loop_returns D (scsi.resolve_fuel scsi_go.DeviceLookupTimeout) path
              (clock w) w) as (r & w' & evs & Hrun & Hclk & Hsc & Hshape).
  { unfold scsi.resolve_fuel. lia. }
  { pose proof (resolve_fuel_enough scsi_go.DeviceLookupTimeout). lia. }
  unfold bind. rewrite Hrun.
  destruct r as [names|e].
  - destruct names as [|n [|n' names]]; cbn;
      eexists _, _, w', evs, (inl _);
      (split; [reflexivity|]); (split; [exact Hshape|]);
      (split; [lia|]); (split; [exact Hclk|]);
      try (split; [reflexivity|]); try reflexivity; eexists; reflexivity.
  - destruct Hshape as (cause & -> & Htr & Hlate). cbn.
    exists "", (Some (errors_Wrap cause
                        "failed to retrieve SCSI device names from filesystem")),
      w', evs, (inr cause).
    split; [reflexivity|]. split; [exact Htr|]. split; [lia|]. split; [exact Hclk|].
    split; [reflexivity|]. split; [reflexivity|]. exact Hlate.
Qed.

(** X19.  For the last reference to a registry entry opened for
    [(controller, lun)], [eject] makes exactly the file system requests that
    [UnplugDevice(controller, lun)] makes, and the two leave the same world:
    one attempt to open the device's delete file for writing and, when it
    opened, one write of "1" and a newline followed by the close.
    [UnplugDevice] returns nil when the file does not exist, and otherwise the
    error of the request that failed. *)
Theorem UnplugDevice_as_eject (D : scsi.Deps) (controller lun : N) (s : scsi.loc)
    (e : scsi.Scsi) (st : scsi.State) :
  scsi.heap st !! s = Some e ->
  scsi.key e = scsi.scsiDevicesKey controller lun ->
  scsi.refCount e = 1 ->
  exists r st' evs,
    scsi.eject D s st = Ok tt st'
    /\ scsi_go.UnplugDevice D controller lun (scsi.world st) = Ok r (scsi.world st')
    /\ trace (scsi.world st') = trace (scsi.world st) ++ evs
    /\ match evs with
       | [EvOpenFile path flag perm (Some err)] =>
           path = filepath_Join
                    ["/sys/bus/scsi/devices"; scsi_go.scsiID controller lun; "delete"]
           /\ flag = O_WRONLY /\ perm = 420
           /\ r = (if os_IsNotExist err then None else Some err)
       | [EvOpenFile path flag perm None; EvWrite path' data werr; EvClose path''] =>
           path = filepath_Join
                    ["/sys/bus/scsi/devices"; scsi_go.scsiID controller lun; "delete"]
           /\ path' = path /\ path'' = path
           /\ flag = O_WRONLY /\ perm = 420
           /\ data = "1" +:+ LF
           /\ r = werr
       | _ => False
       end.
Proof.
  intros Hs Hkey Hrc.
  unfold scsi.eject, scsi_go.UnplugDevice. unfold_scsi. rewrite Hs. simpl_scsi.
  rewrite lookup_insert_eq. cbn. rewrite Hrc.
  change (wrap64 (1 - 1)) with 0.
  destruct (decide (0 < 0)) as [Hlt|_]; [lia|].
  destruct (decide (0 = 0)) as [_|Hne]; [|congruence].
  rewrite Hkey. change (scsi.scsiDevicesKey controller lun)
    with (scsi_go.scsiID controller lun).
  set (path := "/sys/bus/scsi/devices" +:+ "/" +:+ scsi_go.scsiID controller lun
                 +:+ "/" +:+ "delete").
  destruct (scsi.osOpenFile D (trace (scsi.world st)) path O_WRONLY 420) as [oerr|] eqn:Hopen;
    cbn; rewrite ?Hopen; cbn.
  - exists (if os_IsNotExist oerr then None else Some oerr). eexists _, _.
    split; [reflexivity|]. cbn.
    split; [destruct (os_IsNotExist oerr); reflexivity|].
    split; [reflexivity|]. cbn. repeat split; reflexivity.
  - destruct (scsi.fileWrite D (trace (scsi.world st) ++ [EvOpenFile path O_WRONLY 420 None])
                path ("1" +:+ LF)) as [werr|] eqn:Hwrite; cbn;
      eexists _, _, _; (split; [reflexivity|]); cbn;
      (split; [reflexivity|]);
      (split; [rewrite <- !app_assoc; reflexivity|]); cbn; repeat split; reflexivity.
Qed.

Lemma UnplugDevice_as_eject_witness :
  exists r st' evs,
    scsi.eject sysfs_one_disk 0%nat
      (scsi.set_heap (insert 0%nat (scsi.with_refCount 1 entry11)) state11) = Ok tt st'
    /\ scsi_go.UnplugDevice sysfs_one_disk 1 1
         (scsi.world (scsi.set_heap (insert 0%nat (scsi.with_refCount 1 entry11)) state11))
       = Ok r (scsi.world st')
    /\ trace (scsi.world st')
       = trace (scsi.world
                  (scsi.set_heap (insert 0%nat (scsi.with_refCount 1 entry11)) state11))
           ++ evs
    /\ match evs with
       | [EvOpenFile path flag perm (Some err)] =>
           path = filepath_Join ["/sys/bus/scsi/devices"; scsi_go.scsiID 1 1; "delete"]
           /\ flag = O_WRONLY /\ perm = 420
           /\ r = (if os_IsNotExist err then None else Some err)
       | [EvOpenFile path flag perm None; EvWrite path' data werr; EvClose path''] =>
           path = filepath_Join ["/sys/bus/scsi/devices"; scsi_go.scsiID 1 1; "delete"]
           /\ path' = path /\ path'' = path
           /\ flag = O_WRONLY /\ perm = 420
           /\ data = "1" +:+ LF
           /\ r = werr
       | _ => False
       end.
Proof.
  apply (UnplugDevice_as_eject sysfs_one_disk 1 1 0%nat (scsi.with_refCount 1 entry11)
           (scsi.set_heap (insert 0%nat (scsi.with_refCount 1 entry11)) state11)).
  - vm_compute. reflexivity.
  - vm_compute. reflexivity.
  - reflexivity.
Defined.

(** ** The response writer of a request *)

(** X20.  [Error] on the writer of a request sends exactly one response on
    the channel, under the request's header, and marks the writer as written.
    The response has no activity id and one error record; its result and the
    record's result are the error's HRESULT, or the generic failure HRESULT
    when the error carries none; the record holds the error's message and the
    module name "gcs".  Without a stack trace the record has empty file,
    function and stack, and the line is -1 converted to 32 bits unsigned; with
    one, file and function are those of the first frame and the line is -1
    converted likewise when the frame's line does not parse.  A stack that is
    not nil but empty makes [Error] panic with nothing sent. *)
Theorem Error_sends_one_response {Frame : Type} (G : bridge_response.Gcserr Frame)
    (h : prot.MessageHeader) (err : error) (st : bridge_response.WriterState) :
  match bridge_response.BaseStackTrace G err with
  | Some [] => bridge_response.Error G h err st = Panic "index out of range" st
  | stack =>
      exists record,
        bridge_response.Error G h err st
        = Ok tt
            {| bridge_response.respChan :=
                 bridge_response.respChan st ++
                   [{| bridge_response.header := h;
                       bridge_response.response :=
                         bridge.ResponseBase
                           {| prot.Result := prot.er_Result record;
                              prot.rb_ActivityID := "";
                              prot.ErrorRecords := [record] |} |}];
               bridge_response.respWritten := true |}
        /\ prot.er_Result record
           = match bridge_response.GetHresult G err with
             | Some hresult => hresult
             | None => bridge_response.HrFail G
             end
        /\ prot.er_Message record = bridge_response.Error_ G err
        /\ prot.er_ModuleName record = "gcs"
        /\ (prot.er_Line record < 2 ^ 32)%N
        /\ match stack with
           | Some (bottomFrame :: _) =>
               prot.er_FileName record = bridge_response.fmt_s G bottomFrame
               /\ prot.er_FunctionName record = bridge_response.fmt_n G bottomFrame
               /\ (strconv_Atoi (bridge_response.fmt_d G bottomFrame) = None ->
                   prot.er_Line record = 4294967295%N)
           | _ =>
               prot.er_FileName record = "" /\ prot.er_FunctionName record = ""
               /\ prot.er_StackTrace record = ""
               /\ prot.er_Line record = 4294967295%N
           end
  end.
Proof.
  assert (Hrange : forall z, (bridge_response.uint32 z < 2 ^ 32)%N).
  { intros z. unfold bridge_response.uint32.
    pose proof (Z.mod_pos_bound z (2 ^ 32) ltac:(lia)) as Hb.
    change (2 ^ 32)%N with (Z.to_N (2 ^ 32)). lia. }
  unfold bridge_response.Error, bridge_response.setErrorForResponseBase,
    bridge_response.Write.
  unfold_monad.
  destruct (bridge_response.BaseStackTrace G err) as [[|bottomFrame stack]|]; cbn.
  - reflexivity.
  - eexists (prot.mkErrorRecord _ _ _ _ _ _ _). cbn. split; [reflexivity|].
    split; [reflexivity|]. split; [reflexivity|]. split; [reflexivity|].
    split; [apply Hrange|]. split; [reflexivity|]. split; [reflexivity|].
    intros ->. reflexivity.
  - eexists (prot.mkErrorRecord _ _ _ _ _ _ _). cbn. split; [reflexivity|].
    split; [reflexivity|]. split; [reflexivity|]. split; [reflexivity|].
    split; [apply Hrange|]. repeat split; reflexivity.
Qed.

(** X21.  A shutdown handler that answers through the writer of a request:
    when the message decodes and the supervisor returns, exactly one response
    follows what the supervisor left on the channel.  On success it is the
    empty envelope with result 0 and the activity id of the request; on an
    error without a stack trace its result is the error's HRESULT, or the
    generic failure HRESULT, it has one error record, and the activity id of
    the request is not in it. *)
Theorem signalContainer_over_request_writer {Frame : Type} (P : prot.Params)
    (G : bridge_response.Gcserr Frame) (c : gcs.Core bridge_response.WriterState)
    (h : prot.MessageHeader) (r : bridge.Request) (signal : oslayer.Signal)
    (request : prot.MessageBase) (res : option error)
    (st st1 : bridge_response.WriterState) :
  prot.UnmarshalMessageBase P (bridge.Message r) = inl request ->
  gcs.SignalContainer c (prot.ContainerID request) signal st = Ok res st1 ->
  (forall e, res = Some e -> bridge_response.BaseStackTrace G e = None) ->
  exists resp,
    gcs.signalContainer P c (bridge_response.requestResponseWriter G h) r signal st
    = Ok tt
        {| bridge_response.respChan :=
             bridge_response.respChan st1 ++
               [{| bridge_response.header := h;
                   bridge_response.response := bridge.ResponseBase resp |}];
           bridge_response.respWritten := true |}
    /\ match res with
       | None =>
           resp = {| prot.Result := 0;
                     prot.rb_ActivityID := prot.ActivityID request;
                     prot.ErrorRecords := [] |}
       | Some e =>
           prot.Result resp
           = match bridge_response.GetHresult G e with
             | Some hresult => hresult
             | None => bridge_response.HrFail G
             end
           /\ prot.rb_ActivityID resp = ""
           /\ length (prot.ErrorRecords resp) = 1%nat
       end.
Proof.
  intros Hdec Hcore Hstack.
  unfold gcs.signalContainer. rewrite Hdec. unfold bind at 1. rewrite Hcore.
  destruct res as [e|].
  - cbn [bridge.rw_Error bridge_response.requestResponseWriter].
    unfold bridge_response.Error, bridge_response.setErrorForResponseBase,
      bridge_response.Write.
    unfold_monad. rewrite (Hstack e eq_refl). cbn.
    eexists. split; [reflexivity|]. cbn. repeat split; reflexivity.
  - eexists. split; [reflexivity|]. reflexivity.
Qed.

Lemma signalContainer_over_request_writer_witness :
  exists resp,
    gcs.signalContainer sample_params refusing_core
      (bridge_response.requestResponseWriter sample_gcserr sample_header)
      (sample_request 3%N) oslayer.SIGKILL writer0
    = Ok tt
        {| bridge_response.respChan :=
             bridge_response.respChan writer0 ++
               [{| bridge_response.header := sample_header;
                   bridge_response.response := bridge.ResponseBase resp |}];
           bridge_response.respWritten := true |}
    /\ prot.Result resp = -2147467259
    /\ prot.rb_ActivityID resp = ""
    /\ length (prot.ErrorRecords resp) = 1%nat.
Proof.
  apply (signalContainer_over_request_writer sample_params sample_gcserr refusing_core
           sample_header (sample_request 3%N) oslayer.SIGKILL
           {| prot.ContainerID := "test"; prot.ActivityID := "act" |}
           (Some (errorString "refused")) writer0 writer0).
  - reflexivity.
  - reflexivity.
  - intros e _. reflexivity.
Defined.

(** ** The handlers that answer with the plain envelope *)

Section PlainHandlers.

Context {Options Settings : Type}.

Variable J : gcs_requests.Decoders Options Settings.
Variable answer : list (gcs_requests.Call Options Settings) -> option error.
Variable header : prot.MessageHeader.

Ltac plain_handler :=
  let H := fresh "Hanswer" in
  unfold bind; cbn;
  match goal with
  | |- context [answer ?calls] => destruct (answer calls) as [e|] eqn:H
  end;
  cbn; unfold modify;
  eexists; (split; [rewrite <- app_assoc; reflexivity|]);
  cbn; rewrite ?H; repeat split; try reflexivity; try discriminate.

(** X22.  The handlers of the signal-process, resize-console and
    modify-settings messages each append to the record of calls either one
    error response alone, when the message does not decode, or one call of the
    supervisor followed by one response: the supervisor's error as it is, or
    the empty envelope with result 0 and the activity id of the request.  The
    supervisor is handed the process id, and height before width, or the
    container id and the settings, as the request holds them. *)
Theorem plain_handlers_answer_once (r : bridge.Request)
    (calls : list (gcs_requests.Call Options Settings)) :
  (exists news,
     gcs_requests.signalProcess J (gcs_requests.mockCore answer)
       (gcs_requests.testResponseWriter header) r calls = Ok tt (calls ++ news)
     /\ gcs_requests.answers_once header news
     /\ match gcs_requests.UnmarshalContainerSignalProcess J (bridge.Message r) with
        | inr derr =>
            news = [gcs_requests.CallError header (gcs_requests.unmarshal_error derr r)]
        | inl request =>
            head news
            = Some (gcs_requests.CallSignalProcess
                      (Z.of_N (gcs_requests.sp_ProcessID request))
                      (gcs_requests.sp_Options request) (answer calls))
            /\ (answer calls = None ->
                last news
                = Some (gcs_requests.CallWrite header
                          (success_envelope (gcs_requests.sp_ActivityID request))))
        end)
  /\ (exists news,
        gcs_requests.resizeConsole J (gcs_requests.mockCore answer)
          (gcs_requests.testResponseWriter header) r calls = Ok tt (calls ++ news)
        /\ gcs_requests.answers_once header news
        /\ match gcs_requests.UnmarshalContainerResizeConsole J (bridge.Message r) with
           | inr derr =>
               news = [gcs_requests.CallError header (gcs_requests.unmarshal_error derr r)]
           | inl request =>
               head news
               = Some (gcs_requests.CallResizeConsole
                         (Z.of_N (gcs_requests.rc_ProcessID request))
                         (gcs_requests.rc_Height request)
                         (gcs_requests.rc_Width request) (answer calls))
               /\ (answer calls = None ->
                   last news
                   = Some (gcs_requests.CallWrite header
                             (success_envelope (gcs_requests.rc_ActivityID request))))
           end)
  /\ (exists news,
        gcs_requests.modifySettings J (gcs_requests.mockCore answer)
          (gcs_requests.testResponseWriter header) r calls = Ok tt (calls ++ news)
        /\ gcs_requests.answers_once header news
        /\ match gcs_requests.UnmarshalContainerModifySettings J (bridge.Message r) with
           | inr derr =>
               news = [gcs_requests.CallError header (gcs_requests.unmarshal_error derr r)]
           | inl request =>
               head news
               = Some (gcs_requests.CallModifySettings
                         (gcs_requests.ms_ContainerID request)
                         (gcs_requests.ms_Request request) (answer calls))
               /\ (answer calls = None ->
                   last news
                   = Some (gcs_requests.CallWrite header
                             (success_envelope (gcs_requests.ms_ActivityID request))))
           end).
Proof.
  split; [|split].
  - unfold gcs_requests.signalProcess.
    destruct (gcs_requests.UnmarshalContainerSignalProcess J (bridge.Message r))
      as [request|derr].
    + plain_handler.
    + cbn. unfold modify. eexists. split; [reflexivity|]. split; reflexivity.
  - unfold gcs_requests.resizeConsole.
    destruct (gcs_requests.UnmarshalContainerResizeConsole J (bridge.Message r))
      as [request|derr].
    + plain_handler.
    + cbn. unfold modify. eexists. split; [reflexivity|]. split; reflexivity.
  - unfold gcs_requests.modifySettings.
    destruct (gcs_requests.UnmarshalContainerModifySettings J (bridge.Message r))
      as [request|derr].
    + plain_handler.
    + cbn. unfold modify. eexists. split; [reflexivity|]. split; reflexivity.
Qed.

End PlainHandlers.

(** ** Signals to the processes of a container *)

(** X23.  [SignalProcess] asks at most one thing of the outside, and returns
    its answer.  It asks nothing exactly when [all] is set for a pid that is
    not the init pid, and then returns the invalid-argument error.  It asks
    runc only for the init pid, with the container's id and with [all] as
    given; it asks the kernel only for another pid, and never with [all]
    set. *)
Theorem SignalProcess_requests (D : runtimev2.Deps) (HrInvalidArg : Z)
    (c : runtimev2.Container) (pid sig : Z) (all : bool)
    (tr : list runtimev2.KillEvent) :
  exists r evs,
    runtimev2.SignalProcess D HrInvalidArg c pid sig all tr = Ok r (tr ++ evs)
    /\ match evs with
       | [] =>
           all = true /\ pid <> runtimev2.pid (runtimev2.init c)
           /\ r = Some (bridge.WrapHresult runtimev2.all_needs_init HrInvalidArg)
       | [runtimev2.EvRuncKill id' sig' all' res] =>
           pid = runtimev2.pid (runtimev2.init c)
           /\ id' = runtimev2.id c /\ sig' = sig /\ all' = all
           /\ res = runtimev2.runcKill D tr id' sig' all' /\ r = res
       | [runtimev2.EvSyscallKill pid' sig' res] =>
           pid <> runtimev2.pid (runtimev2.init c) /\ all = false
           /\ pid' = pid /\ sig' = sig
           /\ res = runtimev2.syscallKill D tr pid' sig' /\ r = res
       | _ => False
       end.
Proof.
  unfold runtimev2.SignalProcess, runtimev2.call_runcKill, runtimev2.call_syscallKill, ret.
  destruct (bool_decide (pid = runtimev2.pid (runtimev2.init c))) eqn:Hpid.
  - apply bool_decide_eq_true in Hpid. rewrite andb_false_r.
    eexists _, [_]. split; [reflexivity|]. repeat split; [exact Hpid].
  - apply bool_decide_eq_false in Hpid. destruct all; cbn.
    + exists (Some (bridge.WrapHresult runtimev2.all_needs_init HrInvalidArg)), [].
      rewrite app_nil_r. repeat split. exact Hpid.
    + eexists _, [_]. split; [reflexivity|]. repeat split. exact Hpid.
Qed.

(** ** From [NewMount] to [Unmount] *)

(** X24.  [NewMount] makes one kernel mount call with its arguments as
    given, and returns a mount or an error, never both and never neither.
    The error wraps the kernel's and keeps it as its cause.  The mount is
    mounted, its target is the one asked for, and [Unmount] on it makes one
    kernel unmount call, with that target; the mount stays mounted exactly
    when that call fails. *)
Theorem NewMount_then_Unmount (D : storage.Deps) (source tgt fstype : string)
    (flags : Z) (data : string) (uflags : Z) (w : World) :
  exists r res w1,
    storage.NewMount D source tgt fstype flags data w = Ok r w1
    /\ trace w1 = trace w ++ [EvMount source tgt fstype flags data res]
    /\ match r with
       | (Some m, None) =>
           res = None
           /\ storage.IsMounted m = true /\ storage.Target m = tgt
           /\ exists m' uerr ures w2,
                storage.Unmount D m uflags w1 = Ok (m', uerr) w2
                /\ trace w2 = trace w1 ++ [EvUnmount tgt uflags ures]
                /\ storage.Target m' = tgt
                /\ (uerr = None <-> ures = None)
                /\ storage.IsMounted m' = bool_decide (ures <> None)
       | (None, Some err) =>
           exists e,
             res = Some e /\ err = storage.mount_error e source tgt
             /\ errors_Cause err = errors_Cause e
       | _ => False
       end.
Proof.
  unfold storage.NewMount. unfold_storage. unfold log. cbn.
  destruct (storage.syscallMount D (trace w) source tgt fstype flags data) as [e|] eqn:Hm.
  - eexists _, _, _. split; [reflexivity|]. split; [reflexivity|]. cbn.
    exists e. repeat split.
  - eexists _, _, _. split; [reflexivity|]. split; [reflexivity|]. cbn.
    split; [reflexivity|]. split; [reflexivity|]. split; [reflexivity|].
    destruct (storage.syscallUnmount D
                (trace w ++ [EvMount source tgt fstype flags data None]) tgt uflags)
      as [ue|] eqn:Hu.
    + eexists _, _, _, _. split; [reflexivity|]. cbn.
      split; [reflexivity|]. split; [reflexivity|].
      split; [split; discriminate|]. reflexivity.
    + eexists _, _, _, _. split; [reflexivity|]. cbn.
      split; [reflexivity|]. split; [reflexivity|].
      split; [split; reflexivity|]. reflexivity.
Qed.
